(** * A to-do list manager: file storage, list service and task service

    A shallow embedding of [utils/fileStorage.ts], [services/listService.ts]
    and [services/taskService.ts], together with the models they operate on,
    the validators of [utils/validation.ts] and the error handler of
    [middleware/errorHandler.ts].

    Conventions of the embedding.
    - A JavaScript string is a [string] whose characters are read as the code
      points U+0000 .. U+00FF.  [toLowerCase], [trim] and [includes] are the
      ECMAScript functions restricted to that range.
    - A [Date] is its time value, an integer number of milliseconds since the
      epoch.  Invalid dates are not represented.
    - An asynchronous function is a computation in the monad [M]: it takes the
      world (the data directory, the clock, the UUID generator), returns a
      value or throws, and leaves a new world.  [await] is sequencing.
    - A file holds a text.  A text is identified with the document it is the
      JSON of ([Json]), or it is [Garbage]: a text that [JSON.parse] or the
      revival of the dates in [readData] rejects.  Texts of another shape
      that [readData] would cast to a document unchecked are not
      represented.
    - A count is an integer.  A number that is not a count is a double, a
      rational that the operations of [Binary64] round to the nearest double
      as IEEE 754 has it.  The statistics functions are given twice: in
      [IEEE] with the arithmetic of the code, and outside it in exact
      arithmetic, which gives the same counts.
    - A request body is a [JSValue].  A number is a rational: [NaN], which
      [JSON.parse] never returns, and the infinities are not represented.
    - [Logger] calls have no effect on the data and are left out.
      [createBackup], which writes a file named after the time, is outside
      the three files of the data directory and is not embedded. *)

From Stdlib Require Import ZArith QArith Qround Qpower List String Ascii Bool.
From Stdlib Require Import Lia Lqa.
From Stdlib Require Import Permutation Sorted.
Import ListNotations.

Close Scope Q_scope.
Open Scope string_scope.
Open Scope Z_scope.

(** ** Strings *)

Module JSString.

Definition charCode (c : ascii) : N := N_of_ascii c.

  (** White space and line terminators of ECMAScript below U+0100:
      TAB, LF, VT, FF, CR, SPACE and NO-BREAK SPACE. *)
Definition isWhiteSpace (c : ascii) : bool :=
    let n := charCode c in
    ((9 <=? n) && (n <=? 13) || (n =? 32) || (n =? 160))%N.

  (** A-Z and the Latin-1 capitals (all of U+00C0 .. U+00DE but the
      multiplication sign U+00D7) have their lower case 32 places up. *)
Definition lowerChar (c : ascii) : ascii :=
    let n := charCode c in
    if ((65 <=? n) && (n <=? 90)
        || (192 <=? n) && (n <=? 222) && negb (n =? 215))%N
    then ascii_of_N (n + 32) else c.

Fixpoint toLowerCase (s : string) : string :=
    match s with
    | EmptyString => EmptyString
    | String c s' => String (lowerChar c) (toLowerCase s')
    end.

Fixpoint trimStart (s : string) : string :=
    match s with
    | EmptyString => EmptyString
    | String c s' => if isWhiteSpace c then trimStart s' else s
    end.

Fixpoint trimEnd (s : string) : string :=
    match s with
    | EmptyString => EmptyString
    | String c s' =>
        match trimEnd s' with
        | EmptyString => if isWhiteSpace c then EmptyString else String c EmptyString
        | t => String c t
        end
    end.

Definition trim (s : string) : string := trimEnd (trimStart s).

  (** [startsWith s sub]: [sub] is a prefix of [s]. *)
Fixpoint startsWith (s sub : string) : bool :=
    match sub, s with
    | EmptyString, _ => true
    | String _ _, EmptyString => false
    | String a sub', String b s' => Ascii.eqb a b && startsWith s' sub'
    end.

  (** [s.includes(sub)] *)
Fixpoint includes (s sub : string) : bool :=
    startsWith s sub ||
    match s with
    | EmptyString => false
    | String _ s' => includes s' sub
    end.

  (** A string is truthy when it is not empty. *)
Definition truthy (s : string) : bool :=
    match s with EmptyString => false | String _ _ => true end.

End JSString.

(** ** Arrays *)

Module JSArray.
Section Ops.
Context {A : Type}.

    (** [a.findIndex(p)], with [None] for the source's [-1]. *)
Fixpoint findIndex (p : A -> bool) (a : list A) : option nat :=
      match a with
      | [] => None
      | x :: a' =>
          if p x then Some O
          else match findIndex p a' with
               | Some i => Some (S i)
               | None => None
               end
      end.

    (** [a.splice(i, 1)]: the array without its element at [i]. *)
Definition splice1 (i : nat) (a : list A) : list A :=
      firstn i a ++ skipn (S i) a.

    (** [a[i] = x] for an index inside the array, the only use the services
        make of it (the index always comes from [findIndex]). *)
Definition assign (i : nat) (x : A) (a : list A) : list A :=
      firstn i a ++ x :: skipn (S i) a.

    (** [a.push(x)] *)
Definition push (a : list A) (x : A) : list A := a ++ [x].

    (** [a.sort(compare)].  The sort of ECMAScript is stable; for a consistent
        comparator its result is the one of this insertion sort, which puts
        an element before the first later one it does not compare greater
        than. *)
Fixpoint insert (compare : A -> A -> Z) (x : A) (a : list A) : list A :=
      match a with
      | [] => [x]
      | y :: a' =>
          if compare x y <=? 0 then x :: a else y :: insert compare x a'
      end.

Definition sort (compare : A -> A -> Z) (a : list A) : list A :=
      fold_right (insert compare) [] a.

Definition length (a : list A) : Z := Z.of_nat (List.length a).
End Ops.
End JSArray.

(** ** Models *)

Definition Date := Z.

Module TaskList.
Record t := mk {
    id : string;
    name : string;
    createdAt : Date;
    updatedAt : Date
  }.
End TaskList.

Module Task.
Record t := mk {
    id : string;
    title : string;
    time : option string;
    completed : bool;
    listId : string;
    createdAt : Date;
    updatedAt : Date
  }.
End Task.

Module CreateTaskListDTO.
Record t := mk { name : string }.
End CreateTaskListDTO.

Module UpdateTaskListDTO.
Record t := mk { name : option string }.
End UpdateTaskListDTO.

Module CreateTaskDTO.
Record t := mk { title : string; time : option string; listId : string }.
End CreateTaskDTO.

(** The fields of an update are optional.  For [time] the service tells an
    absent field ([None]) from one that is given, and that one may be
    [null] ([Some None]) as well as a string: the validator accepts a null
    time and the controller hands the body to the service as it came. *)
Module UpdateTaskDTO.
Record t := mk {
    title : option string;
    time : option (option string);
    completed : option bool
  }.
End UpdateTaskDTO.

Record Metadata := mkMetadata {
  version : string;
  lastUpdated : Date
}.

Record StorageData := mkStorageData {
  taskLists : list TaskList.t;
  tasks : list Task.t;
  metadata : Metadata
}.

(** ** JSON

    What [JSON.stringify] makes of a document and what [JSON.parse] gives
    back: the same shape, with every date as its ISO-8601 text.  [Iso ms] is
    the text [toISOString] prints for the time value [ms]; [new Date] of that
    text has the time value [ms] again. *)

Inductive IsoString := Iso (ms : Z).

Definition toISOString (d : Date) : IsoString := Iso d.
Definition newDateOf (s : IsoString) : Date := match s with Iso ms => ms end.

Module Raw.
Record TaskList := mkTaskList {
    l_id : string;
    l_name : string;
    l_createdAt : IsoString;
    l_updatedAt : IsoString
  }.
Record Task := mkTask {
    t_id : string;
    t_title : string;
    t_time : option string;
    t_completed : bool;
    t_listId : string;
    t_createdAt : IsoString;
    t_updatedAt : IsoString
  }.
Record Metadata := mkMetadata {
    m_version : string;
    m_lastUpdated : IsoString
  }.
Record StorageData := mkStorageData {
    d_taskLists : list TaskList;
    d_tasks : list Task;
    d_metadata : Metadata
  }.
End Raw.

(** The text of a file: the JSON of a document, or anything that
    [JSON.parse] or the revival of the dates rejects. *)
Inductive Text :=
| Json (j : Raw.StorageData)
| Garbage.

Definition toJSON_TaskList (l : TaskList.t) : Raw.TaskList :=
  Raw.mkTaskList (TaskList.id l) (TaskList.name l)
    (toISOString (TaskList.createdAt l)) (toISOString (TaskList.updatedAt l)).

Definition toJSON_Task (t : Task.t) : Raw.Task :=
  Raw.mkTask (Task.id t) (Task.title t) (Task.time t) (Task.completed t)
    (Task.listId t)
    (toISOString (Task.createdAt t)) (toISOString (Task.updatedAt t)).

Definition toJSON_StorageData (data : StorageData) : Raw.StorageData :=
  Raw.mkStorageData
    (map toJSON_TaskList (taskLists data))
    (map toJSON_Task (tasks data))
    (Raw.mkMetadata (version (metadata data))
       (toISOString (lastUpdated (metadata data)))).

Definition JSON_stringify (data : StorageData) : Text :=
  Json (toJSON_StorageData data).

(** The loops of [readData] that turn the date strings back into dates. *)
Definition reviveTaskList (l : Raw.TaskList) : TaskList.t :=
  TaskList.mk (Raw.l_id l) (Raw.l_name l)
    (newDateOf (Raw.l_createdAt l)) (newDateOf (Raw.l_updatedAt l)).

Definition reviveTask (t : Raw.Task) : Task.t :=
  Task.mk (Raw.t_id t) (Raw.t_title t) (Raw.t_time t) (Raw.t_completed t)
    (Raw.t_listId t)
    (newDateOf (Raw.t_createdAt t)) (newDateOf (Raw.t_updatedAt t)).

Definition reviveDates (data : Raw.StorageData) : StorageData :=
  mkStorageData
    (map reviveTaskList (Raw.d_taskLists data))
    (map reviveTask (Raw.d_tasks data))
    (mkMetadata (Raw.m_version (Raw.d_metadata data))
       (newDateOf (Raw.m_lastUpdated (Raw.d_metadata data)))).

(** ** The world: file system, clock and UUID generator *)

Record File := mkFile {
  readable : bool;      (* may the process read it *)
  content : Text
}.

Inductive Path :=
| STORAGE_FILE_PATH      (* data/storage.json *)
| BACKUP_FILE_PATH       (* data/storage.backup.json *)
| TEMP_FILE_PATH.        (* data/storage.json.tmp *)

(** The data directory, when it exists, with the three files the storage
    module touches. *)
Record DataDir := mkDataDir {
  storage_json : option File;
  storage_backup_json : option File;
  storage_json_tmp : option File
}.

Definition emptyDir : DataDir := mkDataDir None None None.

Definition lookup (p : Path) (d : DataDir) : option File :=
  match p with
  | STORAGE_FILE_PATH => storage_json d
  | BACKUP_FILE_PATH => storage_backup_json d
  | TEMP_FILE_PATH => storage_json_tmp d
  end.

Definition store (p : Path) (f : option File) (d : DataDir) : DataDir :=
  match p with
  | STORAGE_FILE_PATH => mkDataDir f (storage_backup_json d) (storage_json_tmp d)
  | BACKUP_FILE_PATH => mkDataDir (storage_json d) f (storage_json_tmp d)
  | TEMP_FILE_PATH => mkDataDir (storage_json d) (storage_backup_json d) f
  end.

Record World := mkWorld {
  dataDir : option DataDir;
  readOnly : bool;        (* the file system refuses every write *)
  clock : nat -> Z;       (* the time the n-th reading of the clock gives *)
  ticks : nat;            (* readings of the clock so far *)
  uuids : nat -> string;  (* the n-th identifier of the generator *)
  drawn : nat             (* identifiers drawn so far *)
}.

Definition withDir (w : World) (d : option DataDir) : World :=
  mkWorld d (readOnly w) (clock w) (ticks w) (uuids w) (drawn w).

(** ** Computations that may throw *)

Inductive Exn :=
| AppError (message : string) (statusCode : Z)
| Error (message : string).

Definition isAppError (e : Exn) : bool :=
  match e with AppError _ _ => true | Error _ => false end.

Inductive Outcome (A : Type) :=
| Return (a : A)
| Throw (e : Exn).
Arguments Return {A} a.
Arguments Throw {A} e.

Definition M (A : Type) : Type := World -> Outcome A * World.

Definition ret {A} (a : A) : M A := fun w => (Return a, w).

Definition throw {A} (e : Exn) : M A := fun w => (Throw e, w).

Definition bind {A B} (m : M A) (k : A -> M B) : M B :=
  fun w =>
    match m w with
    | (Return a, w') => k a w'
    | (Throw e, w') => (Throw e, w')
    end.

(** [try { m } catch (error) { handler error }] *)
Definition tryCatch {A} (m : M A) (handler : Exn -> M A) : M A :=
  fun w =>
    match m w with
    | (Return a, w') => (Return a, w')
    | (Throw e, w') => handler e w'
    end.

Notation "x <- m ;; k" := (bind m (fun x => k))
  (at level 61, m at next level, right associativity).
Notation "m ;;; k" := (bind m (fun _ => k))
  (at level 61, right associativity).

(** [new Date()] *)
Definition newDate : M Date :=
  fun w =>
    (Return (clock w (ticks w)),
     mkWorld (dataDir w) (readOnly w) (clock w) (S (ticks w)) (uuids w) (drawn w)).

(** [uuidv4()] *)
Definition uuidv4 : M string :=
  fun w =>
    (Return (uuids w (drawn w)),
     mkWorld (dataDir w) (readOnly w) (clock w) (ticks w) (uuids w) (S (drawn w))).

(** *** The calls of [fs]

    The faults represented are three: a path that does not exist, a file
    that may not be read, and a file system that is read-only.  On a file
    system that is not read-only [writeFile] and [rename] go through: a full
    disk, a file that may not be written or a [rename] that fails is not
    among the faults of these calls.  With them a save is refused before its
    first write or not at all, and the statements about refused saves name
    the two causes they cover; a save that fails later is [writeDataWith]
    below, with a call that throws in the place of [writeFile] or
    [rename]. *)

Module fs.

Definition existsSync (p : Path) : M bool :=
    fun w =>
      (Return match dataDir w with
              | Some d => match lookup p d with Some _ => true | None => false end
              | None => false
              end, w).

Definition dirExistsSync : M bool :=
    fun w => (Return match dataDir w with Some _ => true | None => false end, w).

Definition mkdirSync : M unit :=
    fun w =>
      if readOnly w then (Throw (Error "EROFS"), w)
      else match dataDir w with
           | Some _ => (Return tt, w)
           | None => (Return tt, withDir w (Some emptyDir))
           end.

Definition readFile (p : Path) : M Text :=
    fun w =>
      match dataDir w with
      | None => (Throw (Error "ENOENT"), w)
      | Some d =>
          match lookup p d with
          | None => (Throw (Error "ENOENT"), w)
          | Some f =>
              if readable f then (Return (content f), w)
              else (Throw (Error "EACCES"), w)
          end
      end.

Definition writeFile (p : Path) (text : Text) : M unit :=
    fun w =>
      if readOnly w then (Throw (Error "EROFS"), w)
      else match dataDir w with
           | None => (Throw (Error "ENOENT"), w)
           | Some d =>
               (Return tt, withDir w (Some (store p (Some (mkFile true text)) d)))
           end.

Definition copyFile (src dest : Path) : M unit :=
    text <- readFile src ;; writeFile dest text.

Definition rename (oldPath newPath : Path) : M unit :=
    fun w =>
      if readOnly w then (Throw (Error "EROFS"), w)
      else match dataDir w with
           | None => (Throw (Error "ENOENT"), w)
           | Some d =>
               match lookup oldPath d with
               | None => (Throw (Error "ENOENT"), w)
               | Some f =>
                   (Return tt,
                    withDir w (Some (store newPath (Some f) (store oldPath None d))))
               end
           end.

End fs.

Definition JSON_parse (text : Text) : M Raw.StorageData :=
  match text with
  | Json j => ret j
  | Garbage => throw (Error "SyntaxError")
  end.

(** ** utils/fileStorage.ts

    [readData] and [writeData] with their helpers.  [isStorageAccessible]
    follows the validators below; [createBackup] writes none of the three
    files and is left out. *)

Definition ensureDataDirectory : M unit :=
  e <- fs.dirExistsSync ;;
  if negb e then fs.mkdirSync else ret tt.

Definition createInitialData : M StorageData :=
  now <- newDate ;;
  ret (mkStorageData [] [] (mkMetadata "1.0.0" now)).

(** [writeData] assigns [data.metadata.lastUpdated] before it writes; the
    caller's object is returned as the assignment leaves it. *)
Definition writeData (data : StorageData) : M StorageData :=
  tryCatch
    (ensureDataDirectory ;;;
     now <- newDate ;;
     let data :=
       mkStorageData (taskLists data) (tasks data)
         (mkMetadata (version (metadata data)) now) in
     e <- fs.existsSync STORAGE_FILE_PATH ;;
     (if e then fs.copyFile STORAGE_FILE_PATH BACKUP_FILE_PATH else ret tt) ;;;
     let jsonContent := JSON_stringify data in
     fs.writeFile TEMP_FILE_PATH jsonContent ;;;
     fs.rename TEMP_FILE_PATH STORAGE_FILE_PATH ;;;
     ret data)
    (fun error => throw (Error "Failed to save data to storage")).

(** [writeData] with the two calls that follow the backup copy as
    parameters: with [fs.writeFile] and [fs.rename] it is [writeData], with
    a call that throws it is a save that fails after the backup copy. *)
Definition writeDataWith (writeFile : Path -> Text -> M unit)
    (rename : Path -> Path -> M unit) (data : StorageData) : M StorageData :=
  tryCatch
    (ensureDataDirectory ;;;
     now <- newDate ;;
     let data :=
       mkStorageData (taskLists data) (tasks data)
         (mkMetadata (version (metadata data)) now) in
     e <- fs.existsSync STORAGE_FILE_PATH ;;
     (if e then fs.copyFile STORAGE_FILE_PATH BACKUP_FILE_PATH else ret tt) ;;;
     let jsonContent := JSON_stringify data in
     writeFile TEMP_FILE_PATH jsonContent ;;;
     rename TEMP_FILE_PATH STORAGE_FILE_PATH ;;;
     ret data)
    (fun error => throw (Error "Failed to save data to storage")).

(** [writeFile] on a disk that is full: the file is left cut short, a text
    that does not parse, and the call throws. *)
Definition writeFile_ENOSPC (p : Path) (text : Text) : M unit :=
  fs.writeFile p Garbage ;;; throw (Error "ENOSPC").

(** A [rename] that fails and moves nothing. *)
Definition rename_EIO (oldPath newPath : Path) : M unit :=
  throw (Error "EIO").

Definition readData : M StorageData :=
  tryCatch
    (ensureDataDirectory ;;;
     e <- fs.existsSync STORAGE_FILE_PATH ;;
     if negb e then
       initialData <- createInitialData ;;
       initialData <- writeData initialData ;;
       ret initialData
     else
       fileContent <- fs.readFile STORAGE_FILE_PATH ;;
       data <- JSON_parse fileContent ;;
       ret (reviveDates data))
    (fun error =>
       e <- fs.existsSync BACKUP_FILE_PATH ;;
       restored <-
         (if e then
            tryCatch
              (backupContent <- fs.readFile BACKUP_FILE_PATH ;;
               backupData <- JSON_parse backupContent ;;
               ret (Some (reviveDates backupData)))
              (fun backupError => ret None)
          else ret None) ;;
       match restored with
       | Some backupData => ret backupData
       | None => createInitialData
       end).

(** ** Helpers shared by the services *)

(** [catch (error) { if (error instanceof AppError) throw error;
                     throw new AppError(message, 500) }] *)
Definition rethrowAppError {A} (message : string) (error : Exn) : M A :=
  if isAppError error then throw error else throw (AppError message 500).

(** [catch (error) { throw new AppError(message, 500) }] *)
Definition failWith {A} (message : string) (error : Exn) : M A :=
  throw (AppError message 500).

(** A condition [if (s)] on an optional string: present and not empty. *)
Definition truthyOpt (s : option string) : bool :=
  match s with
  | Some s => JSString.truthy s
  | None => false
  end.

Record Stats := mkStats {
  totalTasks : Z;
  completedTasks : Z;
  pendingTasks : Z;
  completionRate : Q
}.

(** [Math.round]: the nearest integer, a half going up.  The function is
    exact: of a double [x] it returns the integer nearest to the rational
    that [x] is, which is below 2^53 here and a double itself. *)
Definition Math_round (x : Q) : Z := Qfloor (x + (1 # 2))%Q.

(** *** Doubles

    The finite IEEE 754 binary64 numbers are the rationals [m * 2^e] with
    [|m| < 2^53] and [-1074 <= e].  An arithmetic operation of JavaScript
    returns the double nearest to the exact result, a tie going to the one
    with the even significand.  The infinities, NaN and the sign of zero are
    not represented: the numbers of the statistics lie between 0 and 10000. *)
Module Binary64.

Definition pow2 (e : Z) : Q := (2 ^ e)%Q.

(** The binade of a positive rational: the [e] with [2^e <= x < 2^(e+1)].
    The difference of the binary logarithms of numerator and denominator is
    [e] or [e + 1]. *)
Definition exponent (x : Q) : Z :=
  let e := Z.log2 (Qnum x) - Z.log2 (Zpos (Qden x)) in
  if Qle_bool (pow2 e) x then e else e - 1.

(** The nearest integer, a tie going to the even one. *)
Definition roundToEven (x : Q) : Z :=
  let n := Qfloor x in
  match (x - inject_Z n ?= 1 # 2)%Q with
  | Lt => n
  | Eq => if Z.even n then n else n + 1
  | Gt => n + 1
  end.

(** The distance between the doubles of the binade of a positive [x]: the
    53rd bit of the significand, and 2^-1074 among the subnormal numbers. *)
Definition ulp (x : Q) : Q := pow2 (Z.max (exponent x - 52) (-1074)).

Definition roundPositive (x : Q) : Q :=
  (inject_Z (roundToEven (x / ulp x)) * ulp x)%Q.

(** The double nearest to [x]. *)
Definition round (x : Q) : Q :=
  match Qnum x with
  | 0 => 0%Q
  | Zpos _ => roundPositive x
  | Zneg _ => (- roundPositive (- x))%Q
  end.

(** [a * b] and [a / b] on doubles. *)
Definition mul (a b : Q) : Q := round (a * b).

Definition div (a b : Q) : Q := round (a / b).

End Binary64.

(** The four lines that both statistics functions share, in exact
    arithmetic: the quotient and the two products are not rounded.  The
    counts are those of the code.  The rate is the one of the code up to the
    rounding of its doubles, which [IEEE.computeStats] below carries out. *)
Definition computeStats (listTasks : list Task.t) : Stats :=
  let completedTasks := JSArray.length (filter Task.completed listTasks) in
  let totalTasks := JSArray.length listTasks in
  let pendingTasks := totalTasks - completedTasks in
  let completionRate :=
    if 0 <? totalTasks
    then (inject_Z completedTasks / inject_Z totalTasks * 100)%Q
    else 0%Q in
  mkStats totalTasks completedTasks pendingTasks
    (inject_Z (Math_round (completionRate * 100)) / 100)%Q.

(** ** services/listService.ts *)

Definition getAllTaskLists : M (list TaskList.t) :=
  tryCatch
    (data <- readData ;;
     ret (taskLists data))
    (failWith "Failed to retrieve task lists").

Definition getTaskListById (id : string) : M (option TaskList.t) :=
  tryCatch
    (data <- readData ;;
     let taskList := find (fun list => String.eqb (TaskList.id list) id) (taskLists data) in
     match taskList with
     | None => ret None
     | Some taskList => ret (Some taskList)
     end)
    (failWith "Failed to retrieve task list").

Definition createTaskList (createData : CreateTaskListDTO.t) : M TaskList.t :=
  tryCatch
    (data <- readData ;;
     let existingList :=
       find (fun list =>
               String.eqb (JSString.toLowerCase (TaskList.name list))
                          (JSString.toLowerCase (CreateTaskListDTO.name createData)))
            (taskLists data) in
     match existingList with
     | Some _ => throw (AppError "A task list with this name already exists" 409)
     | None =>
         id <- uuidv4 ;;
         createdAt <- newDate ;;
         updatedAt <- newDate ;;
         let newTaskList :=
           TaskList.mk id (JSString.trim (CreateTaskListDTO.name createData))
             createdAt updatedAt in
         let data :=
           mkStorageData (JSArray.push (taskLists data) newTaskList)
             (tasks data) (metadata data) in
         writeData data ;;;
         ret newTaskList
     end)
    (rethrowAppError "Failed to create task list").

Definition updateTaskList (id : string) (updateData : UpdateTaskListDTO.t)
  : M (option TaskList.t) :=
  tryCatch
    (data <- readData ;;
     let taskListIndex :=
       JSArray.findIndex (fun list => String.eqb (TaskList.id list) id) (taskLists data) in
     match taskListIndex with
     | None => ret None
     | Some taskListIndex =>
         (match UpdateTaskListDTO.name updateData with
          | Some name =>
              if JSString.truthy name then
                let existingList :=
                  find (fun list =>
                          negb (String.eqb (TaskList.id list) id)
                          && String.eqb (JSString.toLowerCase (TaskList.name list))
                                        (JSString.toLowerCase name))
                       (taskLists data) in
                match existingList with
                | Some _ =>
                    throw (AppError "A task list with this name already exists" 409)
                | None => ret tt
                end
              else ret tt
          | None => ret tt
          end) ;;;
         match nth_error (taskLists data) taskListIndex with
         | None => throw (Error "TypeError")   (* the index is inside the array *)
         | Some currentList =>
             updatedAt <- newDate ;;
             let updatedTaskList :=
               TaskList.mk
                 (TaskList.id currentList)
                 (match UpdateTaskListDTO.name updateData with
                  | Some name =>
                      if JSString.truthy name then JSString.trim name
                      else TaskList.name currentList
                  | None => TaskList.name currentList
                  end)
                 (TaskList.createdAt currentList)
                 updatedAt in
             let data :=
               mkStorageData (JSArray.assign taskListIndex updatedTaskList (taskLists data))
                 (tasks data) (metadata data) in
             writeData data ;;;
             ret (Some updatedTaskList)
         end
     end)
    (rethrowAppError "Failed to update task list").

Definition deleteTaskList (id : string) : M bool :=
  tryCatch
    (data <- readData ;;
     let taskListIndex :=
       JSArray.findIndex (fun list => String.eqb (TaskList.id list) id) (taskLists data) in
     match taskListIndex with
     | None => ret false
     | Some taskListIndex =>
         let data :=
           mkStorageData (JSArray.splice1 taskListIndex (taskLists data))
             (tasks data) (metadata data) in
         let data :=
           mkStorageData (taskLists data)
             (filter (fun task => negb (String.eqb (Task.listId task) id)) (tasks data))
             (metadata data) in
         writeData data ;;;
         ret true
     end)
    (failWith "Failed to delete task list").

Definition taskListExists (id : string) : M bool :=
  tryCatch
    (taskList <- getTaskListById id ;;
     ret match taskList with Some _ => true | None => false end)
    (fun error => ret false).

Definition getTaskListStats (id : string) : M (option Stats) :=
  tryCatch
    (data <- readData ;;
     let taskList := find (fun list => String.eqb (TaskList.id list) id) (taskLists data) in
     match taskList with
     | None => ret None
     | Some _ =>
         let listTasks :=
           filter (fun task => String.eqb (Task.listId task) id) (tasks data) in
         ret (Some (computeStats listTasks))
     end)
    (failWith "Failed to get task list statistics").

(** ** services/taskService.ts *)

(** [(a, b) => new Date(b.createdAt).getTime() - new Date(a.createdAt).getTime()] *)
Definition newestFirst (a b : Task.t) : Z := Task.createdAt b - Task.createdAt a.

Definition getTasksByListId (listId : string) : M (list Task.t) :=
  tryCatch
    (listExists <- taskListExists listId ;;
     if negb listExists then throw (AppError "Task list not found" 404)
     else
       data <- readData ;;
       let tasks := filter (fun task => String.eqb (Task.listId task) listId) (tasks data) in
       ret (JSArray.sort newestFirst tasks))
    (rethrowAppError "Failed to retrieve tasks").

Definition getTaskById (id : string) : M (option Task.t) :=
  tryCatch
    (data <- readData ;;
     let task := find (fun task => String.eqb (Task.id task) id) (tasks data) in
     match task with
     | None => ret None
     | Some task => ret (Some task)
     end)
    (failWith "Failed to retrieve task").

Definition createTask (createData : CreateTaskDTO.t) : M Task.t :=
  tryCatch
    (listExists <- taskListExists (CreateTaskDTO.listId createData) ;;
     if negb listExists then throw (AppError "Task list not found" 404)
     else
       data <- readData ;;
       id <- uuidv4 ;;
       createdAt <- newDate ;;
       updatedAt <- newDate ;;
       let newTask :=
         Task.mk id
           (JSString.trim (CreateTaskDTO.title createData))
           (option_map JSString.trim (CreateTaskDTO.time createData))
           false
           (CreateTaskDTO.listId createData)
           createdAt updatedAt in
       let data :=
         mkStorageData (taskLists data) (JSArray.push (tasks data) newTask)
           (metadata data) in
       writeData data ;;;
       ret newTask)
    (rethrowAppError "Failed to create task").

Definition updateTask (id : string) (updateData : UpdateTaskDTO.t)
  : M (option Task.t) :=
  tryCatch
    (data <- readData ;;
     let taskIndex :=
       JSArray.findIndex (fun task => String.eqb (Task.id task) id) (tasks data) in
     match taskIndex with
     | None => ret None
     | Some taskIndex =>
         match nth_error (tasks data) taskIndex with
         | None => throw (Error "TypeError")   (* the index is inside the array *)
         | Some currentTask =>
             updatedAt <- newDate ;;
             let updatedTask :=
               Task.mk
                 (Task.id currentTask)
                 (match UpdateTaskDTO.title updateData with
                  | Some title => JSString.trim title
                  | None => Task.title currentTask
                  end)
                 (match UpdateTaskDTO.time updateData with
                  | Some time => option_map JSString.trim time   (* time?.trim() *)
                  | None => Task.time currentTask
                  end)
                 (match UpdateTaskDTO.completed updateData with
                  | Some completed => completed
                  | None => Task.completed currentTask
                  end)
                 (Task.listId currentTask)
                 (Task.createdAt currentTask)
                 updatedAt in
             let data :=
               mkStorageData (taskLists data)
                 (JSArray.assign taskIndex updatedTask (tasks data))
                 (metadata data) in
             writeData data ;;;
             ret (Some updatedTask)
         end
     end)
    (failWith "Failed to update task").

Definition toggleTaskCompletion (id : string) : M (option Task.t) :=
  tryCatch
    (data <- readData ;;
     let taskIndex :=
       JSArray.findIndex (fun task => String.eqb (Task.id task) id) (tasks data) in
     match taskIndex with
     | None => ret None
     | Some taskIndex =>
         match nth_error (tasks data) taskIndex with
         | None => throw (Error "TypeError")   (* the index is inside the array *)
         | Some currentTask =>
             updatedAt <- newDate ;;
             let updatedTask :=
               Task.mk (Task.id currentTask) (Task.title currentTask)
                 (Task.time currentTask)
                 (negb (Task.completed currentTask))
                 (Task.listId currentTask) (Task.createdAt currentTask)
                 updatedAt in
             let data :=
               mkStorageData (taskLists data)
                 (JSArray.assign taskIndex updatedTask (tasks data))
                 (metadata data) in
             writeData data ;;;
             ret (Some updatedTask)
         end
     end)
    (failWith "Failed to toggle task completion").

Definition deleteTask (id : string) : M bool :=
  tryCatch
    (data <- readData ;;
     let taskIndex :=
       JSArray.findIndex (fun task => String.eqb (Task.id task) id) (tasks data) in
     match taskIndex with
     | None => ret false
     | Some taskIndex =>
         let data :=
           mkStorageData (taskLists data)
             (JSArray.splice1 taskIndex (tasks data)) (metadata data) in
         writeData data ;;;
         ret true
     end)
    (failWith "Failed to delete task").

Definition getAllTasks : M (list Task.t) :=
  tryCatch
    (data <- readData ;;
     ret (JSArray.sort newestFirst (tasks data)))
    (failWith "Failed to retrieve all tasks").

(** The comparator of [searchTasks]. *)
Definition byRelevance (searchQuery : string) (a b : Task.t) : Z :=
  let aTitle := JSString.toLowerCase (Task.title a) in
  let bTitle := JSString.toLowerCase (Task.title b) in
  if String.eqb aTitle searchQuery && negb (String.eqb bTitle searchQuery) then -1
  else if String.eqb bTitle searchQuery && negb (String.eqb aTitle searchQuery) then 1
  else Task.createdAt b - Task.createdAt a.

Definition searchTasks (query : string) (listId : option string) : M (list Task.t) :=
  tryCatch
    (data <- readData ;;
     let tasks := tasks data in
     tasks <-
       (match listId with
        | Some listId' =>
            if JSString.truthy listId' then
              listExists <- taskListExists listId' ;;
              if negb listExists then throw (AppError "Task list not found" 404)
              else ret (filter (fun task => String.eqb (Task.listId task) listId') tasks)
            else ret tasks
        | None => ret tasks
        end) ;;
     let searchQuery := JSString.trim (JSString.toLowerCase query) in
     let matchingTasks :=
       filter (fun task =>
                 JSString.includes (JSString.toLowerCase (Task.title task)) searchQuery)
              tasks in
     ret (JSArray.sort (byRelevance searchQuery) matchingTasks))
    (rethrowAppError "Failed to search tasks").

Definition getTaskStats (listId : option string) : M Stats :=
  tryCatch
    (data <- readData ;;
     let tasks := tasks data in
     tasks <-
       (match listId with
        | Some listId' =>
            if JSString.truthy listId' then
              listExists <- taskListExists listId' ;;
              if negb listExists then throw (AppError "Task list not found" 404)
              else ret (filter (fun task => String.eqb (Task.listId task) listId') tasks)
            else ret tasks
        | None => ret tasks
        end) ;;
     ret (computeStats tasks))
    (rethrowAppError "Failed to get task statistics").

(** ** The statistics in the arithmetic of the code

    [completedTasks / totalTasks], [* 100], [completionRate * 100] and
    [/ 100] are operations on doubles; the lengths are integers below 2^32,
    which are doubles as they are. *)
Module IEEE.

Definition computeStats (listTasks : list Task.t) : Stats :=
  let completedTasks := JSArray.length (filter Task.completed listTasks) in
  let totalTasks := JSArray.length listTasks in
  let pendingTasks := totalTasks - completedTasks in
  let completionRate :=
    if 0 <? totalTasks
    then Binary64.mul
           (Binary64.div (inject_Z completedTasks) (inject_Z totalTasks)) 100
    else 0%Q in
  mkStats totalTasks completedTasks pendingTasks
    (Binary64.div
       (inject_Z (Math_round (Binary64.mul completionRate 100))) 100).

Definition getTaskListStats (id : string) : M (option Stats) :=
  tryCatch
    (data <- readData ;;
     let taskList := find (fun list => String.eqb (TaskList.id list) id) (taskLists data) in
     match taskList with
     | None => ret None
     | Some _ =>
         let listTasks :=
           filter (fun task => String.eqb (Task.listId task) id) (tasks data) in
         ret (Some (computeStats listTasks))
     end)
    (failWith "Failed to get task list statistics").

Definition getTaskStats (listId : option string) : M Stats :=
  tryCatch
    (data <- readData ;;
     let tasks := tasks data in
     tasks <-
       (match listId with
        | Some listId' =>
            if JSString.truthy listId' then
              listExists <- taskListExists listId' ;;
              if negb listExists then throw (AppError "Task list not found" 404)
              else ret (filter (fun task => String.eqb (Task.listId task) listId') tasks)
            else ret tasks
        | None => ret tasks
        end) ;;
     ret (computeStats tasks))
    (rethrowAppError "Failed to get task statistics").

End IEEE.

(** ** utils/validation.ts

    The validators take request bodies of the type [any].  A value is
    represented by what the validators can observe of it: its [typeof], its
    truthiness and, for an object, its properties.  An array has none of the
    properties the validators look up. *)

#[warnings="-register-all"] Inductive JSValue :=
| JUndefined
| JNull
| JBoolean (b : bool)
| JNumber (x : Q)
| JString (s : string)
| JArray (items : list JSValue)
| JObject (properties : list (string * JSValue)).

Inductive TypeOf :=
| TUndefined | TObject | TBoolean | TNumber | TString.

Definition typeof (value : JSValue) : TypeOf :=
  match value with
  | JUndefined => TUndefined
  | JNull => TObject
  | JBoolean _ => TBoolean
  | JNumber _ => TNumber
  | JString _ => TString
  | JArray _ => TObject
  | JObject _ => TObject
  end.

(** [!!value] *)
Definition toBoolean (value : JSValue) : bool :=
  match value with
  | JUndefined => false
  | JNull => false
  | JBoolean b => b
  | JNumber x => negb (Qeq_bool x 0)
  | JString s => JSString.truthy s
  | JArray _ => true
  | JObject _ => true
  end.

Fixpoint lookupProperty (key : string) (properties : list (string * JSValue))
  : JSValue :=
  match properties with
  | [] => JUndefined
  | (k, v) :: rest => if String.eqb k key then v else lookupProperty key rest
  end.

(** [data.key] *)
Definition get (data : JSValue) (key : string) : JSValue :=
  match data with
  | JObject properties => lookupProperty key properties
  | _ => JUndefined
  end.

Record ValidationResult := mkValidationResult {
  isValid : bool;
  error : option string
}.

Definition valid : ValidationResult := mkValidationResult true None.
Definition invalid (message : string) : ValidationResult :=
  mkValidationResult false (Some message).

Definition validateRequiredString (value : JSValue) (fieldName : string)
  : ValidationResult :=
  match value with
  | JString value =>
      if Nat.eqb (String.length (JSString.trim value)) 0
      then invalid (String.append fieldName " cannot be empty")
      else if Nat.ltb 255 (String.length value)
      then invalid (String.append fieldName " cannot exceed 255 characters")
      else valid
  | _ => invalid (String.append fieldName " must be a string")
  end.

Definition validateOptionalString (value : JSValue) (fieldName : string)
  : ValidationResult :=
  match value with
  | JUndefined => valid
  | JNull => valid
  | _ => validateRequiredString value fieldName
  end.

(** The classes of
    [/^[0-9a-f]{8}-[0-9a-f]{4}-[1-5][0-9a-f]{3}-[89ab][0-9a-f]{3}-[0-9a-f]{12}$/i]. *)
Inductive CharClass :=
| Hex        (* [0-9a-f], any case *)
| Hyphen
| Version    (* [1-5] *)
| Variant.   (* [89ab], any case *)

Definition inClass (class : CharClass) (c : ascii) : bool :=
  let n := JSString.charCode c in
  match class with
  | Hex =>
      ((48 <=? n) && (n <=? 57) || (97 <=? n) && (n <=? 102)
       || (65 <=? n) && (n <=? 70))%N
  | Hyphen => (n =? 45)%N
  | Version => ((49 <=? n) && (n <=? 53))%N
  | Variant => ((n =? 56) || (n =? 57) || (n =? 97) || (n =? 98)
                || (n =? 65) || (n =? 66))%N
  end.

Definition uuidPattern : list CharClass :=
  repeat Hex 8 ++ [Hyphen] ++ repeat Hex 4 ++ [Hyphen]
  ++ [Version] ++ repeat Hex 3 ++ [Hyphen]
  ++ [Variant] ++ repeat Hex 3 ++ [Hyphen] ++ repeat Hex 12.

(** A pattern of single characters anchored at both ends. *)
Fixpoint test (pattern : list CharClass) (s : string) : bool :=
  match pattern, s with
  | [], EmptyString => true
  | class :: pattern', String c s' => inClass class c && test pattern' s'
  | _, _ => false
  end.

Definition validateUUID (value : JSValue) (fieldName : string) : ValidationResult :=
  match value with
  | JString value =>
      if negb (test uuidPattern value)
      then invalid (String.append fieldName " must be a valid UUID")
      else valid
  | _ => invalid (String.append fieldName " must be a string")
  end.

(** [!data || typeof data !== 'object'] *)
Definition notAnObject (data : JSValue) : bool :=
  negb (toBoolean data)
  || match typeof data with TObject => false | _ => true end.

Definition isUndefined (value : JSValue) : bool :=
  match value with JUndefined => true | _ => false end.

Definition validateCreateTask (data : JSValue) : ValidationResult :=
  if notAnObject data then invalid "Request body must be an object"
  else
    let titleValidation := validateRequiredString (get data "title") "title" in
    if negb (isValid titleValidation) then titleValidation
    else
      let timeValidation := validateOptionalString (get data "time") "time" in
      if negb (isValid timeValidation) then timeValidation
      else
        let listIdValidation := validateUUID (get data "listId") "listId" in
        if negb (isValid listIdValidation) then listIdValidation
        else valid.

Definition validateUpdateTask (data : JSValue) : ValidationResult :=
  if notAnObject data then invalid "Request body must be an object"
  else if negb (toBoolean (get data "title")) && negb (toBoolean (get data "time"))
          && isUndefined (get data "completed")
  then invalid
         "At least one field (title, time, or completed) must be provided for update"
  else
    let titleValidation :=
      if negb (isUndefined (get data "title"))
      then validateRequiredString (get data "title") "title" else valid in
    if negb (isValid titleValidation) then titleValidation
    else
      let timeValidation :=
        if negb (isUndefined (get data "time"))
        then validateOptionalString (get data "time") "time" else valid in
      if negb (isValid timeValidation) then timeValidation
      else if negb (isUndefined (get data "completed"))
              && match typeof (get data "completed") with
                 | TBoolean => false
                 | _ => true
                 end
      then invalid "completed must be a boolean"
      else valid.

Definition validateCreateTaskList (data : JSValue) : ValidationResult :=
  if notAnObject data then invalid "Request body must be an object"
  else
    let nameValidation := validateRequiredString (get data "name") "name" in
    if negb (isValid nameValidation) then nameValidation
    else valid.

Definition validateUpdateTaskList (data : JSValue) : ValidationResult :=
  if notAnObject data then invalid "Request body must be an object"
  else if negb (toBoolean (get data "name"))
  then invalid "name field must be provided for update"
  else
    let nameValidation := validateRequiredString (get data "name") "name" in
    if negb (isValid nameValidation) then nameValidation
    else valid.

(** ** utils/fileStorage.ts, the health check

    [fs.promises.access(path, R_OK | W_OK)] succeeds on a file that exists,
    that the process may read and may write, and that is not on a read-only
    file system.  The write permission of the file is [writable]: it is a
    fact about the file at the time of the call that no other function of
    the storage consults (a save reads the primary file for the backup copy
    and replaces it by a [rename], which asks for no permission on the file
    itself), so it is given to the check and is no part of [File]. *)

Definition fs_access (writable : bool) (p : Path) : M unit :=
  fun w =>
    match dataDir w with
    | None => (Throw (Error "ENOENT"), w)
    | Some d =>
        match lookup p d with
        | None => (Throw (Error "ENOENT"), w)
        | Some f =>
            if negb (readable f) then (Throw (Error "EACCES"), w)
            else if negb writable then (Throw (Error "EACCES"), w)
            else if readOnly w then (Throw (Error "EROFS"), w)
            else (Return tt, w)
        end
    end.

(** [writable]: may the process write to data/storage.json, if it exists. *)
Definition isStorageAccessible (writable : bool) : M bool :=
  tryCatch
    (ensureDataDirectory ;;;
     e <- fs.existsSync STORAGE_FILE_PATH ;;
     if negb e then ret true
     else fs_access writable STORAGE_FILE_PATH ;;; ret true)
    (fun error => ret false).

(** ** middleware/errorHandler.ts

    What the handler reads of the error it is given: its name, message and
    code, its details when they are a string, and the status of an
    [AppError] (every [AppError] is operational).  The answer is the status
    of the response and the [error] object of its body; the time and the
    path of the body, and the logging, are left out. *)

Record JSError := mkJSError {
  errorName : string;
  errorMessage : string;
  errorCode : option string;
  errorDetails : option string;
  appStatusCode : option Z
}.

(** [new AppError(message, statusCode)] *)
Definition newAppError (message : string) (statusCode : Z) : JSError :=
  mkJSError "Error" message None None (Some statusCode).

Inductive Details :=
| TextDetails (text : string)
| StackAndName (name : string).

Record ErrorResponse := mkErrorResponse {
  responseStatus : Z;
  responseMessage : string;
  responseCode : string;
  responseDetails : option Details
}.

Definition getErrorCode (statusCode : Z) : string :=
  if statusCode =? 400 then "BAD_REQUEST"
  else if statusCode =? 401 then "UNAUTHORIZED"
  else if statusCode =? 403 then "FORBIDDEN"
  else if statusCode =? 404 then "NOT_FOUND"
  else if statusCode =? 409 then "CONFLICT"
  else if statusCode =? 422 then "VALIDATION_ERROR"
  else if statusCode =? 500 then "INTERNAL_SERVER_ERROR"
  else "UNKNOWN_ERROR".

(** [details && { details }] *)
Definition truthyDetails (details : option Details) : option Details :=
  match details with
  | Some (TextDetails text) => if JSString.truthy text then details else None
  | Some (StackAndName _) => details
  | None => None
  end.

Definition createErrorResponse (message : string) (statusCode : Z)
    (details : option Details) : ErrorResponse :=
  mkErrorResponse statusCode message (getErrorCode statusCode) (truthyDetails details).

Definition shouldExposeErrorDetails (error : JSError) (isDevelopment : bool) : bool :=
  match appStatusCode error with
  | Some _ => true
  | None => isDevelopment
  end.

Definition errorHandler (isDevelopment : bool) (error : JSError) : ErrorResponse :=
  let '(statusCode, message, details) :=
    match appStatusCode error with
    | Some statusCode => (statusCode, errorMessage error, None)
    | None =>
        if String.eqb (errorName error) "ValidationError" then
          (422, "Validation Error",
           Some (TextDetails
                   match errorDetails error with
                   | Some details =>
                       if JSString.truthy details then details else errorMessage error
                   | None => errorMessage error
                   end))
        else if String.eqb (errorName error) "CastError" then
          (400, "Invalid ID format", None)
        else if match errorCode error with
                | Some code => String.eqb code "ENOENT"
                | None => false
                end then
          (404, "Resource not found", None)
        else if match errorCode error with
                | Some code => String.eqb code "EACCES"
                | None => false
                end then
          (403, "Access denied", None)
        else if isDevelopment then
          (500,
           if JSString.truthy (errorMessage error) then errorMessage error
           else "Internal Server Error",
           Some (StackAndName (errorName error)))
        else (500, "Internal Server Error", None)
    end in
  createErrorResponse message statusCode
    (if shouldExposeErrorDetails error isDevelopment then details else None).

(** ** Vocabulary of the statements *)

(** The file system takes a save: it is not read-only, and the primary file,
    if there is one, can be read for the backup copy. *)
Definition canWrite (w : World) : bool :=
  negb (readOnly w) &&
  match dataDir w with
  | Some d =>
      match storage_json d with
      | Some f => readable f
      | None => true
      end
  | None => true
  end.

(** [data] with its [lastUpdated] set to [now]. *)
Definition stamped (data : StorageData) (now : Date) : StorageData :=
  mkStorageData (taskLists data) (tasks data)
    (mkMetadata (version (metadata data)) now).

(** The backup file a successful save leaves: a copy of the primary of
    before, or the backup of before when there was no primary. *)
Definition backupAfter (w : World) : option File :=
  match dataDir w with
  | Some d =>
      match storage_json d with
      | Some f => Some (mkFile true (content f))
      | None => storage_backup_json d
      end
  | None => None
  end.

(** The world a successful save of [data] leaves. *)
Definition afterWrite (w : World) (data : StorageData) : World :=
  let data := stamped data (clock w (ticks w)) in
  mkWorld
    (Some (mkDataDir (Some (mkFile true (JSON_stringify data))) (backupAfter w) None))
    (readOnly w) (clock w) (S (ticks w)) (uuids w) (drawn w).

(** The primary file, when there is one. *)
Definition primaryFile (w : World) : option File :=
  match dataDir w with
  | Some d => storage_json d
  | None => None
  end.

Definition backupFile (w : World) : option File :=
  match dataDir w with
  | Some d => storage_backup_json d
  | None => None
  end.

(** The document a file holds, when it can be read and parsed. *)
Definition documentOf (f : option File) : option StorageData :=
  match f with
  | Some f =>
      if readable f then
        match content f with
        | Json j => Some (reviveDates j)
        | Garbage => None
        end
      else None
  | None => None
  end.

(** The empty document of [createInitialData]. *)
Definition initialData (now : Date) : StorageData :=
  mkStorageData [] [] (mkMetadata "1.0.0" now).

(** [x] is the first element of [a] that satisfies [p], and it is at
    index [i]. *)
Definition firstWith {A} (p : A -> bool) (a : list A) (i : nat) : Prop :=
  exists x,
    nth_error a i = Some x /\ p x = true
    /\ forall j y, (j < i)%nat -> nth_error a j = Some y -> p y = false.

(** The document [w] stores: what a load of [w] returns.  ([readData]
    never throws, see [readData_total].) *)
Definition loaded (w : World) : StorageData :=
  match readData w with
  | (Return data, _) => data
  | (Throw _, _) => initialData 0
  end.

(** The world a computation leaves. *)
Definition after {A} (m : M A) (w : World) : World := snd (m w).

(** The number of elements of [a] that satisfy [p]. *)
Fixpoint countIf {A} (p : A -> bool) (a : list A) : Z :=
  match a with
  | [] => 0
  | x :: a' => (if p x then 1 else 0) + countIf p a'
  end.

(** [completed] of [total] as a percentage in hundredths, a half rounded
    up: the integer quotient of [20000 * completed + total] by [2 * total]. *)
Definition hundredths (completed total : Z) : Z :=
  if 0 <? total then (20000 * completed + total) / (2 * total) else 0.

(** [sub] occurs in [s]. *)
Definition isSubstring (sub s : string) : Prop :=
  exists pre post, s = String.append pre (String.append sub post).

(** The tasks a search or the task statistics are scoped to: the ones of the
    list when a list is named, all of them otherwise. *)
Definition inScope (listId : option string) (data : StorageData) : list Task.t :=
  match listId with
  | Some id =>
      if JSString.truthy id
      then filter (fun task => String.eqb (Task.listId task) id) (tasks data)
      else tasks data
  | None => tasks data
  end.

(** The title of the task is the search query, case aside. *)
Definition exactMatch (searchQuery : string) (task : Task.t) : bool :=
  String.eqb (JSString.toLowerCase (Task.title task)) searchQuery.

(** Referential integrity of a document: the [listId] of every task is the
    identifier of one of the lists. *)
Definition intact (data : StorageData) : bool :=
  forallb (fun task =>
             existsb (fun list => String.eqb (TaskList.id list) (Task.listId task))
               (taskLists data))
          (tasks data).

(** A file that holds a document holds one with referential integrity. *)
Definition fileIntact (f : option File) : bool :=
  match f with
  | Some f =>
      match content f with
      | Json j => intact (reviveDates j)
      | Garbage => true
      end
  | None => true
  end.

(** Every file of the data directory does. *)
Definition diskIntact (w : World) : bool :=
  match dataDir w with
  | Some d =>
      fileIntact (storage_json d) && fileIntact (storage_backup_json d)
      && fileIntact (storage_json_tmp d)
  | None => true
  end.

(** The calls of the two services. *)
Inductive Request :=
| GetAllTaskLists
| GetTaskListById (id : string)
| CreateTaskList (createData : CreateTaskListDTO.t)
| UpdateTaskList (id : string) (updateData : UpdateTaskListDTO.t)
| DeleteTaskList (id : string)
| TaskListExists (id : string)
| GetTaskListStats (id : string)
| GetTasksByListId (listId : string)
| GetTaskById (id : string)
| CreateTask (createData : CreateTaskDTO.t)
| UpdateTask (id : string) (updateData : UpdateTaskDTO.t)
| ToggleTaskCompletion (id : string)
| DeleteTask (id : string)
| GetAllTasks
| SearchTasks (query : string) (listId : option string)
| GetTaskStats (listId : option string).

(** The world a call leaves, whatever it returns or throws. *)
Definition perform (r : Request) (w : World) : World :=
  match r with
  | GetAllTaskLists => after getAllTaskLists w
  | GetTaskListById id => after (getTaskListById id) w
  | CreateTaskList createData => after (createTaskList createData) w
  | UpdateTaskList id updateData => after (updateTaskList id updateData) w
  | DeleteTaskList id => after (deleteTaskList id) w
  | TaskListExists id => after (taskListExists id) w
  | GetTaskListStats id => after (getTaskListStats id) w
  | GetTasksByListId listId => after (getTasksByListId listId) w
  | GetTaskById id => after (getTaskById id) w
  | CreateTask createData => after (createTask createData) w
  | UpdateTask id updateData => after (updateTask id updateData) w
  | ToggleTaskCompletion id => after (toggleTaskCompletion id) w
  | DeleteTask id => after (deleteTask id) w
  | GetAllTasks => after getAllTasks w
  | SearchTasks query listId => after (searchTasks query listId) w
  | GetTaskStats listId => after (getTaskStats listId) w
  end.

(** The worlds the services reach from an installation without a data
    directory, whatever the file system permits, the clock shows and the
    generator draws. *)
Inductive reachable : World -> Prop :=
| reachable_fresh w : dataDir w = None -> reachable w
| reachable_perform w r : reachable w -> reachable (perform r w).

(** No two lists have names that are equal up to case. *)
Definition namesUnique (lists : list TaskList.t) : Prop :=
  NoDup (map (fun list => JSString.toLowerCase (TaskList.name list)) lists).

(** [w] after [t] more readings of the clock and [d] more identifiers. *)
Definition advance (t d : nat) (w : World) : World :=
  mkWorld (dataDir w) (readOnly w) (clock w) (t + ticks w) (uuids w) (d + drawn w).

(** The end of every service that saves: [await writeData(data); return a]
    under a handler that turns the failure of the save into the service's
    own [AppError] with the status 500. *)
Definition saveThen {A} (data : StorageData) (a : A) (message : string) : M A :=
  fun w =>
    match writeData data w with
    | (Return _, w') => (Return a, w')
    | (Throw _, w') => (Throw (AppError message 500), w')
    end.

(** The tasks of a list. *)
Definition tasksOf (listId : string) (data : StorageData) : list Task.t :=
  filter (fun task => String.eqb (Task.listId task) listId) (tasks data).

(** Some list has the identifier. *)
Definition hasList (id : string) (data : StorageData) : bool :=
  existsb (fun list => String.eqb (TaskList.id list) id) (taskLists data).

(** The requests that only read. *)
Definition isQuery (r : Request) : bool :=
  match r with
  | GetAllTaskLists | GetTaskListById _ | TaskListExists _ | GetTaskListStats _
  | GetTasksByListId _ | GetTaskById _ | GetAllTasks | SearchTasks _ _
  | GetTaskStats _ => true
  | _ => false
  end.

(** [w] with [f] as its primary file: what an accident to that file
    leaves. *)
Definition withPrimary (f : option File) (w : World) : World :=
  withDir w
    (Some match dataDir w with
          | Some d => store STORAGE_FILE_PATH f d
          | None => store STORAGE_FILE_PATH f emptyDir
          end).

(** What a call throws, if it throws. *)
Definition thrownBy {A} (m : M A) (w : World) : option Exn :=
  match m w with
  | (Return _, _) => None
  | (Throw e, _) => Some e
  end.

Definition thrown (r : Request) (w : World) : option Exn :=
  match r with
  | GetAllTaskLists => thrownBy getAllTaskLists w
  | GetTaskListById id => thrownBy (getTaskListById id) w
  | CreateTaskList createData => thrownBy (createTaskList createData) w
  | UpdateTaskList id updateData => thrownBy (updateTaskList id updateData) w
  | DeleteTaskList id => thrownBy (deleteTaskList id) w
  | TaskListExists id => thrownBy (taskListExists id) w
  | GetTaskListStats id => thrownBy (getTaskListStats id) w
  | GetTasksByListId listId => thrownBy (getTasksByListId listId) w
  | GetTaskById id => thrownBy (getTaskById id) w
  | CreateTask createData => thrownBy (createTask createData) w
  | UpdateTask id updateData => thrownBy (updateTask id updateData) w
  | ToggleTaskCompletion id => thrownBy (toggleTaskCompletion id) w
  | DeleteTask id => thrownBy (deleteTask id) w
  | GetAllTasks => thrownBy getAllTasks w
  | SearchTasks query listId => thrownBy (searchTasks query listId) w
  | GetTaskStats listId => thrownBy (getTaskStats listId) w
  end.

(** Newer tasks stand before older ones. *)
Definition newestFirstOrder (result : list Task.t) : Prop :=
  forall i j a b, (i < j)%nat ->
    nth_error result i = Some a -> nth_error result j = Some b ->
    Task.createdAt b <= Task.createdAt a.

(** The tasks of [a] created at [instant], in the order of [a]. *)
Definition createdAtInstant (instant : Date) (a : list Task.t) : list Task.t :=
  filter (fun task => Task.createdAt task =? instant) a.

(** A string the validators accept: not blank, and of at most 255
    characters. *)
Definition acceptableString (s : string) : Prop :=
  JSString.trim s <> EmptyString /\ (String.length s <= 255)%nat.

(** A result either accepts, without a message, or rejects with one. *)
Definition explained (r : ValidationResult) : Prop :=
  if isValid r then error r = None else exists message, error r = Some message.

(** A required string property of a body. *)
Definition requiredString (value : JSValue) : Prop :=
  exists s, value = JString s /\ acceptableString s.

(** An optional one: absent, null or as a required one. *)
Definition optionalString (value : JSValue) : Prop :=
  value = JUndefined \/ value = JNull \/ requiredString value.

(** A body the validators go on with: an object or an array. *)
Definition isBody (data : JSValue) : Prop :=
  (exists properties, data = JObject properties) \/ (exists items, data = JArray items).

(** The text of a UUID: 36 characters, hexadecimal digits of any case but
    for the hyphens at 8, 13, 18 and 23, a version digit 1 to 5 at 14 and a
    variant digit 8, 9, a or b at 19. *)
Definition isUUID (s : string) : bool := test uuidPattern s.

(** The [time] of a body as [createTask] reads it: [data.time?.trim()] is
    taken of a string and is [undefined] for [undefined] and [null]. *)
Definition timeOf (data : JSValue) : option string :=
  match get data "time" with
  | JString s => Some s
  | _ => None
  end.

(** The ways a request changes the stored lists [L] and tasks [T], between
    the world [w] it starts in and the world [w'] it leaves: not at all, or
    by what one of the seven saving services saves.  The new identifier is
    the next one of [w]; the new timestamps are readings of the clock of
    [w] that [w'] has behind it. *)
Inductive Change (w w' : World) (L : list TaskList.t) (T : list Task.t)
  : list TaskList.t -> list Task.t -> Prop :=
| Unchanged : Change w w' L T L T
| ListCreated createData t :
    (ticks w <= t)%nat -> (S t < ticks w')%nat -> (drawn w < drawn w')%nat ->
    Change w w' L T
      (L ++ [TaskList.mk (uuids w (drawn w))
               (JSString.trim (CreateTaskListDTO.name createData))
               (clock w t) (clock w (S t))])%list
      T
| ListUpdated i cur name t :
    nth_error L i = Some cur ->
    (ticks w <= t)%nat -> (t < ticks w')%nat ->
    Change w w' L T
      (JSArray.assign i
         (TaskList.mk (TaskList.id cur)
            match name with
            | Some name => JSString.trim name
            | None => TaskList.name cur
            end
            (TaskList.createdAt cur) (clock w t))
         L)
      T
| ListDeleted i cur :
    nth_error L i = Some cur ->
    Change w w' L T
      (JSArray.splice1 i L)
      (filter (fun task => negb (String.eqb (Task.listId task) (TaskList.id cur))) T)
| TaskCreated createData t :
    existsb (fun list => String.eqb (TaskList.id list) (CreateTaskDTO.listId createData))
      L = true ->
    (ticks w <= t)%nat -> (S t < ticks w')%nat -> (drawn w < drawn w')%nat ->
    Change w w' L T L
      (T ++ [Task.mk (uuids w (drawn w))
               (JSString.trim (CreateTaskDTO.title createData))
               (option_map JSString.trim (CreateTaskDTO.time createData))
               false (CreateTaskDTO.listId createData)
               (clock w t) (clock w (S t))])%list
| TaskUpdated i cur updateData t :
    nth_error T i = Some cur ->
    (ticks w <= t)%nat -> (t < ticks w')%nat ->
    Change w w' L T L
      (JSArray.assign i
         (Task.mk (Task.id cur)
            match UpdateTaskDTO.title updateData with
            | Some title => JSString.trim title
            | None => Task.title cur
            end
            match UpdateTaskDTO.time updateData with
            | Some time => option_map JSString.trim time
            | None => Task.time cur
            end
            match UpdateTaskDTO.completed updateData with
            | Some completed => completed
            | None => Task.completed cur
            end
            (Task.listId cur) (Task.createdAt cur) (clock w t))
         T)
| TaskDeleted i cur :
    nth_error T i = Some cur ->
    Change w w' L T L (JSArray.splice1 i T).

(** A step from [w] to [w']: the same clock and generator, no reading and
    no identifier taken back, and one change of the store. *)
Definition Step (w w' : World) : Prop :=
  clock w' = clock w /\ uuids w' = uuids w
  /\ (ticks w <= ticks w')%nat /\ (drawn w <= drawn w')%nat
  /\ Change w w' (taskLists (loaded w)) (tasks (loaded w))
       (taskLists (loaded w')) (tasks (loaded w')).

(** The identifiers a document holds, of its lists and of its tasks. *)
Definition identifiers (data : StorageData) : list string :=
  (map TaskList.id (taskLists data) ++ map Task.id (tasks data))%list.

(** The two timestamps of a record are in order and not after [now]. *)
Definition inOrder (createdAt updatedAt now : Date) : Prop :=
  createdAt <= updatedAt <= now.

(** Trimming changes nothing in the string. *)
Definition trimmed (s : string) : Prop := JSString.trim s = s.

(** Another list than [id] has the name, case aside. *)
Definition nameTaken (id name : string) (lists : list TaskList.t) : bool :=
  existsb (fun list =>
             negb (String.eqb (TaskList.id list) id)
             && String.eqb (JSString.toLowerCase (TaskList.name list))
                  (JSString.toLowerCase name))
    lists.

(** The sum of [f] over [a]. *)
Definition sumOver {A} (f : A -> Z) (a : list A) : Z :=
  fold_right (fun x total => f x + total) 0 a.

(** Every character of [s] is white space. *)
Fixpoint allWhiteSpace (s : string) : bool :=
  match s with
  | EmptyString => true
  | String c s' => JSString.isWhiteSpace c && allWhiteSpace s'
  end.

Definition firstChar (s : string) : option ascii :=
  match s with
  | EmptyString => None
  | String c _ => Some c
  end.

Fixpoint lastChar (s : string) : option ascii :=
  match s with
  | EmptyString => None
  | String c EmptyString => Some c
  | String _ s' => lastChar s'
  end.

(** [s] neither begins nor ends with white space. *)
Definition bare (s : string) : Prop :=
  (forall c, firstChar s = Some c -> JSString.isWhiteSpace c = false)
  /\ (forall c, lastChar s = Some c -> JSString.isWhiteSpace c = false).

(** [stored] is [given] without the white space at its two ends. *)
Definition trimOf (given stored : string) : Prop :=
  exists before behind,
    given = String.append before (String.append stored behind)
    /\ allWhiteSpace before = true /\ allWhiteSpace behind = true
    /\ bare stored.

(** [b] is [a] without its element at index [i]: one shorter, the same up
    to [i], and from [i] on what [a] has one place further. *)
Definition without {A} (i : nat) (a b : list A) : Prop :=
  List.length a = S (List.length b)
  /\ (forall j, (j < i)%nat -> nth_error b j = nth_error a j)
  /\ (forall j, (i <= j)%nat -> nth_error b j = nth_error a (S j)).

(** ** A worked example

    A fresh installation, a clock that starts on 2024-01-01 and advances a
    millisecond a reading, and identifiers "a", "b", "c", ... *)

Fixpoint exampleClock (n : nat) : Z :=
  match n with
  | O => 1704067200000
  | S n => Z.succ (exampleClock n)
  end.

Definition exampleUuids (n : nat) : string :=
  nth n ["a"; "b"; "c"; "d"; "e"; "f"; "g"; "h"] "z".

Definition freshInstall : World :=
  mkWorld None false exampleClock 0 exampleUuids 0.

(** The list "Groceries" (id "a") with the tasks "Buy milk" (id "b") and
    "Milk" (id "c"). *)
Definition groceries : World :=
  after (createTaskList (CreateTaskListDTO.mk "Groceries") ;;;
         createTask (CreateTaskDTO.mk "Buy milk" None "a") ;;;
         createTask (CreateTaskDTO.mk " Milk " (Some "5 pm") "a"))
        freshInstall.

(** A document with one list and no task. *)
Definition backedUpList : StorageData :=
  mkStorageData
    [TaskList.mk "a" "Groceries" 1704067200002 1704067200003] []
    (mkMetadata "1.0.0" 1704067200004).

(** A data directory on a read-only file system, with that document as the
    backup file and no primary file. *)
Definition readOnlyBackupOnly : World :=
  mkWorld
    (Some (mkDataDir None (Some (mkFile true (JSON_stringify backedUpList))) None))
    true exampleClock 0 exampleUuids 0.

(** A primary file that does not parse, next to that backup. *)
Definition garbledPrimary : World :=
  mkWorld
    (Some (mkDataDir (Some (mkFile true Garbage))
             (Some (mkFile true (JSON_stringify backedUpList))) None))
    false exampleClock 0 exampleUuids 0.

(** The list "Chores" (id "a") with four tasks, of which the second is
    completed. *)
Definition chores : World :=
  after (createTaskList (CreateTaskListDTO.mk "Chores") ;;;
         createTask (CreateTaskDTO.mk "Sweep" None "a") ;;;
         createTask (CreateTaskDTO.mk "Dust" None "a") ;;;
         createTask (CreateTaskDTO.mk "Mop" None "a") ;;;
         createTask (CreateTaskDTO.mk "Iron" None "a") ;;;
         toggleTaskCompletion "c")
        freshInstall.

(** The list "Dairy" (id "a") with the task "Milk" (id "b") and the newer
    task "Buy milk" (id "c"). *)
Definition dairy : World :=
  after (createTaskList (CreateTaskListDTO.mk "Dairy") ;;;
         createTask (CreateTaskDTO.mk "Milk" None "a") ;;;
         createTask (CreateTaskDTO.mk "Buy milk" None "a"))
        freshInstall.

(** The list "Pantry" of an installation whose identifiers are UUIDs. *)
Definition exampleUUIDs (n : nat) : string :=
  nth n ["123e4567-e89b-42d3-a456-426614174000";
         "123e4567-e89b-42d3-a456-426614174001";
         "123e4567-e89b-42d3-a456-426614174002"]
    "123e4567-e89b-42d3-a456-426614174999".

Definition pantry : World :=
  after (createTaskList (CreateTaskListDTO.mk "Pantry"))
    (mkWorld None false exampleClock 0 exampleUUIDs 0).

(** The list "Backlog" (id "a") with 160 tasks, "000" to "159", of which
    the first 23 are completed, as a save on a fresh installation leaves
    it. *)
Definition digit (n : nat) : ascii := ascii_of_nat (48 + n mod 10).

Definition threeDigits (n : nat) : string :=
  String (digit (n / 100)) (String (digit (n / 10)) (String (digit n) EmptyString)).

Definition backlogTask (n : nat) : Task.t :=
  Task.mk (threeDigits n) "Task" None (n <? 23)%nat "a"
    1704067200005 1704067200006.

Definition backlogData : StorageData :=
  mkStorageData
    [TaskList.mk "a" "Backlog" 1704067200002 1704067200003]
    (map backlogTask (seq 0 160))
    (mkMetadata "1.0.0" 1704067200004).

Definition backlog : World := after (writeData backlogData) freshInstall.

(** * Properties *)

(** ** Sequencing *)

Lemma bind_Return {A B} (m : M A) (k : A -> M B) w a w' :
  m w = (Return a, w') -> bind m k w = k a w'.
Proof. intros H. unfold bind. now rewrite H. Qed.

Lemma bind_Throw {A B} (m : M A) (k : A -> M B) w e w' :
  m w = (Throw e, w') -> bind m k w = (Throw e, w').
Proof. intros H. unfold bind. now rewrite H. Qed.

Lemma tryCatch_Return {A} (m : M A) h w a w' :
  m w = (Return a, w') -> tryCatch m h w = (Return a, w').
Proof. intros H. unfold tryCatch. now rewrite H. Qed.

Lemma tryCatch_Throw {A} (m : M A) h w e w' :
  m w = (Throw e, w') -> tryCatch m h w = h e w'.
Proof. intros H. unfold tryCatch. now rewrite H. Qed.

(** ** JSON round trip *)

Lemma revive_toJSON_TaskList l : reviveTaskList (toJSON_TaskList l) = l.
Proof. now destruct l. Qed.

Lemma revive_toJSON_Task t : reviveTask (toJSON_Task t) = t.
Proof. now destruct t. Qed.

Lemma map_revive_TaskList ls :
  map reviveTaskList (map toJSON_TaskList ls) = ls.
Proof.
  induction ls as [|l ls IH]; simpl; [reflexivity|].
  now rewrite revive_toJSON_TaskList, IH.
Qed.

Lemma map_revive_Task ts : map reviveTask (map toJSON_Task ts) = ts.
Proof.
  induction ts as [|t ts IH]; simpl; [reflexivity|].
  now rewrite revive_toJSON_Task, IH.
Qed.

Lemma revive_toJSON data : reviveDates (toJSON_StorageData data) = data.
Proof.
  destruct data as [ls ts [v u]]. unfold toJSON_StorageData, reviveDates. simpl.
  now rewrite map_revive_TaskList, map_revive_Task.
Qed.

Lemma documentOf_stringify data :
  documentOf (Some (mkFile true (JSON_stringify data))) = Some data.
Proof. unfold documentOf, JSON_stringify. simpl. now rewrite revive_toJSON. Qed.

(** ** [writeData] *)

Ltac world w :=
  destruct w as [ [[ [[[|] [?|]]|] [[[|] [?|]]|] ? ]|] [|] ? ? ? ? ].

Lemma writeData_canWrite data w :
  canWrite w = true ->
  writeData data w = (Return (stamped data (clock w (ticks w))), afterWrite w data).
Proof.
  world w; intros H; try discriminate H; reflexivity.
Qed.

Lemma writeData_cannot data w :
  canWrite w = false ->
  exists w',
    writeData data w = (Throw (Error "Failed to save data to storage"), w')
    /\ dataDir w' = dataDir w /\ readOnly w' = readOnly w
    /\ clock w' = clock w /\ uuids w' = uuids w /\ drawn w' = drawn w.
Proof.
  world w; intros H; try discriminate H;
    (eexists; split; [reflexivity | repeat split]).
Qed.

(** ** [readData] *)

Lemma readData_total w : exists data w', readData w = (Return data, w').
Proof. world w; do 2 eexists; reflexivity. Qed.

Lemma readData_primary w data :
  documentOf (primaryFile w) = Some data -> readData w = (Return data, w).
Proof.
  world w; intros H; cbn in H; try discriminate H;
    injection H as <-; reflexivity.
Qed.

Lemma readData_absent w :
  primaryFile w = None -> readOnly w = false ->
  exists w',
    readData w = (Return (initialData (clock w (S (ticks w)))), w')
    /\ primaryFile w' =
         Some (mkFile true (JSON_stringify (initialData (clock w (S (ticks w))))))
    /\ backupFile w' = backupFile w.
Proof.
  world w; intros H1 H2; cbn in H1, H2; try discriminate H1; try discriminate H2;
    (eexists; split; [reflexivity | split; reflexivity]).
Qed.

Lemma readData_backup w f data :
  primaryFile w = Some f -> documentOf (Some f) = None ->
  documentOf (backupFile w) = Some data ->
  readData w = (Return data, w).
Proof.
  world w; intros H1 H2 H3; cbn in H1; try discriminate H1; injection H1 as <-;
    cbn in H2, H3; try discriminate H2; try discriminate H3;
    injection H3 as <-; reflexivity.
Qed.

Lemma readData_fresh w f :
  primaryFile w = Some f -> documentOf (Some f) = None ->
  documentOf (backupFile w) = None ->
  readData w =
    (Return (initialData (clock w (ticks w))),
     mkWorld (dataDir w) (readOnly w) (clock w) (S (ticks w)) (uuids w) (drawn w)).
Proof.
  world w; intros H1 H2 H3; cbn in H1; try discriminate H1; injection H1 as <-;
    cbn in H2, H3; try discriminate H2; try discriminate H3; reflexivity.
Qed.

(** A load changes nothing but the files it may initialise and the clock it
    may read. *)
Lemma readData_frame w r w' :
  readData w = (r, w') ->
  readOnly w' = readOnly w /\ clock w' = clock w
  /\ uuids w' = uuids w /\ drawn w' = drawn w
  /\ (canWrite w = true -> canWrite w' = true).
Proof.
  world w; intros H; cbv in H; injection H as <- <-; repeat split; auto.
Qed.

(** What a load returns, the next load returns too. *)
Lemma readData_again w data w1 data' w2 :
  readData w = (Return data, w1) ->
  readData w1 = (Return data', w2) ->
  taskLists data' = taskLists data /\ tasks data' = tasks data.
Proof.
  world w; intros H; cbv in H; injection H as <- <-;
    intros H; cbv in H; injection H as <- _; split; reflexivity.
Qed.

Arguments readData : simpl never.
Arguments writeData : simpl never.
Arguments JSArray.assign : simpl never.
Arguments JSArray.splice1 : simpl never.

(** ** Arrays *)

Section ArrayFacts.
Context {A : Type}.
Implicit Types (p : A -> bool) (a : list A).

Lemma findIndex_None p a :
    JSArray.findIndex p a = None <-> (forall x, In x a -> p x = false).
  Proof.
    induction a as [|y a IH]; simpl.
    - split; [intros _ x [] | reflexivity].
    - destruct (p y) eqn:Hy.
      + split; [discriminate|]. intros H. specialize (H y (or_introl eq_refl)).
        congruence.
      + destruct (JSArray.findIndex p a) as [i|].
        * split; [discriminate|]. intros H.
          assert (Some i = None) as Hi; [|discriminate Hi].
          apply IH. intros x Hx. apply H. now right.
        * split; [|reflexivity]. intros _ x [<-|Hx]; [assumption|].
          now apply IH.
  Qed.

Lemma findIndex_Some p a i :
    JSArray.findIndex p a = Some i -> firstWith p a i.
  Proof.
    revert i. induction a as [|y a IH]; simpl; intros i H; [discriminate|].
    destruct (p y) eqn:Hy.
    - injection H as <-. exists y. repeat split; trivial. intros j z Hj. lia.
    - destruct (JSArray.findIndex p a) as [k|]; [|discriminate].
      injection H as <-. destruct (IH k eq_refl) as (x & Hx & Hp & Hlt).
      exists x. repeat split; trivial.
      intros [|j] z Hj Hz; simpl in Hz; [congruence|].
      apply (Hlt j); [lia | assumption].
  Qed.

Lemma firstWith_findIndex p a i :
    firstWith p a i -> JSArray.findIndex p a = Some i.
  Proof.
    revert i. induction a as [|y a IH]; intros i (x & Hx & Hp & Hlt).
    - now destruct i.
    - simpl. destruct i as [|i]; simpl in Hx.
      + injection Hx as ->. now rewrite Hp.
      + rewrite (Hlt O y) by (simpl; trivial; lia).
        rewrite (IH i); [reflexivity|].
        exists x. repeat split; trivial.
        intros j z Hj Hz. apply (Hlt (S j)); [lia | assumption].
  Qed.

Lemma find_findIndex p a :
    find p a = None <-> JSArray.findIndex p a = None.
  Proof.
    rewrite findIndex_None. split.
    - intros H x Hx. now apply (find_none _ _ H).
    - intros H. destruct (find p a) as [x|] eqn:Hf; [|reflexivity].
      apply find_some in Hf as [Hin Hp]. rewrite (H x Hin) in Hp. discriminate.
  Qed.

Lemma nth_error_assign i x a j :
    (i < List.length a)%nat ->
    nth_error (JSArray.assign i x a) j =
      if Nat.eqb j i then Some x else nth_error a j.
  Proof.
    unfold JSArray.assign. revert i j.
    induction a as [|y a IH]; intros i j Hi; simpl in Hi; [lia|].
    destruct i as [|i]; destruct j as [|j]; simpl; trivial.
    apply IH. lia.
  Qed.

Lemma length_assign i x a :
    (i < List.length a)%nat -> List.length (JSArray.assign i x a) = List.length a.
  Proof.
    unfold JSArray.assign. revert i.
    induction a as [|y a IH]; intros i Hi; simpl in Hi; [lia|].
    destruct i as [|i]; simpl; [reflexivity|]. f_equal. apply IH. lia.
  Qed.

Lemma in_firstn i a y : In y (firstn i a) -> In y a.
  Proof.
    revert i. induction a as [|z a IH]; intros [|i] H; simpl in H;
      try contradiction.
    destruct H as [->|H]; [now left | right; eauto].
  Qed.

Lemma in_skipn i a y : In y (skipn i a) -> In y a.
  Proof.
    revert i. induction a as [|z a IH]; intros [|i] H; simpl in H;
      try contradiction; trivial.
    right. eauto.
  Qed.

Lemma In_assign i x a y :
    In y (JSArray.assign i x a) -> y = x \/ In y a.
  Proof.
    unfold JSArray.assign. intros H. apply in_app_or in H as [H|[H|H]].
    - right. eapply in_firstn. eassumption.
    - left. now symmetry.
    - right. eapply in_skipn. eassumption.
  Qed.

Lemma In_splice1 i a y : In y (JSArray.splice1 i a) -> In y a.
  Proof.
    unfold JSArray.splice1. intros H. apply in_app_or in H as [H|H].
    - eapply in_firstn. eassumption.
    - eapply in_skipn. eassumption.
  Qed.

Lemma In_splice1_or i a y :
    In y a -> In y (JSArray.splice1 i a) \/ nth_error a i = Some y.
  Proof.
    unfold JSArray.splice1. revert i.
    induction a as [|z a IH]; intros i H; [contradiction|].
    destruct i as [|i]; simpl.
    - destruct H as [->|H]; [now right | now left].
    - destruct H as [->|H]; [left; now left|].
      destruct (IH i H) as [H'|H']; [left; now right | now right].
  Qed.

End ArrayFacts.

(** ** Saving from a service *)

Lemma documentOf_afterWrite w data :
  documentOf (primaryFile (afterWrite w data)) =
    Some (stamped data (clock w (ticks w))).
Proof. apply documentOf_stringify. Qed.

Lemma readData_canWrite w data w1 :
  readData w = (Return data, w1) -> canWrite w = true -> canWrite w1 = true.
Proof. intros H. now destruct (readData_frame _ _ _ H) as (_ & _ & _ & _ & Hw). Qed.

Lemma readData_loaded w data w1 :
  readData w = (Return data, w1) -> loaded w = data.
Proof. intros H. unfold loaded. now rewrite H. Qed.

(** A load initialises a missing primary file and leaves every other file
    as it is. *)
Lemma readData_files w r w1 :
  primaryFile w <> None -> readData w = (r, w1) -> dataDir w1 = dataDir w.
Proof.
  world w; intros Hp H; cbv in H; injection H as <- <-; try reflexivity;
    now contradiction Hp.
Qed.

(** ** Updating a task *)

(** ** What trimming is *)

Lemma trimStart_split s :
  exists before,
    s = String.append before (JSString.trimStart s)
    /\ allWhiteSpace before = true
    /\ (forall c, firstChar (JSString.trimStart s) = Some c ->
          JSString.isWhiteSpace c = false).
Proof.
  induction s as [|c s (before & Hs & Hb & Hf)].
  - exists EmptyString. repeat split. discriminate.
  - cbn [JSString.trimStart]. destruct (JSString.isWhiteSpace c) eqn:Hc.
    + exists (String c before). cbn. rewrite Hc, Hb. repeat split; trivial.
      now rewrite <- Hs.
    + exists EmptyString. repeat split. cbn. intros c' H. now injection H as <-.
Qed.

Lemma trimEnd_split s :
  exists behind,
    s = String.append (JSString.trimEnd s) behind
    /\ allWhiteSpace behind = true
    /\ (forall c, lastChar (JSString.trimEnd s) = Some c ->
          JSString.isWhiteSpace c = false).
Proof.
  induction s as [|c s (behind & Hs & Hb & Hl)].
  - exists EmptyString. repeat split. discriminate.
  - cbn [JSString.trimEnd]. destruct (JSString.trimEnd s) as [|d t] eqn:Ht.
    + cbn in Hs. subst behind. destruct (JSString.isWhiteSpace c) eqn:Hc.
      * exists (String c s). cbn. rewrite Hc, Hb. repeat split. discriminate.
      * exists s. repeat split; trivial. cbn. intros c' H. now injection H as <-.
    + exists behind. split; [cbn; now rewrite Hs at 1|]. split; [exact Hb|].
      exact Hl.
Qed.

Lemma firstChar_trimEnd s c :
  firstChar s = Some c -> JSString.isWhiteSpace c = false ->
  firstChar (JSString.trimEnd s) = Some c.
Proof.
  destruct s as [|d s]; [discriminate|]. cbn [firstChar JSString.trimEnd].
  intros H Hc. injection H as ->.
  destruct (JSString.trimEnd s); [now rewrite Hc | reflexivity].
Qed.

Lemma trim_spec s : trimOf s (JSString.trim s).
Proof.
  unfold JSString.trim.
  destruct (trimStart_split s) as (before & Hs & Hb & Hf).
  destruct (trimEnd_split (JSString.trimStart s)) as (behind & Ht & Ha & Hl).
  exists before, behind. split; [now rewrite <- Ht|].
  split; [exact Hb|]. split; [exact Ha|]. split; [|exact Hl].
  intros c Hc. destruct (firstChar (JSString.trimStart s)) as [d|] eqn:Hd.
  - pose proof (Hf d eq_refl) as Hws.
    rewrite (firstChar_trimEnd _ d Hd Hws) in Hc. now injection Hc as <-.
  - destruct (JSString.trimStart s); [discriminate Hc | discriminate Hd].
Qed.

Lemma trimStart_append_white before s :
  allWhiteSpace before = true ->
  JSString.trimStart (String.append before s) = JSString.trimStart s.
Proof.
  induction before as [|c before IH]; [reflexivity|]. cbn.
  intros H. apply andb_true_iff in H as [-> H]. now apply IH.
Qed.

Lemma trimStart_white s :
  allWhiteSpace s = true -> JSString.trimStart s = EmptyString.
Proof.
  induction s as [|c s IH]; [reflexivity|]. cbn.
  intros H. apply andb_true_iff in H as [-> H]. now apply IH.
Qed.

Lemma trimEnd_white s : allWhiteSpace s = true -> JSString.trimEnd s = EmptyString.
Proof.
  induction s as [|c s IH]; [reflexivity|]. cbn.
  intros H. apply andb_true_iff in H as [-> H]. now rewrite (IH H).
Qed.

Lemma trimEnd_append_white s behind :
  (forall c, lastChar s = Some c -> JSString.isWhiteSpace c = false) ->
  allWhiteSpace behind = true ->
  JSString.trimEnd (String.append s behind) = s.
Proof.
  intros Hl Hb. induction s as [|c s IH]; [now apply trimEnd_white|].
  cbn [String.append JSString.trimEnd]. destruct s as [|d s].
  - cbn [String.append]. rewrite (trimEnd_white _ Hb).
    now rewrite (Hl c eq_refl).
  - rewrite IH; [reflexivity|]. intros c' H. apply Hl. exact H.
Qed.

(** [JSString.trim] is the one string that [trimOf] describes. *)
Lemma trimOf_trim given stored : trimOf given stored <-> stored = JSString.trim given.
Proof.
  split; [|intros ->; apply trim_spec].
  intros (before & behind & -> & Hb & Ha & Hf & Hl). unfold JSString.trim.
  rewrite (trimStart_append_white _ _ Hb). destruct stored as [|c stored].
  - cbn [String.append]. now rewrite (trimStart_white _ Ha).
  - cbn [String.append JSString.trimStart]. rewrite (Hf c eq_refl).
    symmetry. now apply (trimEnd_append_white (String c stored)).
Qed.

(** C8. [updateTask] is a partial update with a frame.  With [data] the
    document the service loads: when no task has the identifier, it returns
    null (not found) and saves nothing; when the first task with the
    identifier is [cur], at index [i], and the file system takes the save, it
    returns a task with the identifier, list and creation time of [cur] and
    the time of the update as [updatedAt]; its title is the title of the
    update without the white space at its ends when the update has one, and
    the title of [cur] otherwise; its time is the time of the update without
    the white space at its ends when the update has a string there, no time
    when the update has null there, and the time of [cur] when the update
    has none; [completed] is taken from the update when present and from
    [cur] otherwise.  The document stored afterwards has this task at index
    [i], every other task as before, and the lists as before. *)
Theorem updateTask_partial_update_frame w data w1 id updateData :
  readData w = (Return data, w1) ->
  ((forall t, In t (tasks data) -> Task.id t <> id) ->
   updateTask id updateData w = (Return None, w1))
  /\ (forall i,
        firstWith (fun task => String.eqb (Task.id task) id) (tasks data) i ->
        canWrite w = true ->
        exists cur updated w2 saved,
          nth_error (tasks data) i = Some cur
          /\ updateTask id updateData w = (Return (Some updated), w2)
          /\ match UpdateTaskDTO.title updateData with
             | Some title => trimOf title (Task.title updated)
             | None => Task.title updated = Task.title cur
             end
          /\ match UpdateTaskDTO.time updateData with
             | Some (Some time) =>
                 exists stored,
                   Task.time updated = Some stored /\ trimOf time stored
             | Some None => Task.time updated = None
             | None => Task.time updated = Task.time cur
             end
          /\ Task.completed updated =
               match UpdateTaskDTO.completed updateData with
               | Some completed => completed
               | None => Task.completed cur
               end
          /\ Task.updatedAt updated = clock w1 (ticks w1)
          /\ Task.id updated = Task.id cur
          /\ Task.listId updated = Task.listId cur
          /\ Task.createdAt updated = Task.createdAt cur
          /\ documentOf (primaryFile w2) = Some saved
          /\ nth_error (tasks saved) i = Some updated
          /\ (forall j, j <> i -> nth_error (tasks saved) j = nth_error (tasks data) j)
          /\ List.length (tasks saved) = List.length (tasks data)
          /\ taskLists saved = taskLists data).
Proof.
  intros Hread. split.
  - intros Hno. unfold updateTask.
    apply tryCatch_Return. rewrite (bind_Return _ _ _ _ _ Hread).
    replace (JSArray.findIndex _ _) with (@None nat); [reflexivity|].
    symmetry. apply findIndex_None. intros t Ht. apply String.eqb_neq. auto.
  - intros i Hi Hw. pose proof (firstWith_findIndex _ _ _ Hi) as Hfi.
    destruct Hi as (cur & Hcur & _).
    pose proof (readData_canWrite _ _ _ Hread Hw) as Hw1.
    assert (i < List.length (tasks data))%nat as Hlt
      by (apply nth_error_Some; congruence).
    exists cur. do 3 eexists. split; [assumption|]. split.
    + unfold updateTask. apply tryCatch_Return.
      rewrite (bind_Return _ _ _ _ _ Hread), Hfi, Hcur.
      unfold bind at 1. unfold newDate at 1.
      erewrite bind_Return; [reflexivity|].
      apply writeData_canWrite. exact Hw1.
    + rewrite documentOf_afterWrite.
      cbn [Task.title Task.time Task.completed Task.updatedAt Task.id
           Task.listId Task.createdAt].
      split; [destruct (UpdateTaskDTO.title updateData);
              [apply trim_spec | reflexivity]|].
      split; [destruct (UpdateTaskDTO.time updateData) as [[time|]|];
              [eexists; split; [reflexivity | apply trim_spec]
              |reflexivity | reflexivity]|].
      repeat (split; [reflexivity|]). unfold stamped. cbn [tasks taskLists].
      split; [rewrite nth_error_assign, Nat.eqb_refl; trivial|].
      split; [|split; [now apply length_assign | reflexivity]].
      intros j Hj. rewrite nth_error_assign by assumption.
      now apply Nat.eqb_neq in Hj as ->.
Qed.

Lemma updateTask_partial_update_frame_witness :
  readData groceries = (Return (loaded groceries), groceries)
  /\ firstWith (fun task => String.eqb (Task.id task) "c")
       (tasks (loaded groceries)) 1
  /\ canWrite groceries = true
  /\ exists cur updated w2 saved,
       nth_error (tasks (loaded groceries)) 1 = Some cur
       /\ updateTask "c" (UpdateTaskDTO.mk (Some "  Oat milk ") (Some None) None)
            groceries
          = (Return (Some updated), w2)
       /\ trimOf "  Oat milk " (Task.title updated)
       /\ Task.time updated = None
       /\ Task.completed updated = Task.completed cur
       /\ Task.updatedAt updated = clock groceries (ticks groceries)
       /\ Task.id updated = Task.id cur
       /\ Task.listId updated = Task.listId cur
       /\ Task.createdAt updated = Task.createdAt cur
       /\ documentOf (primaryFile w2) = Some saved
       /\ nth_error (tasks saved) 1 = Some updated
       /\ (forall j, j <> 1%nat ->
           nth_error (tasks saved) j = nth_error (tasks (loaded groceries)) j)
       /\ List.length (tasks saved) = List.length (tasks (loaded groceries))
       /\ taskLists saved = taskLists (loaded groceries).
Proof.
  assert (readData groceries = (Return (loaded groceries), groceries)) as Hread
    by (vm_compute; reflexivity).
  assert (firstWith (fun task => String.eqb (Task.id task) "c")
            (tasks (loaded groceries)) 1) as Hfirst
    by (apply findIndex_Some; vm_compute; reflexivity).
  assert (canWrite groceries = true) as Hw by (vm_compute; reflexivity).
  repeat (split; [assumption|]).
  exact (proj2 (updateTask_partial_update_frame groceries (loaded groceries)
                  groceries "c"
                  (UpdateTaskDTO.mk (Some "  Oat milk ") (Some None) None) Hread)
               1%nat Hfirst Hw).
Defined.

(** The three kinds of update evaluated on the task "Milk" with the time
    "5 pm": a title and a time with white space around them are stored
    without it, a null time clears the time, and an update without title
    and time keeps both. *)
Lemma updateTask_of_Milk :
  (exists updated w2,
     updateTask "c" (UpdateTaskDTO.mk (Some "  Oat milk ") (Some (Some " 6 pm ")) None)
       groceries = (Return (Some updated), w2)
     /\ Task.title updated = "Oat milk" /\ Task.time updated = Some "6 pm")
  /\ (exists updated w2,
        updateTask "c" (UpdateTaskDTO.mk None (Some None) None) groceries
        = (Return (Some updated), w2)
        /\ Task.title updated = "Milk" /\ Task.time updated = None)
  /\ (exists updated w2,
        updateTask "c" (UpdateTaskDTO.mk None None (Some true)) groceries
        = (Return (Some updated), w2)
        /\ Task.title updated = "Milk" /\ Task.time updated = Some "5 pm"
        /\ Task.completed updated = true).
Proof.
  repeat split; do 2 eexists; (split; [vm_compute; reflexivity|]);
    repeat split.
Qed.

(** ** What a world stores *)

Lemma readData_run w : readData w = (Return (loaded w), after readData w).
Proof.
  destruct (readData_total w) as (data & w' & H).
  unfold loaded, after. now rewrite H.
Qed.

Lemma loaded_afterWrite w data :
  loaded (afterWrite w data) = stamped data (clock w (ticks w)).
Proof.
  apply readData_loaded with (w1 := afterWrite w data).
  apply readData_primary, documentOf_afterWrite.
Qed.

Lemma loaded_after_readData w :
  taskLists (loaded (after readData w)) = taskLists (loaded w)
  /\ tasks (loaded (after readData w)) = tasks (loaded w).
Proof.
  eapply readData_again; apply readData_run.
Qed.

Lemma canWrite_after_readData w :
  canWrite w = true -> canWrite (after readData w) = true.
Proof. apply readData_canWrite with (data := loaded w), readData_run. Qed.

Lemma no_id_findIndex {A} (key : A -> string) (a : list A) id :
  (forall x, In x a -> key x <> id) ->
  JSArray.findIndex (fun x => String.eqb (key x) id) a = None.
Proof.
  intros H. apply findIndex_None. intros x Hx. apply String.eqb_neq. auto.
Qed.

Lemma absent_id {A} (key : A -> string) (a : list A) id :
  existsb (fun x => String.eqb (key x) id) a = false ->
  forall x, In x a -> key x <> id.
Proof.
  intros H x Hx Heq.
  assert (existsb (fun x => String.eqb (key x) id) a = true) as H'.
  { apply existsb_exists. exists x. split; [assumption|]. now apply String.eqb_eq. }
  congruence.
Qed.

(** ** Deleting *)

(** The cascade: one save of the document without the list and without its
    tasks. *)
Lemma deleteTaskList_cascade w id i :
  firstWith (fun list => String.eqb (TaskList.id list) id) (taskLists (loaded w)) i ->
  canWrite w = true ->
  exists saved w2,
    deleteTaskList id w = (Return true, w2)
    /\ w2 = afterWrite (after readData w) saved
    /\ taskLists (loaded w2) = JSArray.splice1 i (taskLists (loaded w))
    /\ tasks (loaded w2) =
         filter (fun task => negb (String.eqb (Task.listId task) id))
           (tasks (loaded w)).
Proof.
  intros Hi Hw. apply firstWith_findIndex in Hi.
  do 2 eexists. split; [|split; [reflexivity|]].
  - unfold deleteTaskList. apply tryCatch_Return.
    rewrite (bind_Return _ _ _ _ _ (readData_run w)), Hi.
    erewrite bind_Return; [reflexivity|].
    apply writeData_canWrite, canWrite_after_readData, Hw.
  - rewrite loaded_afterWrite. split; reflexivity.
Qed.

Lemma firstWith_inside {A} (p : A -> bool) a i :
  firstWith p a i -> (i < List.length a)%nat.
Proof.
  intros (x & Hx & _). apply nth_error_Some. now rewrite Hx.
Qed.

Lemma readData_refused_keeps_files w :
  primaryFile w = None -> canWrite w = false ->
  dataDir (after readData w) = dataDir w.
Proof.
  unfold after.
  world w; intros H1 H2; cbn in H1, H2; try discriminate H1; try discriminate H2;
    reflexivity.
Qed.

Lemma splice1_without {A} i (a : list A) :
  (i < List.length a)%nat -> without i a (JSArray.splice1 i a).
Proof.
  unfold without, JSArray.splice1. revert i.
  induction a as [|x a IH]; intros i Hi; cbn in Hi; [lia|].
  destruct i as [|i].
  - cbn. split; [reflexivity|]. split; [intros j Hj; lia | reflexivity].
  - destruct (IH i) as (Hlen & Hbefore & Hafter); [lia|].
    change (skipn (S (S i)) (x :: a)) with (skipn (S i) a).
    cbn [firstn app List.length]. split; [now rewrite Hlen|]. split.
    + intros [|j] Hj; [reflexivity|]. cbn. apply Hbefore. lia.
    + intros [|j] Hj; [lia|]. cbn. apply Hafter. lia.
Qed.

(** C9, where the code departs from the claim: on a new installation the
    deletion of an unknown identifier returns false and still leaves a
    primary file behind, the empty document that the load saves when there
    is none. *)
Lemma delete_unknown_on_a_new_installation_saves :
  primaryFile freshInstall = None
  /\ (exists w',
        deleteTask "x" freshInstall = (Return false, w')
        /\ documentOf (primaryFile w') = Some (initialData 1704067200001))
  /\ (exists w',
        deleteTaskList "x" freshInstall = (Return false, w')
        /\ documentOf (primaryFile w') = Some (initialData 1704067200001)).
Proof.
  split; [reflexivity|].
  split; eexists; (split; [vm_compute; reflexivity|]); vm_compute; reflexivity.
Qed.

(** C9, amended.  When no stored list (task) has the identifier,
    [deleteTaskList] ([deleteTask]) returns false and leaves the world as
    the load alone leaves it: it performs no save of its own and the stored
    lists and tasks are the ones of before.  The load touches no file when
    there is a primary file, and none when there is no primary file on a
    file system that refuses the save; when there is no primary file and
    the save goes through, it writes one, with the empty document, and
    leaves the backup file alone.  When the identifier exists and the file
    system takes the save, the service returns true after one save of the
    document without the (first) list with the identifier and without every
    task of that list, respectively without the (first) task with the
    identifier: the stored lists (tasks) are one fewer, the same before the
    index and moved up one place from it on. *)
Theorem delete_unknown_false_known_true w id :
  ((forall l, In l (taskLists (loaded w)) -> TaskList.id l <> id) ->
   deleteTaskList id w = (Return false, after readData w))
  /\ ((forall t, In t (tasks (loaded w)) -> Task.id t <> id) ->
      deleteTask id w = (Return false, after readData w))
  /\ (taskLists (loaded (after readData w)) = taskLists (loaded w)
      /\ tasks (loaded (after readData w)) = tasks (loaded w)
      /\ (primaryFile w <> None -> dataDir (after readData w) = dataDir w)
      /\ (primaryFile w = None -> canWrite w = false ->
          dataDir (after readData w) = dataDir w)
      /\ (primaryFile w = None -> canWrite w = true ->
          exists now,
            documentOf (primaryFile (after readData w)) = Some (initialData now)
            /\ backupFile (after readData w) = backupFile w))
  /\ (forall i,
        firstWith (fun list => String.eqb (TaskList.id list) id)
          (taskLists (loaded w)) i ->
        canWrite w = true ->
        exists saved w2,
          deleteTaskList id w = (Return true, w2)
          /\ w2 = afterWrite (after readData w) saved
          /\ without i (taskLists (loaded w)) (taskLists (loaded w2))
          /\ tasks (loaded w2) =
               filter (fun task => negb (String.eqb (Task.listId task) id))
                 (tasks (loaded w))
          /\ (forall task,
                In task (tasks (loaded w2)) <->
                In task (tasks (loaded w)) /\ Task.listId task <> id))
  /\ (forall i,
        firstWith (fun task => String.eqb (Task.id task) id)
          (tasks (loaded w)) i ->
        canWrite w = true ->
        exists saved w2,
          deleteTask id w = (Return true, w2)
          /\ w2 = afterWrite (after readData w) saved
          /\ taskLists (loaded w2) = taskLists (loaded w)
          /\ without i (tasks (loaded w)) (tasks (loaded w2))).
Proof.
  pose proof (readData_run w) as Hread.
  split; [|split; [|split; [|split]]].
  - intros Hno. unfold deleteTaskList. apply tryCatch_Return.
    rewrite (bind_Return _ _ _ _ _ Hread).
    now rewrite (no_id_findIndex TaskList.id).
  - intros Hno. unfold deleteTask. apply tryCatch_Return.
    rewrite (bind_Return _ _ _ _ _ Hread).
    now rewrite (no_id_findIndex Task.id).
  - destruct (loaded_after_readData w) as [Hl Ht].
    split; [exact Hl|]. split; [exact Ht|]. split; [|split].
    + intros Hp. eapply readData_files; eassumption.
    + apply readData_refused_keeps_files.
    + intros Hp Hc.
      assert (readOnly w = false) as Hro.
      { unfold canWrite in Hc. apply andb_true_iff in Hc as [Hc _].
        now destruct (readOnly w). }
      destruct (readData_absent w Hp Hro) as (w' & Hr & Hf & Hb).
      unfold after. rewrite Hr. cbn [snd]. eexists. rewrite Hf.
      split; [apply documentOf_stringify | exact Hb].
  - intros i Hi Hw.
    destruct (deleteTaskList_cascade w id i Hi Hw) as (saved & w2 & Hd & Hw2 & Hl & Ht).
    exists saved, w2. split; [exact Hd|]. split; [exact Hw2|].
    split; [rewrite Hl; apply splice1_without; eapply firstWith_inside; exact Hi|].
    split; [exact Ht|]. intros task. rewrite Ht, filter_In, negb_true_iff.
    now rewrite String.eqb_neq.
  - intros i Hi Hw. pose proof (firstWith_findIndex _ _ _ Hi) as Hfi.
    do 2 eexists. split; [|split; [reflexivity|]].
    + unfold deleteTask. apply tryCatch_Return.
      rewrite (bind_Return _ _ _ _ _ Hread), Hfi.
      erewrite bind_Return; [reflexivity|].
      apply writeData_canWrite, canWrite_after_readData, Hw.
    + rewrite loaded_afterWrite. split; [reflexivity|].
      cbn [stamped tasks]. apply splice1_without. eapply firstWith_inside.
      exact Hi.
Qed.

Lemma delete_unknown_false_known_true_witness :
  (forall l, In l (taskLists (loaded groceries)) -> TaskList.id l <> "x")
  /\ deleteTaskList "x" groceries = (Return false, after readData groceries)
  /\ (forall t, In t (tasks (loaded groceries)) -> Task.id t <> "x")
  /\ deleteTask "x" groceries = (Return false, after readData groceries)
  /\ firstWith (fun list => String.eqb (TaskList.id list) "a")
       (taskLists (loaded groceries)) 0
  /\ firstWith (fun task => String.eqb (Task.id task) "c")
       (tasks (loaded groceries)) 1
  /\ canWrite groceries = true
  /\ (exists saved w2,
        deleteTaskList "a" groceries = (Return true, w2)
        /\ w2 = afterWrite (after readData groceries) saved
        /\ without 0 (taskLists (loaded groceries)) (taskLists (loaded w2))
        /\ tasks (loaded w2) =
             filter (fun task => negb (String.eqb (Task.listId task) "a"))
               (tasks (loaded groceries))
        /\ (forall task,
              In task (tasks (loaded w2)) <->
              In task (tasks (loaded groceries)) /\ Task.listId task <> "a"))
  /\ (exists saved w2,
        deleteTask "c" groceries = (Return true, w2)
        /\ w2 = afterWrite (after readData groceries) saved
        /\ taskLists (loaded w2) = taskLists (loaded groceries)
        /\ without 1 (tasks (loaded groceries)) (tasks (loaded w2))).
Proof.
  assert (forall l, In l (taskLists (loaded groceries)) -> TaskList.id l <> "x")
    as Hl by (apply absent_id; vm_compute; reflexivity).
  assert (forall t, In t (tasks (loaded groceries)) -> Task.id t <> "x") as Ht
    by (apply absent_id; vm_compute; reflexivity).
  assert (firstWith (fun list => String.eqb (TaskList.id list) "a")
            (taskLists (loaded groceries)) 0) as Hfl
    by (apply findIndex_Some; vm_compute; reflexivity).
  assert (firstWith (fun task => String.eqb (Task.id task) "c")
            (tasks (loaded groceries)) 1) as Hft
    by (apply findIndex_Some; vm_compute; reflexivity).
  assert (canWrite groceries = true) as Hw by (vm_compute; reflexivity).
  split; [exact Hl|].
  split; [exact (proj1 (delete_unknown_false_known_true groceries "x") Hl)|].
  split; [exact Ht|].
  split; [exact (proj1 (proj2 (delete_unknown_false_known_true groceries "x")) Ht)|].
  split; [exact Hfl|]. split; [exact Hft|]. split; [exact Hw|].
  split.
  - exact (proj1 (proj2 (proj2 (proj2
             (delete_unknown_false_known_true groceries "a")))) 0%nat Hfl Hw).
  - exact (proj2 (proj2 (proj2 (proj2
             (delete_unknown_false_known_true groceries "c")))) 1%nat Hft Hw).
Defined.

(** ** Renaming a list to the empty string *)

(** C10. [updateTaskList] with the name present but empty, on an identifier
    that exists: when the file system takes the save the call succeeds, the
    duplicate-name check and the assignment of the name are both skipped, and
    the list that is returned and stored at the same index keeps its name,
    identifier and creation time and has only [updatedAt] set to the time of
    the update; the other lists and all tasks stay as they are. *)
Theorem updateTaskList_empty_name_keeps_name w id i :
  firstWith (fun list => String.eqb (TaskList.id list) id)
    (taskLists (loaded w)) i ->
  canWrite w = true ->
  exists cur updated w2,
    nth_error (taskLists (loaded w)) i = Some cur
    /\ updateTaskList id (UpdateTaskListDTO.mk (Some EmptyString)) w
       = (Return (Some updated), w2)
    /\ TaskList.name updated = TaskList.name cur
    /\ TaskList.id updated = TaskList.id cur
    /\ TaskList.createdAt updated = TaskList.createdAt cur
    /\ TaskList.updatedAt updated =
         clock (after readData w) (ticks (after readData w))
    /\ nth_error (taskLists (loaded w2)) i = Some updated
    /\ (forall j, j <> i ->
        nth_error (taskLists (loaded w2)) j = nth_error (taskLists (loaded w)) j)
    /\ List.length (taskLists (loaded w2)) = List.length (taskLists (loaded w))
    /\ tasks (loaded w2) = tasks (loaded w).
Proof.
  intros Hi Hw. pose proof (readData_run w) as Hread.
  pose proof (firstWith_findIndex _ _ _ Hi) as Hfi.
  destruct Hi as (cur & Hcur & _).
  assert (i < List.length (taskLists (loaded w)))%nat as Hlt
    by (apply nth_error_Some; congruence).
  exists cur. do 2 eexists. split; [assumption|]. split.
  - unfold updateTaskList. apply tryCatch_Return.
    rewrite (bind_Return _ _ _ _ _ Hread), Hfi. cbn [UpdateTaskListDTO.name JSString.truthy].
    unfold bind at 1. unfold ret at 1. rewrite Hcur.
    unfold bind at 1. unfold newDate at 1.
    erewrite bind_Return; [reflexivity|].
    apply writeData_canWrite. now apply canWrite_after_readData.
  - rewrite loaded_afterWrite. unfold stamped. cbn.
    repeat (split; [reflexivity|]).
    split; [rewrite nth_error_assign, Nat.eqb_refl; trivial|].
    split; [|split; [now apply length_assign | reflexivity]].
    intros j Hj. rewrite nth_error_assign by assumption.
    now apply Nat.eqb_neq in Hj as ->.
Qed.

Lemma updateTaskList_empty_name_keeps_name_witness :
  firstWith (fun list => String.eqb (TaskList.id list) "a")
    (taskLists (loaded groceries)) 0
  /\ canWrite groceries = true
  /\ exists cur updated w2,
       nth_error (taskLists (loaded groceries)) 0 = Some cur
       /\ updateTaskList "a" (UpdateTaskListDTO.mk (Some EmptyString)) groceries
          = (Return (Some updated), w2)
       /\ TaskList.name updated = TaskList.name cur
       /\ TaskList.id updated = TaskList.id cur
       /\ TaskList.createdAt updated = TaskList.createdAt cur
       /\ TaskList.updatedAt updated =
            clock (after readData groceries) (ticks (after readData groceries))
       /\ nth_error (taskLists (loaded w2)) 0 = Some updated
       /\ (forall j, j <> 0%nat ->
           nth_error (taskLists (loaded w2)) j
           = nth_error (taskLists (loaded groceries)) j)
       /\ List.length (taskLists (loaded w2))
          = List.length (taskLists (loaded groceries))
       /\ tasks (loaded w2) = tasks (loaded groceries).
Proof.
  assert (firstWith (fun list => String.eqb (TaskList.id list) "a")
            (taskLists (loaded groceries)) 0) as Hfl
    by (apply findIndex_Some; vm_compute; reflexivity).
  assert (canWrite groceries = true) as Hw by (vm_compute; reflexivity).
  split; [exact Hfl|]. split; [exact Hw|].
  exact (updateTaskList_empty_name_keeps_name groceries "a" 0%nat Hfl Hw).
Defined.

(** ** Saving and loading *)

(** C7. Round trip through the store: when the file system takes the save of
    a document [D], the load that follows returns a document with the lists
    and the tasks of [D], every field and every timestamp equal; it is [D]
    with the time of the save as [lastUpdated]. *)
Theorem save_then_load_round_trip D w :
  canWrite w = true ->
  exists D' w1,
    writeData D w = (Return D', w1)
    /\ readData w1 = (Return D', w1)
    /\ taskLists D' = taskLists D
    /\ tasks D' = tasks D
    /\ version (metadata D') = version (metadata D)
    /\ lastUpdated (metadata D') = clock w (ticks w).
Proof.
  intros Hw. do 2 eexists. split; [now apply writeData_canWrite|].
  split; [|repeat split].
  apply readData_primary, documentOf_afterWrite.
Qed.

Lemma save_then_load_round_trip_witness :
  canWrite groceries = true
  /\ exists D' w1,
       writeData backedUpList groceries = (Return D', w1)
       /\ readData w1 = (Return D', w1)
       /\ taskLists D' = taskLists backedUpList
       /\ tasks D' = tasks backedUpList
       /\ version (metadata D') = version (metadata backedUpList)
       /\ lastUpdated (metadata D') = clock groceries (ticks groceries).
Proof.
  assert (canWrite groceries = true) as Hw by (vm_compute; reflexivity).
  split; [exact Hw|].
  exact (save_then_load_round_trip backedUpList groceries Hw).
Defined.

(** ** Loading *)

Lemma readData_absent_cannot w :
  primaryFile w = None -> canWrite w = false ->
  exists now w',
    readData w =
      (Return match documentOf (backupFile w) with
              | Some backupData => backupData
              | None => initialData now
              end, w')
    /\ dataDir w' = dataDir w.
Proof.
  world w; intros H1 H2; cbn in H1, H2; try discriminate H1; try discriminate H2;
    (do 2 eexists; split; [cbv; reflexivity | reflexivity]).
  Unshelve. all: exact 0.
Qed.

(** C6, the claim as stated fails: with no primary file, on a file system
    that refuses the save of the initial document, [readData] returns the
    document of the backup file, which is not empty, and persists nothing. *)
Lemma readData_absent_primary_returns_backup :
  primaryFile readOnlyBackupOnly = None
  /\ exists data w',
       readData readOnlyBackupOnly = (Return data, w')
       /\ taskLists data <> []
       /\ primaryFile w' = None.
Proof.
  split; [reflexivity|]. do 2 eexists.
  split; [vm_compute; reflexivity|]. split; [discriminate | reflexivity].
Qed.

(** C6, amended.  [readData] never throws.  When the primary file is absent
    it makes an empty document (no lists, no tasks, version "1.0.0") and
    saves it; when the file system takes that save it returns the document
    it has persisted.  When that save fails, or when the primary file exists
    but cannot be read or parsed, it returns the document of the backup file
    if that file can be read and parsed, and a fresh empty document
    otherwise, and leaves the files as they are.  A primary file that can be
    read and parsed is returned as it is. *)
Theorem readData_never_throws_falls_back w :
  (exists data w', readData w = (Return data, w'))
  /\ (primaryFile w = None -> canWrite w = true ->
      exists now w',
        readData w = (Return (initialData now), w')
        /\ documentOf (primaryFile w') = Some (initialData now))
  /\ (primaryFile w = None -> canWrite w = false ->
      exists now w',
        readData w =
          (Return match documentOf (backupFile w) with
                  | Some backupData => backupData
                  | None => initialData now
                  end, w')
        /\ dataDir w' = dataDir w)
  /\ (forall f, primaryFile w = Some f -> documentOf (Some f) = None ->
      exists now w',
        readData w =
          (Return match documentOf (backupFile w) with
                  | Some backupData => backupData
                  | None => initialData now
                  end, w')
        /\ dataDir w' = dataDir w)
  /\ (forall data, documentOf (primaryFile w) = Some data ->
      readData w = (Return data, w)).
Proof.
  split; [apply readData_total|]. split; [|split; [|split]].
  - intros Hp Hw.
    assert (readOnly w = false) as Hro.
    { unfold canWrite in Hw. apply andb_true_iff in Hw as [Hw _].
      now destruct (readOnly w). }
    destruct (readData_absent w Hp Hro) as (w' & Hr & Hf & _).
    exists (clock w (S (ticks w))), w'. split; [assumption|].
    rewrite Hf. apply documentOf_stringify.
  - intros Hp Hw. now apply readData_absent_cannot.
  - intros f Hp Hf. destruct (documentOf (backupFile w)) as [b|] eqn:Hb.
    + exists 0, w. split; [|reflexivity]. eapply readData_backup; eassumption.
    + do 2 eexists. split; [eapply readData_fresh; eassumption | reflexivity].
  - apply readData_primary.
Qed.

Lemma readData_never_throws_falls_back_witness :
  primaryFile freshInstall = None /\ canWrite freshInstall = true
  /\ (exists now w',
        readData freshInstall = (Return (initialData now), w')
        /\ documentOf (primaryFile w') = Some (initialData now))
  /\ primaryFile readOnlyBackupOnly = None
  /\ canWrite readOnlyBackupOnly = false
  /\ (exists now w',
        readData readOnlyBackupOnly =
          (Return match documentOf (backupFile readOnlyBackupOnly) with
                  | Some backupData => backupData
                  | None => initialData now
                  end, w')
        /\ dataDir w' = dataDir readOnlyBackupOnly)
  /\ primaryFile garbledPrimary = Some (mkFile true Garbage)
  /\ documentOf (Some (mkFile true Garbage)) = None
  /\ (exists now w',
        readData garbledPrimary =
          (Return match documentOf (backupFile garbledPrimary) with
                  | Some backupData => backupData
                  | None => initialData now
                  end, w')
        /\ dataDir w' = dataDir garbledPrimary)
  /\ documentOf (primaryFile groceries) = Some (loaded groceries)
  /\ readData groceries = (Return (loaded groceries), groceries).
Proof.
  assert (documentOf (primaryFile groceries) = Some (loaded groceries)) as Hg
    by (vm_compute; reflexivity).
  split; [reflexivity|]. split; [reflexivity|].
  split;
    [exact (proj1 (proj2 (readData_never_throws_falls_back freshInstall))
              eq_refl eq_refl)|].
  split; [reflexivity|]. split; [reflexivity|].
  split;
    [exact (proj1 (proj2 (proj2 (readData_never_throws_falls_back readOnlyBackupOnly)))
              eq_refl eq_refl)|].
  split; [reflexivity|]. split; [reflexivity|].
  split;
    [exact (proj1 (proj2 (proj2 (proj2
              (readData_never_throws_falls_back garbledPrimary))))
              (mkFile true Garbage) eq_refl eq_refl)|].
  split; [exact Hg|].
  exact (proj2 (proj2 (proj2 (proj2
           (readData_never_throws_falls_back groceries)))) (loaded groceries) Hg).
Defined.

(** ** Counting and rounding *)

Lemma length_filter_countIf {A} (p : A -> bool) (a : list A) :
  JSArray.length (filter p a) = countIf p a.
Proof.
  unfold JSArray.length. induction a as [|x a IH]; simpl; [reflexivity|].
  destruct (p x); simpl List.length; lia.
Qed.

Lemma countIf_filter {A} (p q : A -> bool) (a : list A) :
  countIf q (filter p a) = countIf (fun x => p x && q x) a.
Proof.
  induction a as [|x a IH]; simpl; [reflexivity|].
  destruct (p x); simpl; now rewrite IH.
Qed.

Lemma countIf_bounds {A} (p : A -> bool) (a : list A) :
  0 <= countIf p a <= JSArray.length a.
Proof.
  unfold JSArray.length. induction a as [|x a IH]; simpl countIf; simpl List.length;
    [lia|]. destruct (p x); lia.
Qed.

Lemma inject_Z_pos_neq p : ~ (inject_Z (Zpos p) == 0)%Q.
Proof. unfold Qeq. simpl. lia. Qed.

Lemma Math_round_close (x : Q) :
  (x - (1 # 2) <= inject_Z (Math_round x) <= x + (1 # 2))%Q.
Proof.
  unfold Math_round.
  pose proof (Qfloor_le (x + (1 # 2))) as H0.
  pose proof (Qlt_floor (x + (1 # 2))) as H1.
  rewrite inject_Z_plus in H1. change (inject_Z 1) with 1%Q in H1. split; lra.
Qed.

Lemma Math_round_percentage c t :
  Math_round
    ((if 0 <? t then (inject_Z c / inject_Z t * 100)%Q else 0%Q) * 100)
  = hundredths c t.
Proof.
  unfold hundredths. destruct t as [|p|p]; try reflexivity.
  change (0 <? Z.pos p) with true. cbv iota. unfold Math_round.
  assert ((inject_Z c / inject_Z (Zpos p) * 100 * 100 + (1 # 2)
           == (20000 * c + Zpos p) # (2 * p))%Q) as E.
  { rewrite (Qmake_Qdiv (20000 * c + Z.pos p) (2 * p)).
    rewrite Pos2Z.inj_mul, inject_Z_plus, !inject_Z_mult.
    field. apply inject_Z_pos_neq. }
  rewrite E. reflexivity.
Qed.

Lemma hundredths_bounds c t :
  0 <= c <= t ->
  0 <= hundredths c t <= 10000
  /\ (hundredths c t = 0 <-> t = 0 \/ 20000 * c < t).
Proof.
  intros H. unfold hundredths. destruct (Z.ltb_spec 0 t) as [Ht|Ht].
  - assert (0 <= (20000 * c + t) / (2 * t)) by (apply Z.div_pos; lia).
    assert ((20000 * c + t) / (2 * t) < 10001).
    { apply Z.div_lt_upper_bound; lia. }
    split; [lia|]. split.
    + intros E. right.
      assert (20000 * c + t < 2 * t); [|lia].
      apply Z.div_small_iff in E; lia.
    + intros [E|E]; [lia|]. apply Z.div_small. lia.
  - split; [lia|]. split; [intros _; left; lia | reflexivity].
Qed.

(** ** The statistics *)

Lemma computeStats_counts l :
  totalTasks (computeStats l) = JSArray.length l
  /\ completedTasks (computeStats l) = countIf Task.completed l
  /\ pendingTasks (computeStats l)
     = totalTasks (computeStats l) - completedTasks (computeStats l)
  /\ 0 <= completedTasks (computeStats l) <= totalTasks (computeStats l).
Proof.
  unfold computeStats. cbn [totalTasks completedTasks pendingTasks].
  rewrite length_filter_countIf. repeat split; try apply countIf_bounds.
Qed.

Lemma computeStats_rate l :
  (completionRate (computeStats l)
   == inject_Z (hundredths (completedTasks (computeStats l))
                           (totalTasks (computeStats l))) / 100)%Q.
Proof.
  unfold computeStats. cbn [totalTasks completedTasks completionRate].
  now rewrite Math_round_percentage.
Qed.



Lemma computeStats_rounded l :
  0 < totalTasks (computeStats l) ->
  let exact :=
    (inject_Z (completedTasks (computeStats l))
     / inject_Z (totalTasks (computeStats l)) * 100)%Q in
  (exists n : Z, completionRate (computeStats l) == inject_Z n / 100)%Q
  /\ (exact - (1 # 200) <= completionRate (computeStats l) <= exact + (1 # 200))%Q.
Proof.
  intros Ht exact. split; [eexists; apply computeStats_rate|].
  subst exact. revert Ht.
  unfold computeStats. cbn [totalTasks completedTasks completionRate].
  intros Ht. apply Z.ltb_lt in Ht. rewrite Ht.
  pose proof (Math_round_close
                (inject_Z (JSArray.length (filter Task.completed l))
                 / inject_Z (JSArray.length l) * 100 * 100)) as [Ha Hb].
  revert Ha Hb.
  generalize (inject_Z (JSArray.length (filter Task.completed l))
              / inject_Z (JSArray.length l))%Q as r.
  intros r.
  generalize (inject_Z (Math_round (r * 100 * 100))) as n. intros n Ha Hb.
  unfold Qdiv. change (/ 100)%Q with (1 # 100)%Q. split; lra.
Qed.

Lemma getTaskListById_run id w :
  getTaskListById id w =
    (Return (find (fun list => String.eqb (TaskList.id list) id)
               (taskLists (loaded w))),
     after readData w).
Proof.
  unfold getTaskListById. apply tryCatch_Return.
  rewrite (bind_Return _ _ _ _ _ (readData_run w)).
  now destruct (find _ _).
Qed.

Lemma taskListExists_run id w :
  taskListExists id w =
    (Return match find (fun list => String.eqb (TaskList.id list) id)
                    (taskLists (loaded w)) with
            | Some _ => true
            | None => false
            end,
     after readData w).
Proof.
  unfold taskListExists. apply tryCatch_Return.
  now rewrite (bind_Return _ _ _ _ _ (getTaskListById_run id w)).
Qed.

Lemma getTaskListStats_run id w :
  getTaskListStats id w =
    (Return match find (fun list => String.eqb (TaskList.id list) id)
                    (taskLists (loaded w)) with
            | Some _ =>
                Some (computeStats
                        (filter (fun task => String.eqb (Task.listId task) id)
                           (tasks (loaded w))))
            | None => None
            end,
     after readData w).
Proof.
  unfold getTaskListStats. apply tryCatch_Return.
  rewrite (bind_Return _ _ _ _ _ (readData_run w)).
  now destruct (find _ _).
Qed.

(** The tasks a search or the statistics look at: the ones of the list when
    a list is named, all of them otherwise. *)
Lemma getTaskStats_run listId w :
  getTaskStats listId w =
    match listId with
    | Some id =>
        if JSString.truthy id then
          match find (fun list => String.eqb (TaskList.id list) id)
                  (taskLists (loaded w)) with
          | Some _ =>
              (Return (computeStats
                         (filter (fun task => String.eqb (Task.listId task) id)
                            (tasks (loaded w)))),
               after readData (after readData w))
          | None =>
              (Throw (AppError "Task list not found" 404),
               after readData (after readData w))
          end
        else (Return (computeStats (tasks (loaded w))), after readData w)
    | None => (Return (computeStats (tasks (loaded w))), after readData w)
    end.
Proof.
  unfold getTaskStats, tryCatch.
  rewrite (bind_Return _ _ _ _ _ (readData_run w)).
  destruct listId as [id|]; [destruct (JSString.truthy id)|]; try reflexivity.
  unfold bind at 1. unfold bind at 1.
  rewrite (taskListExists_run id (after readData w)).
  destruct (loaded_after_readData w) as [-> _].
  now destruct (find _ _).
Qed.

Lemma find_id_Some id (ls : list TaskList.t) :
  (exists l, In l ls /\ TaskList.id l = id) ->
  exists l, find (fun list => String.eqb (TaskList.id list) id) ls = Some l.
Proof.
  intros (l & Hin & Hid).
  destruct (find _ ls) as [l'|] eqn:Hf; [now exists l'|].
  apply (find_none _ _ Hf) in Hin. apply String.eqb_neq in Hin. contradiction.
Qed.




(** ** Doubles

    What the statements on the rate use of [Binary64.round]: the binade it
    works in, its error of at most 2^-53 of the number, and that it depends
    on the number only. *)

Lemma pow2_pos e : (0 < Binary64.pow2 e)%Q.
Proof. apply Qpower_0_lt. reflexivity. Qed.

Lemma pow2_plus a b :
  (Binary64.pow2 (a + b) == Binary64.pow2 a * Binary64.pow2 b)%Q.
Proof. apply Qpower_plus. discriminate. Qed.

Lemma pow2_le a b : a <= b -> (Binary64.pow2 a <= Binary64.pow2 b)%Q.
Proof. intros H. apply Qpower_le_compat_l; [exact H|discriminate]. Qed.

Lemma pow2_nonneg n : 0 <= n -> (Binary64.pow2 n == inject_Z (2 ^ n))%Q.
Proof. intros H. unfold Binary64.pow2. now rewrite Zpower_Qpower. Qed.

Lemma exponent_spec x :
  (0 < x)%Q ->
  (Binary64.pow2 (Binary64.exponent x) <= x
   < Binary64.pow2 (Binary64.exponent x + 1))%Q.
Proof.
  destruct x as [a b]. intros Hx.
  assert (0 < a) as Ha by (unfold Qlt in Hx; simpl in Hx; lia).
  unfold Binary64.exponent. cbn [Qnum Qden].
  set (la := Z.log2 a). set (lb := Z.log2 (Zpos b)).
  assert (0 <= la) as Hla by apply Z.log2_nonneg.
  assert (0 <= lb) as Hlb by apply Z.log2_nonneg.
  destruct (Z.log2_spec a Ha) as [Ha1 Ha2]. fold la in Ha1, Ha2.
  destruct (Z.log2_spec (Zpos b) eq_refl) as [Hb1 Hb2]. fold lb in Hb1, Hb2.
  rewrite <- Z.add_1_r in Ha2, Hb2.
  assert (forall e, (Binary64.pow2 e <= a # b)%Q
                    <-> (Binary64.pow2 (e + lb) * inject_Z (Zpos b)
                         <= inject_Z a * Binary64.pow2 lb)%Q) as Hle.
  { intros e. rewrite pow2_plus. rewrite (Qmake_Qdiv a b).
    pose proof (pow2_pos lb) as Hp. pose proof (pow2_pos e) as He.
    assert (0 < inject_Z (Zpos b))%Q as Hb by reflexivity.
    split; intros H.
    - apply (Qmult_le_compat_r _ _ (inject_Z (Zpos b) * Binary64.pow2 lb)) in H;
        [|apply Qlt_le_weak, Qmult_lt_0_compat; assumption].
      assert (inject_Z a / inject_Z (Zpos b) * (inject_Z (Zpos b) * Binary64.pow2 lb)
              == inject_Z a * Binary64.pow2 lb)%Q as E by (field; discriminate).
      rewrite E in H. lra.
    - apply Qle_shift_div_l; [exact Hb|].
      apply (Qmult_le_r _ _ (Binary64.pow2 lb)); [exact Hp|]. lra. }
  assert (forall e, 0 <= e + lb -> 
            ((Binary64.pow2 e <= a # b)%Q <-> 2 ^ (e + lb) * Zpos b <= a * 2 ^ lb)) as Hz.
  { intros e He. rewrite Hle, (pow2_nonneg _ He), (pow2_nonneg _ Hlb).
    rewrite <- !inject_Z_mult. rewrite <- Zle_Qle. reflexivity. }
  assert (Binary64.pow2 (la - lb - 1) <= a # b)%Q as Hlow.
  { destruct (Z.le_gt_cases 0 (la - lb - 1 + lb)) as [H|H].
    - apply Hz; [exact H|]. replace (la - lb - 1 + lb) with (la - 1) in * by lia.
      assert (2 ^ la = 2 * 2 ^ (la - 1)) as E.
      { rewrite <- Z.pow_succ_r by lia. f_equal. lia. }
      assert (2 ^ (lb + 1) = 2 * 2 ^ lb) as E'.
      { rewrite Z.pow_add_r by lia. lia. }
      assert (0 < 2 ^ (la - 1)) by (apply Z.pow_pos_nonneg; lia).
      assert (0 < 2 ^ lb) by (apply Z.pow_pos_nonneg; lia).
      nia.
    - assert (la = 0) as Hla0 by lia. rewrite Hla0.
      apply Qle_trans with (Binary64.pow2 (- lb - 1 + 0)).
      + apply pow2_le. lia.
      + (* 2^(-lb-1) <= a/b *)
        rewrite Hle. replace (- lb - 1 + 0 + lb) with (-1) by lia.
        rewrite (pow2_nonneg _ Hlb).
        assert (inject_Z (Z.pos b) < inject_Z (2 * 2 ^ lb))%Q as Hb3.
        { rewrite <- Zlt_Qlt. rewrite Z.pow_add_r in Hb2 by lia. lia. }
        assert (inject_Z 1 <= inject_Z a)%Q as Ha3 by (rewrite <- Zle_Qle; lia).
        rewrite inject_Z_mult in Hb3.
        assert (0 < inject_Z (2 ^ lb))%Q as Hp.
        { change 0%Q with (inject_Z 0). rewrite <- Zlt_Qlt. apply Z.pow_pos_nonneg; lia. }
        change (Binary64.pow2 (-1)) with (1 # 2)%Q.
        change (inject_Z 2) with 2%Q in Hb3. change (inject_Z 1) with 1%Q in Ha3.
        nra. }
  assert (~ (Binary64.pow2 (la - lb + 1) <= a # b)%Q) as Hhigh.
  { intros H. apply Hz in H; [|lia].
    replace (la - lb + 1 + lb) with (la + 1) in H by lia.
    assert (0 < 2 ^ lb) by (apply Z.pow_pos_nonneg; lia).
    nia. }
  apply Qnot_le_lt in Hhigh.
  destruct (Qle_bool (Binary64.pow2 (la - lb)) (a # b)) eqn:Hb.
  - apply Qle_bool_iff in Hb. split; [exact Hb | exact Hhigh].
  - split; [exact Hlow|]. replace (la - lb - 1 + 1) with (la - lb) by lia.
    apply Qnot_le_lt. intros H. apply Qle_bool_iff in H. congruence.
Qed.

Lemma roundToEven_close x :
  (x - (1 # 2) <= inject_Z (Binary64.roundToEven x) <= x + (1 # 2))%Q.
Proof.
  unfold Binary64.roundToEven.
  pose proof (Qfloor_le x) as H0. pose proof (Qlt_floor x) as H1.
  rewrite inject_Z_plus in H1. change (inject_Z 1) with 1%Q in H1.
  destruct (Qcompare_spec (x - inject_Z (Qfloor x)) (1 # 2)) as [E|E|E].
  - destruct (Z.even (Qfloor x)).
    + split; lra.
    + rewrite inject_Z_plus. change (inject_Z 1) with 1%Q. split; lra.
  - split; lra.
  - rewrite inject_Z_plus. change (inject_Z 1) with 1%Q. split; lra.
Qed.

Lemma roundPositive_close x :
  (Binary64.pow2 (-1022) <= x)%Q ->
  (x * (1 - (1 # 9007199254740992)) <= Binary64.roundPositive x
   <= x * (1 + (1 # 9007199254740992)))%Q.
Proof.
  intros Hmin.
  assert (0 < x)%Q as Hx by (eapply Qlt_le_trans; [apply (pow2_pos (-1022))|exact Hmin]).
  destruct (exponent_spec x Hx) as [Hlo Hhi].
  set (e := Binary64.exponent x) in *.
  assert (-1022 <= e) as He.
  { assert (-1022 < e + 1); [|lia].
    apply (Qpower_lt_compat_l_inv 2); [|reflexivity].
    eapply Qle_lt_trans; [exact Hmin | exact Hhi]. }
  unfold Binary64.roundPositive, Binary64.ulp. fold e.
  rewrite Z.max_l by lia.
  set (u := Binary64.pow2 (e - 52)).
  assert (0 < u)%Q as Hu by apply pow2_pos.
  assert (Binary64.pow2 e == u * 4503599627370496)%Q as Hue.
  { unfold u. replace e with ((e - 52) + 52) at 1 by lia.
    rewrite pow2_plus. reflexivity. }
  pose proof (roundToEven_close (x / u)) as [Ha Hb].
  set (n := inject_Z (Binary64.roundToEven (x / u))) in *.
  assert (x / u * u == x)%Q as E by (field; lra).
  apply (Qmult_le_compat_r _ _ u) in Ha; [|lra].
  apply (Qmult_le_compat_r _ _ u) in Hb; [|lra].
  assert ((x / u - (1 # 2)) * u == x - (1 # 2) * u)%Q as Ea by (rewrite <- E at 2; ring).
  assert ((x / u + (1 # 2)) * u == x + (1 # 2) * u)%Q as Eb by (rewrite <- E at 2; ring).
  rewrite Ea in Ha. rewrite Eb in Hb. rewrite Hue in Hlo. split; lra.
Qed.

Lemma round_close x :
  ((1 # 1099511627776) <= x)%Q ->
  (x * (1 - (1 # 9007199254740992)) <= Binary64.round x
   <= x * (1 + (1 # 9007199254740992)))%Q.
Proof.
  intros Hmin.
  assert (Binary64.pow2 (-1022) <= x)%Q as H.
  { eapply Qle_trans; [|exact Hmin].
    change (1 # 1099511627776)%Q with (Binary64.pow2 (-40)). apply pow2_le. lia. }
  assert (0 < x)%Q as Hx by lra.
  unfold Binary64.round. destruct x as [[|a|a] b].
  - discriminate Hx.
  - now apply roundPositive_close.
  - discriminate Hx.
Qed.

Lemma round_0 x : Qnum x = 0 -> Binary64.round x = 0%Q.
Proof. unfold Binary64.round. now intros ->. Qed.

Lemma Qfloor_unique (x : Q) (n : Z) :
  (inject_Z n <= x < inject_Z (n + 1))%Q -> Qfloor x = n.
Proof.
  intros [H0 H1]. pose proof (Qfloor_le x) as F0. pose proof (Qlt_floor x) as F1.
  assert (n < Qfloor x + 1).
  { rewrite Zlt_Qlt. eapply Qle_lt_trans; [exact H0 | exact F1]. }
  assert (Qfloor x < n + 1).
  { rewrite Zlt_Qlt. eapply Qle_lt_trans; [exact F0 | exact H1]. }
  lia.
Qed.

(** The three rounded operations of the percentage in hundredths,
    [completed / total * 100 * 100], stay within 2^-34 of the exact
    value. *)
Lemma scaled_close c t :
  1 <= c <= t -> t < 2 ^ 32 ->
  let exact := (inject_Z c / inject_Z t * 10000)%Q in
  let scaled :=
    Binary64.mul (Binary64.mul (Binary64.div (inject_Z c) (inject_Z t)) 100) 100 in
  (exact - (1 # 17179869184) <= scaled <= exact + (1 # 17179869184))%Q.
Proof.
  intros Hc Ht exact scaled.
  set (x := (inject_Z c / inject_Z t)%Q).
  assert (0 < inject_Z t)%Q as Htq.
  { change 0%Q with (inject_Z 0). rewrite <- Zlt_Qlt. lia. }
  assert ((1 # 4294967296) <= x <= 1)%Q as [Hx0 Hx1].
  { unfold x. split.
    - apply Qle_shift_div_l; [exact Htq|].
      assert (inject_Z t <= inject_Z 4294967296 * inject_Z c)%Q as H.
      { rewrite <- inject_Z_mult, <- Zle_Qle.
        change (2 ^ 32) with 4294967296 in Ht. lia. }
      change (inject_Z 4294967296) with 4294967296%Q in H. lra.
    - apply Qle_shift_div_r; [exact Htq|].
      rewrite Qmult_1_l, <- Zle_Qle. lia. }
  pose proof (round_close x) as H1.
  pose proof (round_close (Binary64.div (inject_Z c) (inject_Z t) * 100)) as H2.
  pose proof (round_close
                (Binary64.mul (Binary64.div (inject_Z c) (inject_Z t)) 100 * 100))
    as H3.
  change (Binary64.round x) with (Binary64.div (inject_Z c) (inject_Z t)) in H1.
  change (Binary64.round (Binary64.div (inject_Z c) (inject_Z t) * 100))
    with (Binary64.mul (Binary64.div (inject_Z c) (inject_Z t)) 100) in H2.
  change (Binary64.round
            (Binary64.mul (Binary64.div (inject_Z c) (inject_Z t)) 100 * 100))
    with scaled in H3.
  revert H1 H2 H3. unfold exact. fold x. clear Htq. clearbody x scaled.
  generalize (Binary64.mul (Binary64.div (inject_Z c) (inject_Z t)) 100) as d2.
  generalize (Binary64.div (inject_Z c) (inject_Z t)) as d1.
  intros d1 d2 H1 H2 H3.
  destruct H1 as [H1a H1b]; [lra|].
  destruct H2 as [H2a H2b]; [lra|].
  destruct H3 as [H3a H3b]; [lra|].
  split; lra.
Qed.

(** [Math.round] of the percentage in hundredths as the doubles give it: the
    exact percentage rounded, a half going up, unless the exact percentage
    is a half, which the doubles may have taken below. *)
Lemma Math_round_scaled c t :
  0 <= c <= t -> 0 < t < 2 ^ 32 ->
  let n :=
    Math_round
      (Binary64.mul (Binary64.mul (Binary64.div (inject_Z c) (inject_Z t)) 100) 100) in
  n = hundredths c t
  \/ ((20000 * c + t) mod (2 * t) = 0 /\ n = hundredths c t - 1).
Proof.
  intros Hc Ht n. unfold hundredths.
  replace (0 <? t) with true by (symmetry; apply Z.ltb_lt; lia).
  destruct (Z.eq_dec c 0) as [->|Hc0].
  - left. subst n. unfold Binary64.div at 1.
    rewrite (round_0 (inject_Z 0 / inject_Z t)) by reflexivity.
    unfold Binary64.mul. rewrite (round_0 (0 * 100)) by reflexivity.
    rewrite (round_0 (0 * 100)) by reflexivity.
    change (Math_round 0) with 0. symmetry. apply Z.div_small. lia.
  - pose proof (scaled_close c t) as Hs. cbv zeta in Hs.
    destruct Hs as [Hs0 Hs1]; [lia|lia|].
    subst n. unfold Math_round.
    set (scaled := Binary64.mul _ 100) in *. clearbody scaled.
    set (X := 20000 * c + t). set (T := 2 * t).
    assert (0 < T < 2 ^ 33) as HT.
    { unfold T. change (2 ^ 33) with (2 * 2 ^ 32). lia. }
    pose proof (Z.div_mod X T ltac:(lia)) as Hdm.
    pose proof (Z.mod_pos_bound X T ltac:(lia)) as Hr.
    set (k := X / T) in *. set (r := X mod T) in *.
    assert (0 < inject_Z T)%Q as HTq.
    { change 0%Q with (inject_Z 0). rewrite <- Zlt_Qlt. lia. }
    assert (0 < inject_Z t)%Q as Htq.
    { change 0%Q with (inject_Z 0). rewrite <- Zlt_Qlt. lia. }
    assert (inject_Z c / inject_Z t * 10000 + (1 # 2)
            == inject_Z k + inject_Z r / inject_Z T)%Q as E.
    { assert (inject_Z X == inject_Z T * inject_Z k + inject_Z r)%Q as EX.
      { rewrite <- inject_Z_mult, <- inject_Z_plus. now rewrite <- Hdm. }
      assert (inject_Z X == 20000 * inject_Z c + inject_Z t)%Q as EX'.
      { unfold X. rewrite inject_Z_plus, inject_Z_mult. reflexivity. }
      assert (inject_Z T == 2 * inject_Z t)%Q as ET.
      { unfold T. rewrite inject_Z_mult. reflexivity. }
      assert (inject_Z r == 20000 * inject_Z c + inject_Z t - 2 * inject_Z t * inject_Z k)%Q
        as Er by (rewrite <- EX', EX, ET; ring).
      rewrite Er, ET. field. lra. }
    set (v := (1 / inject_Z T)%Q).
    assert ((1 # 8589934592) < v)%Q as Hv.
    { unfold v. apply Qlt_shift_div_l; [exact HTq|].
      assert (inject_Z T < inject_Z 8589934592)%Q as H.
      { rewrite <- Zlt_Qlt. change (2 ^ 33) with 8589934592 in HT. lia. }
      change (inject_Z 8589934592) with 8589934592%Q in H. lra. }
    assert (inject_Z r / inject_Z T == inject_Z r * v)%Q as Ev
      by (unfold v; field; lra).
    assert (inject_Z T * v == 1)%Q as ETv by (unfold v; field; lra).
    rewrite Ev in E. clear Ev.
    set (x := (inject_Z c / inject_Z t)%Q) in *. clearbody x v.
    destruct (Z.eq_dec r 0) as [Hr0|Hr0].
    + rewrite Hr0 in E. change (inject_Z 0) with 0%Q in E.
      destruct (Qlt_le_dec (scaled + (1 # 2)) (inject_Z k)) as [Hlt|Hge].
      * right. split; [exact Hr0|]. apply Qfloor_unique.
        replace (k - 1 + 1) with k by lia.
        unfold Z.sub. rewrite inject_Z_plus, inject_Z_opp.
        change (inject_Z 1) with 1%Q.
        split; [|exact Hlt]. lra.
      * left. apply Qfloor_unique. rewrite inject_Z_plus.
        change (inject_Z 1) with 1%Q. split; [exact Hge|]. lra.
    + left. apply Qfloor_unique. rewrite inject_Z_plus.
      change (inject_Z 1) with 1%Q.
      assert (v <= inject_Z r * v <= 1 - v)%Q as [Hrv0 Hrv1].
      { assert (0 < v)%Q as Hv0 by lra.
        assert (1 <= inject_Z r)%Q as H1.
        { change 1%Q with (inject_Z 1). rewrite <- Zle_Qle. lia. }
        assert (inject_Z r <= inject_Z T - 1)%Q as H2.
        { change 1%Q with (inject_Z 1). unfold Qminus.
          rewrite <- inject_Z_opp, <- inject_Z_plus, <- Zle_Qle. lia. }
        split.
        - apply (Qmult_le_compat_r _ _ v) in H1; lra.
        - apply (Qmult_le_compat_r _ _ v) in H2; [|lra].
          assert ((inject_Z T - 1) * v == inject_Z T * v - v)%Q as E' by ring.
          lra. }
      split; lra.
Qed.

Lemma exponent_comp x y : (0 < x)%Q -> (x == y)%Q -> Binary64.exponent x = Binary64.exponent y.
Proof.
  intros Hx E. assert (0 < y)%Q as Hy by (rewrite <- E; exact Hx).
  destruct (exponent_spec x Hx) as [X0 X1]. destruct (exponent_spec y Hy) as [Y0 Y1].
  assert (Binary64.exponent x < Binary64.exponent y + 1).
  { apply (Qpower_lt_compat_l_inv 2); [|reflexivity].
    apply Qle_lt_trans with x; [exact X0|]. apply Qle_lt_trans with y; [|exact Y1].
    apply Qle_lteq. right. exact E. }
  assert (Binary64.exponent y < Binary64.exponent x + 1).
  { apply (Qpower_lt_compat_l_inv 2); [|reflexivity].
    apply Qle_lt_trans with y; [exact Y0|]. apply Qle_lt_trans with x; [|exact X1].
    apply Qle_lteq. right. symmetry. exact E. }
  lia.
Qed.

Lemma roundToEven_comp x y : (x == y)%Q -> Binary64.roundToEven x = Binary64.roundToEven y.
Proof.
  intros E. unfold Binary64.roundToEven.
  rewrite (Qfloor_comp x y E).
  rewrite (Qcompare_comp (x - inject_Z (Qfloor y))%Q (y - inject_Z (Qfloor y))%Q
             (Qplus_comp _ _ E _ _ (Qeq_refl _)) (1 # 2)%Q (1 # 2)%Q (Qeq_refl _)).
  reflexivity.
Qed.

Lemma roundPositive_comp x y :
  (0 < x)%Q -> (x == y)%Q -> Binary64.roundPositive x = Binary64.roundPositive y.
Proof.
  intros Hx E. unfold Binary64.roundPositive, Binary64.ulp.
  rewrite (exponent_comp x y Hx E).
  set (u := Binary64.pow2 _).
  rewrite (roundToEven_comp (x / u)%Q (y / u)%Q); [reflexivity|].
  exact (Qmult_comp _ _ E _ _ (Qeq_refl _)).
Qed.

(** The double nearest to a rational does not depend on the fraction that
    denotes it. *)
Lemma round_comp x y : (x == y)%Q -> Binary64.round x = Binary64.round y.
Proof.
  intros E. unfold Binary64.round.
  destruct x as [[|a|a] b], y as [[|c|c] d]; cbn [Qnum]; try reflexivity;
    try (exfalso; unfold Qeq in E; cbn in E; lia).
  - now apply roundPositive_comp.
  - f_equal. apply roundPositive_comp; [reflexivity|].
    exact (Qopp_comp _ _ E).
Qed.

(** One task in 20000, the least share that is not rounded to 0: the doubles
    give 0.5 hundredths, which [Math.round] takes up. *)
Lemma Math_round_scaled_half c :
  0 < c ->
  Math_round
    (Binary64.mul
       (Binary64.mul (Binary64.div (inject_Z c) (inject_Z (20000 * c))) 100) 100)
  = 1.
Proof.
  intros Hc. unfold Binary64.div.
  rewrite (round_comp (inject_Z c / inject_Z (20000 * c)) (1 # 20000)).
  - vm_compute. reflexivity.
  - rewrite inject_Z_mult. field.
    intros H. assert (inject_Z 0 < inject_Z c)%Q as H' by (rewrite <- Zlt_Qlt; lia).
    rewrite H in H'. discriminate H'.
Qed.

Lemma Math_round_scaled_range c t :
  0 <= c <= t -> 0 < t < 2 ^ 32 ->
  let n :=
    Math_round
      (Binary64.mul (Binary64.mul (Binary64.div (inject_Z c) (inject_Z t)) 100) 100) in
  0 <= n <= 10000 /\ (n = 0 <-> 20000 * c < t).
Proof.
  intros Hc Ht n.
  pose proof (Math_round_scaled c t Hc Ht) as Hn. cbv zeta in Hn. fold n in Hn.
  destruct (hundredths_bounds c t Hc) as [Hk Hk0].
  assert ((20000 * c + t) mod (2 * t) = 0 ->
          (20000 * c + t) = 2 * t * hundredths c t) as Htie.
  { intros Hm. unfold hundredths.
    replace (0 <? t) with true by (symmetry; apply Z.ltb_lt; lia).
    pose proof (Z.div_mod (20000 * c + t) (2 * t) ltac:(lia)). lia. }
  split.
  - destruct Hn as [->|[Hm ->]]; [lia|].
    specialize (Htie Hm). split; [|lia].
    assert (hundredths c t <> 0) by (intros E; rewrite E in Htie; lia). lia.
  - split.
    + intros Hn0. destruct Hn as [Hn|[Hm Hn]].
      * rewrite Hn in Hn0. apply Hk0 in Hn0. lia.
      * exfalso. specialize (Htie Hm).
        assert (hundredths c t = 1) as Hk1 by lia. rewrite Hk1 in Htie.
        assert (t = 20000 * c) as -> by lia.
        assert (n = 1) by (apply Math_round_scaled_half; lia). lia.
    + intros Hlt. assert (hundredths c t = 0) as Hk1 by (apply Hk0; now right).
      destruct Hn as [Hn|[Hm Hn]]; [lia|].
      specialize (Htie Hm). rewrite Hk1 in Htie. lia.
Qed.

(** The last operation, [n / 100] for a whole number of hundredths. *)
Lemma div_100 n :
  0 <= n <= 10000 ->
  (inject_Z n / 100 * (1 - (1 # 9007199254740992))
   <= Binary64.div (inject_Z n) 100
   <= inject_Z n / 100 * (1 + (1 # 9007199254740992)))%Q
  /\ (0 <= Binary64.div (inject_Z n) 100 <= 100)%Q
  /\ ((Binary64.div (inject_Z n) 100 == 0)%Q <-> n = 0).
Proof.
  intros Hn. destruct (Z.eq_dec n 0) as [->|Hn0].
  - vm_compute. repeat split; try discriminate; trivial.
  - assert (1 <= inject_Z n)%Q as H1.
    { change 1%Q with (inject_Z 1). rewrite <- Zle_Qle. lia. }
    pose proof (round_close (inject_Z n / 100)) as Hr.
    fold (Binary64.div (inject_Z n) 100) in Hr.
    unfold Qdiv at 1 in Hr. change (/ 100)%Q with (1 # 100)%Q in Hr.
    destruct Hr as [Hr0 Hr1]; [lra|].
    split; [split; assumption|].
    assert (0 < Binary64.div (inject_Z n) 100)%Q as Hpos.
    { unfold Qdiv in Hr0. change (/ 100)%Q with (1 # 100)%Q in Hr0. lra. }
    split; [split; [lra|]|].
    + destruct (Z.eq_dec n 10000) as [->|Hn1]; [vm_compute; discriminate|].
      assert (inject_Z n <= 9999)%Q as H2.
      { change 9999%Q with (inject_Z 9999). rewrite <- Zle_Qle. lia. }
      unfold Qdiv in Hr1. change (/ 100)%Q with (1 # 100)%Q in Hr1. lra.
    + split; [intros E; rewrite E in Hpos; discriminate Hpos | intros E; contradiction].
Qed.

(** Two doubles as they are known: 0.1 is 0x3FB999999999999A, and the odd
    integers above 2^53 go to the multiples of 4 and not to the other
    even neighbour. *)
Lemma round_known :
  (Binary64.round (1 # 10) == 3602879701896397 # 36028797018963968)%Q
  /\ (Binary64.round 9007199254740993 == 9007199254740992)%Q
  /\ (Binary64.round 9007199254740995 == 9007199254740996)%Q
  /\ (Binary64.round (- (1 # 10)) == - (3602879701896397 # 36028797018963968))%Q.
Proof. repeat split. Qed.

(** ** The statistics in the arithmetic of the code *)

Lemma IEEE_computeStats_counts l :
  totalTasks (IEEE.computeStats l) = JSArray.length l
  /\ completedTasks (IEEE.computeStats l) = countIf Task.completed l
  /\ pendingTasks (IEEE.computeStats l)
     = totalTasks (IEEE.computeStats l) - completedTasks (IEEE.computeStats l)
  /\ 0 <= completedTasks (IEEE.computeStats l) <= totalTasks (IEEE.computeStats l).
Proof.
  unfold IEEE.computeStats. cbn [totalTasks completedTasks pendingTasks].
  rewrite length_filter_countIf. repeat split; try apply countIf_bounds.
Qed.

(** The counts are those of the statistics in exact arithmetic. *)
Lemma IEEE_computeStats_same_counts l :
  totalTasks (IEEE.computeStats l) = totalTasks (computeStats l)
  /\ completedTasks (IEEE.computeStats l) = completedTasks (computeStats l)
  /\ pendingTasks (IEEE.computeStats l) = pendingTasks (computeStats l).
Proof. repeat split. Qed.

Lemma IEEE_computeStats_empty l :
  totalTasks (IEEE.computeStats l) = 0 -> completionRate (IEEE.computeStats l) = 0%Q.
Proof.
  unfold IEEE.computeStats. cbn [totalTasks completionRate]. intros ->.
  reflexivity.
Qed.

(** The rate of the code: the double nearest to a whole number [n] of
    hundredths, where [n] is the exact percentage in hundredths rounded, a
    half going up, or one less when the exact percentage ends in a half. *)
Lemma IEEE_computeStats_rate l :
  0 < totalTasks (IEEE.computeStats l) < 2 ^ 32 ->
  exists n : Z,
    completionRate (IEEE.computeStats l) = Binary64.div (inject_Z n) 100
    /\ (n = hundredths (completedTasks (IEEE.computeStats l))
              (totalTasks (IEEE.computeStats l))
        \/ ((20000 * completedTasks (IEEE.computeStats l)
             + totalTasks (IEEE.computeStats l))
            mod (2 * totalTasks (IEEE.computeStats l)) = 0
            /\ n = hundredths (completedTasks (IEEE.computeStats l))
                     (totalTasks (IEEE.computeStats l)) - 1))
    /\ 0 <= n <= 10000
    /\ (n = 0 <-> 20000 * completedTasks (IEEE.computeStats l)
                  < totalTasks (IEEE.computeStats l)).
Proof.
  destruct (IEEE_computeStats_counts l) as (_ & _ & _ & Hb). revert Hb.
  unfold IEEE.computeStats. cbn [totalTasks completedTasks completionRate].
  set (c := JSArray.length (filter Task.completed l)).
  set (t := JSArray.length l). intros Hb Ht.
  replace (0 <? t) with true by (symmetry; apply Z.ltb_lt; lia).
  eexists. split; [reflexivity|].
  split; [exact (Math_round_scaled c t Hb Ht)|].
  exact (Math_round_scaled_range c t Hb Ht).
Qed.

(** The rate of the code obeys the bounds of C3 for every array of
    JavaScript, whose length is below 2^32. *)
Lemma IEEE_computeStats_bounds l :
  totalTasks (IEEE.computeStats l) < 2 ^ 32 ->
  (0 <= completionRate (IEEE.computeStats l) <= 100)%Q
  /\ ((completionRate (IEEE.computeStats l) == 0)%Q <->
      totalTasks (IEEE.computeStats l) = 0
      \/ 20000 * completedTasks (IEEE.computeStats l)
         < totalTasks (IEEE.computeStats l)).
Proof.
  intros Hlt. destruct (IEEE_computeStats_counts l) as (_ & _ & _ & Hb).
  destruct (Z.eq_dec (totalTasks (IEEE.computeStats l)) 0) as [H0|H0].
  - rewrite (IEEE_computeStats_empty l H0).
    split; [split; discriminate|]. split; [now left | reflexivity].
  - destruct (IEEE_computeStats_rate l ltac:(lia)) as (n & -> & _ & Hn & Hn0).
    destruct (div_100 n Hn) as (_ & Hr & Hz). split; [exact Hr|].
    rewrite Hz, Hn0. split; [now right | intros [H|H]; [contradiction|exact H]].
Qed.

Lemma IEEE_getTaskListStats_run id w :
  IEEE.getTaskListStats id w =
    (Return match find (fun list => String.eqb (TaskList.id list) id)
                    (taskLists (loaded w)) with
            | Some _ =>
                Some (IEEE.computeStats
                        (filter (fun task => String.eqb (Task.listId task) id)
                           (tasks (loaded w))))
            | None => None
            end,
     after readData w).
Proof.
  unfold IEEE.getTaskListStats. apply tryCatch_Return.
  rewrite (bind_Return _ _ _ _ _ (readData_run w)).
  now destruct (find _ _).
Qed.

Lemma IEEE_getTaskStats_run listId w :
  IEEE.getTaskStats listId w =
    match listId with
    | Some id =>
        if JSString.truthy id then
          match find (fun list => String.eqb (TaskList.id list) id)
                  (taskLists (loaded w)) with
          | Some _ =>
              (Return (IEEE.computeStats
                         (filter (fun task => String.eqb (Task.listId task) id)
                            (tasks (loaded w)))),
               after readData (after readData w))
          | None =>
              (Throw (AppError "Task list not found" 404),
               after readData (after readData w))
          end
        else (Return (IEEE.computeStats (tasks (loaded w))), after readData w)
    | None => (Return (IEEE.computeStats (tasks (loaded w))), after readData w)
    end.
Proof.
  unfold IEEE.getTaskStats, tryCatch.
  rewrite (bind_Return _ _ _ _ _ (readData_run w)).
  destruct listId as [id|]; [destruct (JSString.truthy id)|]; try reflexivity.
  unfold bind at 1. unfold bind at 1.
  rewrite (taskListExists_run id (after readData w)).
  destruct (loaded_after_readData w) as [-> _].
  now destruct (find _ _).
Qed.

(** The two embeddings of each statistics function return the same counts
    and leave the same world. *)
Lemma IEEE_same_counts w :
  (forall id,
     snd (IEEE.getTaskListStats id w) = snd (getTaskListStats id w)
     /\ match fst (IEEE.getTaskListStats id w), fst (getTaskListStats id w) with
        | Return (Some s), Return (Some s') =>
            totalTasks s = totalTasks s'
            /\ completedTasks s = completedTasks s'
            /\ pendingTasks s = pendingTasks s'
        | Return None, Return None => True
        | _, _ => False
        end)
  /\ (forall listId,
        snd (IEEE.getTaskStats listId w) = snd (getTaskStats listId w)
        /\ match fst (IEEE.getTaskStats listId w), fst (getTaskStats listId w) with
           | Return s, Return s' =>
               totalTasks s = totalTasks s'
               /\ completedTasks s = completedTasks s'
               /\ pendingTasks s = pendingTasks s'
           | Throw e, Throw e' => e = e'
           | _, _ => False
           end).
Proof.
  split.
  - intros id. rewrite IEEE_getTaskListStats_run, getTaskListStats_run.
    cbn [fst snd]. split; [reflexivity|].
    destruct (find _ _); [repeat split | exact I].
  - intros listId. rewrite IEEE_getTaskStats_run, getTaskStats_run.
    destruct listId as [id|]; [destruct (JSString.truthy id)|];
      [destruct (find _ _)| |]; cbn [fst snd]; repeat split.
Qed.

(** C4, the claim as stated fails.  Of the 160 tasks of "Backlog" 23 are
    completed: 14.375 per cent, which rounded to two decimal places, a half
    going up as [Math.round] has it, is 14.38, and that is the rate in exact
    arithmetic.  In the doubles of the code the percentage times 100 falls
    below 1437.5, [Math.round] returns 1437, and the rate is the double
    nearest to 14.37, from both statistics functions. *)
Lemma completionRate_of_23_in_160 :
  exists s,
    IEEE.getTaskListStats "a" backlog = (Return (Some s), after readData backlog)
    /\ fst (IEEE.getTaskStats (Some "a") backlog) = Return s
    /\ totalTasks s = 160 /\ completedTasks s = 23 /\ pendingTasks s = 137
    /\ hundredths 23 160 = 1438
    /\ (inject_Z 23 / inject_Z 160 * 100 == 14375 # 1000)%Q
    /\ (Binary64.mul (Binary64.mul (Binary64.div 23 160) 100) 100
        < 14375 # 10)%Q
    /\ completionRate s = Binary64.div 1437 100
    /\ (completionRate s < 1438 # 100)%Q
    /\ ((1437 # 100) - (1 # 1000000000000) < completionRate s
        < (1437 # 100) + (1 # 1000000000000))%Q
    /\ (exists s',
          getTaskListStats "a" backlog = (Return (Some s'), after readData backlog)
          /\ (completionRate s' == 1438 # 100)%Q).
Proof.
  eexists. split; [vm_compute; reflexivity|].
  split; [vm_compute; reflexivity|].
  repeat split.
  eexists. split; [vm_compute; reflexivity|]. reflexivity.
Qed.

(** C4, amended.  For a list that exists, [getTaskListStats] returns the
    statistics [s] in which [totalTasks] is the number of stored tasks whose
    [listId] is the identifier of the list, [completedTasks] the number of
    those that are completed and [pendingTasks] their difference.
    [completionRate] is 0 when there is no task.  Otherwise, the number of
    tasks being below 2^32 as the length of an array is, it is the double
    nearest to [n / 100], within 2^-53 of it in proportion, for a whole
    number [n] of hundredths: [n] is [completedTasks / totalTasks * 100 * 100]
    rounded to the nearest integer, a half going up, except that where this
    number lies exactly halfway between two integers [n] may be the lower
    one.  With 4 tasks of which 1 is completed the statistics are 4, 1, 3
    and 25.  [getTaskStats], given the identifier, returns the same
    statistics. *)
Theorem stats_of_existing_list w id :
  (exists l, In l (taskLists (loaded w)) /\ TaskList.id l = id) ->
  exists s,
    IEEE.getTaskListStats id w = (Return (Some s), after readData w)
    /\ totalTasks s =
         countIf (fun task => String.eqb (Task.listId task) id) (tasks (loaded w))
    /\ completedTasks s =
         countIf (fun task => String.eqb (Task.listId task) id && Task.completed task)
           (tasks (loaded w))
    /\ pendingTasks s = totalTasks s - completedTasks s
    /\ (totalTasks s = 0 -> completionRate s = 0%Q)
    /\ (0 < totalTasks s < 2 ^ 32 ->
        exists n : Z,
          completionRate s = Binary64.div (inject_Z n) 100
          /\ (inject_Z n / 100 * (1 - (1 # 9007199254740992))
              <= completionRate s
              <= inject_Z n / 100 * (1 + (1 # 9007199254740992)))%Q
          /\ (n = hundredths (completedTasks s) (totalTasks s)
              \/ ((20000 * completedTasks s + totalTasks s) mod (2 * totalTasks s) = 0
                  /\ n = hundredths (completedTasks s) (totalTasks s) - 1)))
    /\ (totalTasks s = 4 -> completedTasks s = 1 ->
        pendingTasks s = 3 /\ (completionRate s == 25)%Q)
    /\ (JSString.truthy id = true ->
        exists w', IEEE.getTaskStats (Some id) w = (Return s, w')).
Proof.
  intros Hl. apply find_id_Some in Hl as (l & Hl).
  set (listTasks :=
         filter (fun task => String.eqb (Task.listId task) id) (tasks (loaded w))).
  exists (IEEE.computeStats listTasks).
  destruct (IEEE_computeStats_counts listTasks) as (Ht & Hc & Hp & Hb).
  split; [rewrite IEEE_getTaskListStats_run, Hl; reflexivity|].
  split; [rewrite Ht; apply length_filter_countIf|].
  split.
  { rewrite Hc. apply countIf_filter. }
  split; [exact Hp|].
  split; [apply IEEE_computeStats_empty|].
  split.
  { intros Hrange.
    destruct (IEEE_computeStats_rate listTasks Hrange) as (n & Hn & Hk & Hn1 & _).
    exists n. split; [exact Hn|]. split; [|exact Hk].
    rewrite Hn. exact (proj1 (div_100 n Hn1)). }
  split.
  - intros H4 H1. split; [lia|]. revert H4 H1.
    unfold IEEE.computeStats. cbn [totalTasks completedTasks completionRate].
    intros -> ->. reflexivity.
  - intros Hid. eexists. rewrite IEEE_getTaskStats_run, Hid, Hl. reflexivity.
Qed.

Lemma stats_of_existing_list_witness :
  (exists l, In l (taskLists (loaded chores)) /\ TaskList.id l = "a")
  /\ exists s,
       IEEE.getTaskListStats "a" chores = (Return (Some s), after readData chores)
       /\ totalTasks s =
            countIf (fun task => String.eqb (Task.listId task) "a")
              (tasks (loaded chores))
       /\ completedTasks s =
            countIf (fun task => String.eqb (Task.listId task) "a" && Task.completed task)
              (tasks (loaded chores))
       /\ pendingTasks s = totalTasks s - completedTasks s
       /\ (totalTasks s = 0 -> completionRate s = 0%Q)
       /\ (0 < totalTasks s < 2 ^ 32 ->
           exists n : Z,
             completionRate s = Binary64.div (inject_Z n) 100
             /\ (inject_Z n / 100 * (1 - (1 # 9007199254740992))
                 <= completionRate s
                 <= inject_Z n / 100 * (1 + (1 # 9007199254740992)))%Q
             /\ (n = hundredths (completedTasks s) (totalTasks s)
                 \/ ((20000 * completedTasks s + totalTasks s)
                     mod (2 * totalTasks s) = 0
                     /\ n = hundredths (completedTasks s) (totalTasks s) - 1)))
       /\ (totalTasks s = 4 -> completedTasks s = 1 ->
           pendingTasks s = 3 /\ (completionRate s == 25)%Q)
       /\ (JSString.truthy "a" = true ->
           exists w', IEEE.getTaskStats (Some "a") chores = (Return s, w')).
Proof.
  assert (exists l, In l (taskLists (loaded chores)) /\ TaskList.id l = "a") as H.
  { exists (TaskList.mk "a" "Chores" 1704067200002 1704067200003).
    split; [vm_compute; left; reflexivity | reflexivity]. }
  split; [exact H|].
  exact (stats_of_existing_list chores "a" H).
Defined.

(** The scenario of C4 evaluated: four tasks, one completed. *)
Lemma stats_of_chores :
  exists s,
    IEEE.getTaskListStats "a" chores = (Return (Some s), after readData chores)
    /\ totalTasks s = 4 /\ completedTasks s = 1 /\ pendingTasks s = 3
    /\ (completionRate s == 25)%Q.
Proof.
  eexists. split; [vm_compute; reflexivity|]. now repeat split.
Qed.

(** ** Sorting *)

Section SortFacts.
Context {A : Type} (compare : A -> A -> Z).

  (** [a] may stand before [b]. *)
Let before (a b : A) : Prop := compare a b <= 0.

Hypothesis compare_total : forall a b, before a b \/ before b a.
Hypothesis compare_trans : forall a b c, before a b -> before b c -> before a c.

Lemma insert_Permutation x a : Permutation (JSArray.insert compare x a) (x :: a).
  Proof using Type.
    induction a as [|y a IH]; simpl; [reflexivity|].
    destruct (compare x y <=? 0); [reflexivity|].
    rewrite IH. apply perm_swap.
  Qed.

Lemma sort_Permutation a : Permutation (JSArray.sort compare a) a.
  Proof using Type.
    induction a as [|x a IH]; simpl; [reflexivity|].
    unfold JSArray.sort in IH. now rewrite insert_Permutation, IH.
  Qed.

Lemma insert_sorted x a :
    StronglySorted before a -> StronglySorted before (JSArray.insert compare x a).
  Proof using compare_total compare_trans.
    induction 1 as [|y a Hs IH Hy]; simpl.
    - constructor; constructor.
    - destruct (Z.leb_spec (compare x y) 0) as [Hxy|Hxy].
      + constructor; [now constructor|]. constructor; [exact Hxy|].
        eapply Forall_impl; [|exact Hy]. intros z Hz. now apply compare_trans with y.
      + constructor; [exact IH|].
        assert (before y x) as Hyx.
        { destruct (compare_total x y) as [H|H]; [unfold before in H; lia | exact H]. }
        eapply Permutation_Forall; [symmetry; apply insert_Permutation|].
        now constructor.
  Qed.

Lemma sort_sorted a : StronglySorted before (JSArray.sort compare a).
  Proof using compare_total compare_trans.
    induction a as [|x a IH]; simpl; [constructor|]. now apply insert_sorted.
  Qed.
End SortFacts.

Lemma StronglySorted_nth_error {A} (R : A -> A -> Prop) (a : list A) :
  StronglySorted R a ->
  forall i j x y, (i < j)%nat ->
    nth_error a i = Some x -> nth_error a j = Some y -> R x y.
Proof.
  induction 1 as [|z a Hs IH Hz]; intros i j x y Hij Hx Hy.
  - now destruct i.
  - destruct j as [|j]; [lia|]. simpl in Hy. destruct i as [|i]; simpl in Hx.
    + injection Hx as <-. rewrite Forall_forall in Hz.
      apply Hz. eapply nth_error_In. eassumption.
    + apply (IH i j); [lia | assumption | assumption].
Qed.

(** ** Substrings *)

Lemma startsWith_spec s sub :
  JSString.startsWith s sub = true <-> exists post, s = String.append sub post.
Proof.
  revert s. induction sub as [|a sub IH]; intros s.
  - split; [intros _; now exists s | now destruct s].
  - destruct s as [|b s]; simpl.
    + split; [discriminate | intros (post & H); discriminate].
    + rewrite andb_true_iff, IH. split.
      * intros [Hab (post & ->)]. apply Ascii.eqb_eq in Hab as ->. now exists post.
      * intros (post & H). injection H as -> ->.
        split; [apply Ascii.eqb_refl | now exists post].
Qed.

Lemma includes_spec s sub :
  JSString.includes s sub = true <-> isSubstring sub s.
Proof.
  unfold isSubstring. split.
  - induction s as [|c s IH]; cbn [JSString.includes]; rewrite orb_true_iff;
      intros [H|H]; try discriminate.
    + apply startsWith_spec in H as (post & H). now exists EmptyString, post.
    + apply startsWith_spec in H as (post & H). now exists EmptyString, post.
    + destruct (IH H) as (pre & post & ->). now exists (String c pre), post.
  - intros (pre & post & ->). induction pre as [|c pre IH].
    + assert (JSString.startsWith (String.append sub post) sub = true) as H
        by (apply startsWith_spec; now exists post).
      cbn [String.append]. destruct (String.append sub post);
        cbn [JSString.includes]; now rewrite H.
    + cbn [String.append JSString.includes]. rewrite IH. apply orb_true_r.
Qed.

(** ** Searching *)

Lemma searchTasks_run query listId w :
  let searchQuery := JSString.trim (JSString.toLowerCase query) in
  let found :=
    JSArray.sort (byRelevance searchQuery)
      (filter (fun task =>
                 JSString.includes (JSString.toLowerCase (Task.title task)) searchQuery)
              (inScope listId (loaded w))) in
  searchTasks query listId w =
    match listId with
    | Some id =>
        if JSString.truthy id then
          match find (fun list => String.eqb (TaskList.id list) id)
                  (taskLists (loaded w)) with
          | Some _ => (Return found, after readData (after readData w))
          | None =>
              (Throw (AppError "Task list not found" 404),
               after readData (after readData w))
          end
        else (Return found, after readData w)
    | None => (Return found, after readData w)
    end.
Proof.
  intros searchQuery found. subst found. unfold searchTasks, tryCatch, inScope.
  rewrite (bind_Return _ _ _ _ _ (readData_run w)).
  destruct listId as [id|]; [destruct (JSString.truthy id)|]; try reflexivity.
  unfold bind at 1. unfold bind at 1.
  rewrite (taskListExists_run id (after readData w)).
  destruct (loaded_after_readData w) as [-> _].
  now destruct (find _ _).
Qed.

Lemma byRelevance_before q a b :
  byRelevance q a b <= 0 <->
  (exactMatch q b = true -> exactMatch q a = true)
  /\ (exactMatch q a = exactMatch q b -> Task.createdAt b <= Task.createdAt a).
Proof.
  unfold byRelevance, exactMatch.
  destruct (String.eqb (JSString.toLowerCase (Task.title a)) q),
           (String.eqb (JSString.toLowerCase (Task.title b)) q); simpl;
    intuition (try discriminate; try lia).
Qed.

Lemma byRelevance_total q a b :
  byRelevance q a b <= 0 \/ byRelevance q b a <= 0.
Proof.
  rewrite !byRelevance_before.
  destruct (exactMatch q a), (exactMatch q b);
    destruct (Z.le_ge_cases (Task.createdAt a) (Task.createdAt b));
    intuition (try discriminate; try lia).
Qed.

Lemma byRelevance_trans q a b c :
  byRelevance q a b <= 0 -> byRelevance q b c <= 0 -> byRelevance q a c <= 0.
Proof.
  rewrite !byRelevance_before.
  destruct (exactMatch q a), (exactMatch q b), (exactMatch q c);
    intuition (try discriminate; try lia).
Qed.

(** C5, the claim as stated fails: the query "milk " (with a space at its
    end) finds the task titled "Milk", whose title does not contain the
    query, in whatever case. *)
Lemma searchTasks_finds_title_without_query :
  exists result w' task,
    searchTasks "milk " None dairy = (Return result, w')
    /\ In task result
    /\ Task.title task = "Milk"
    /\ ~ isSubstring (JSString.toLowerCase "milk ")
           (JSString.toLowerCase (Task.title task)).
Proof.
  do 3 eexists. split; [vm_compute; reflexivity|].
  split; [left; reflexivity|]. split; [reflexivity|].
  intros H. apply includes_spec in H. cbv in H. discriminate H.
Qed.

(** C5, amended.  The query is put in lower case and trimmed.  When the
    search is not scoped, or scoped to a list that exists, [searchTasks]
    returns exactly the tasks in scope whose title in lower case contains
    that trimmed query, each as often as it is stored; a task whose title
    in lower case is the trimmed query never comes after one whose title is
    not, and of two tasks that both are, or both are not, such exact matches
    the one created later never comes after the other.  So for the query
    "milk" a task titled "Milk" is returned before a task titled
    "Buy milk". *)
Theorem searchTasks_matches_trimmed_query w query listId :
  (forall id, listId = Some id -> JSString.truthy id = true ->
     exists l, In l (taskLists (loaded w)) /\ TaskList.id l = id) ->
  exists result w',
    searchTasks query listId w = (Return result, w')
    /\ Permutation result
         (filter (fun task =>
                    JSString.includes (JSString.toLowerCase (Task.title task))
                      (JSString.trim (JSString.toLowerCase query)))
                 (inScope listId (loaded w)))
    /\ (forall task,
          In task result <->
          In task (inScope listId (loaded w))
          /\ isSubstring (JSString.trim (JSString.toLowerCase query))
               (JSString.toLowerCase (Task.title task)))
    /\ (forall i j a b,
          (i < j)%nat -> nth_error result i = Some a -> nth_error result j = Some b ->
          (exactMatch (JSString.trim (JSString.toLowerCase query)) b = true ->
           exactMatch (JSString.trim (JSString.toLowerCase query)) a = true)
          /\ (exactMatch (JSString.trim (JSString.toLowerCase query)) a
              = exactMatch (JSString.trim (JSString.toLowerCase query)) b ->
              Task.createdAt b <= Task.createdAt a))
    /\ (query = "milk" ->
        forall i j a b,
          nth_error result i = Some a -> nth_error result j = Some b ->
          Task.title a = "Milk" -> Task.title b = "Buy milk" -> (i < j)%nat).
Proof.
  intros Hscope.
  set (q := JSString.trim (JSString.toLowerCase query)).
  set (matching :=
         filter (fun task =>
                   JSString.includes (JSString.toLowerCase (Task.title task)) q)
                (inScope listId (loaded w))).
  set (result := JSArray.sort (byRelevance q) matching).
  assert (exists w', searchTasks query listId w = (Return result, w')) as (w' & Hrun).
  { rewrite searchTasks_run. fold q. fold matching. fold result.
    destruct listId as [id|]; [|eauto].
    destruct (JSString.truthy id) eqn:Hid; [|eauto].
    destruct (find_id_Some id _ (Hscope id eq_refl Hid)) as (l & ->). eauto. }
  assert (Permutation result matching) as Hperm by apply sort_Permutation.
  assert (forall i j a b,
            (i < j)%nat -> nth_error result i = Some a -> nth_error result j = Some b ->
            (exactMatch q b = true -> exactMatch q a = true)
            /\ (exactMatch q a = exactMatch q b ->
                Task.createdAt b <= Task.createdAt a)) as Hord.
  { intros i j a b Hij Ha Hb. apply byRelevance_before.
    apply (StronglySorted_nth_error (fun a b => byRelevance q a b <= 0) result)
      with (i := i) (j := j); trivial.
    apply sort_sorted; [apply byRelevance_total | apply byRelevance_trans]. }
  exists result, w'. split; [exact Hrun|]. split; [exact Hperm|].
  split; [|split; [exact Hord|]].
  - intros task. split.
    + intros H. apply (Permutation_in _ Hperm) in H.
      apply filter_In in H as [Hin Hinc]. split; [exact Hin|].
      now apply includes_spec.
    + intros [Hin Hsub]. apply (Permutation_in _ (Permutation_sym Hperm)).
      apply filter_In. split; [exact Hin|]. now apply includes_spec.
  - intros Hq i j a b Ha Hb Hta Htb.
    assert (exactMatch q a = true) as Hea
      by (unfold exactMatch, q; rewrite Hta, Hq; reflexivity).
    assert (exactMatch q b = false) as Heb
      by (unfold exactMatch, q; rewrite Htb, Hq; reflexivity).
    destruct (Nat.lt_trichotomy i j) as [Hij|[Hij|Hij]]; [exact Hij| |].
    + subst j. rewrite Ha in Hb. injection Hb as <-. congruence.
    + destruct (Hord j i b a Hij Hb Ha) as [H _]. specialize (H Hea). congruence.
Qed.

Lemma searchTasks_matches_trimmed_query_witness :
  (forall id, Some "a" = Some id -> JSString.truthy id = true ->
     exists l, In l (taskLists (loaded dairy)) /\ TaskList.id l = id)
  /\ exists result w',
       searchTasks "milk" (Some "a") dairy = (Return result, w')
       /\ Permutation result
            (filter (fun task =>
                       JSString.includes (JSString.toLowerCase (Task.title task))
                         (JSString.trim (JSString.toLowerCase "milk")))
                    (inScope (Some "a") (loaded dairy)))
       /\ (forall task,
             In task result <->
             In task (inScope (Some "a") (loaded dairy))
             /\ isSubstring (JSString.trim (JSString.toLowerCase "milk"))
                  (JSString.toLowerCase (Task.title task)))
       /\ (forall i j a b,
             (i < j)%nat -> nth_error result i = Some a -> nth_error result j = Some b ->
             (exactMatch (JSString.trim (JSString.toLowerCase "milk")) b = true ->
              exactMatch (JSString.trim (JSString.toLowerCase "milk")) a = true)
             /\ (exactMatch (JSString.trim (JSString.toLowerCase "milk")) a
                 = exactMatch (JSString.trim (JSString.toLowerCase "milk")) b ->
                 Task.createdAt b <= Task.createdAt a))
       /\ ("milk" = "milk" ->
           forall i j a b,
             nth_error result i = Some a -> nth_error result j = Some b ->
             Task.title a = "Milk" -> Task.title b = "Buy milk" -> (i < j)%nat).
Proof.
  assert (forall id, Some "a" = Some id -> JSString.truthy id = true ->
            exists l, In l (taskLists (loaded dairy)) /\ TaskList.id l = id) as H.
  { intros id Hid _. injection Hid as <-.
    exists (TaskList.mk "a" "Dairy" 1704067200002 1704067200003).
    split; [vm_compute; left; reflexivity | reflexivity]. }
  split; [exact H|].
  exact (searchTasks_matches_trimmed_query dairy "milk" (Some "a") H).
Defined.

(** The search of C5 evaluated: "Milk" is older than "Buy milk" and still
    comes first. *)
Lemma searchTasks_milk_first :
  exists result w',
    searchTasks "milk" None dairy = (Return result, w')
    /\ map Task.title result = ["Milk"; "Buy milk"]
    /\ map Task.createdAt result = [1704067200005; 1704067200008].
Proof.
  do 2 eexists. split; [vm_compute; reflexivity|]. split; reflexivity.
Qed.

(** ** Referential integrity *)

Lemma intact_spec data :
  intact data = true <->
  forall task, In task (tasks data) ->
    exists list, In list (taskLists data) /\ TaskList.id list = Task.listId task.
Proof.
  unfold intact. rewrite forallb_forall. split; intros H task Ht.
  - apply H in Ht. apply existsb_exists in Ht as (l & Hl & He).
    exists l. split; [assumption | now apply String.eqb_eq].
  - destruct (H task Ht) as (l & Hl & He). apply existsb_exists.
    exists l. split; [assumption | now apply String.eqb_eq].
Qed.

Lemma readData_intact w :
  diskIntact w = true ->
  diskIntact (after readData w) = true /\ intact (loaded w) = true.
Proof.
  unfold after, loaded.
  world w; cbv -[intact reviveDates andb]; intros H;
    repeat match goal with
           | H : _ && _ = true |- _ => apply andb_true_iff in H as [? ?]
           end;
    repeat match goal with
           | |- _ /\ _ => split
           | |- _ && _ = true => apply andb_true_iff; split
           end; trivial.
Qed.

Lemma writeData_intact data w :
  diskIntact w = true -> intact data = true ->
  diskIntact (after (writeData data) w) = true.
Proof.
  intros Hw Hd. unfold after. destruct (canWrite w) eqn:Hc.
  - rewrite (writeData_canWrite _ _ Hc). unfold diskIntact, afterWrite, backupAfter.
    cbn [snd dataDir storage_json storage_backup_json storage_json_tmp fileIntact].
    unfold JSON_stringify. cbn [content]. rewrite revive_toJSON.
    change (intact (stamped data (clock w (ticks w)))) with (intact data).
    rewrite Hd. unfold diskIntact in Hw.
    destruct (dataDir w) as [[p b t]|]; [|reflexivity].
    cbn [storage_json storage_backup_json] in *.
    apply andb_true_iff in Hw as [Hw _]. apply andb_true_iff in Hw as [Hp Hb].
    destruct p as [f|]; [|now rewrite Hb]. cbn [fileIntact content] in *.
    now rewrite Hp.
  - destruct (writeData_cannot data w Hc) as (w' & -> & Hdir & _).
    unfold diskIntact. cbn [snd]. now rewrite Hdir.
Qed.

(** What the services write keeps the integrity of what they loaded. *)

Lemma existsb_id_incl (ls ls' : list TaskList.t) id :
  (forall l, In l ls -> exists l', In l' ls' /\ TaskList.id l' = TaskList.id l) ->
  existsb (fun list => String.eqb (TaskList.id list) id) ls = true ->
  existsb (fun list => String.eqb (TaskList.id list) id) ls' = true.
Proof.
  intros H He. apply existsb_exists in He as (l & Hl & Hid).
  destruct (H l Hl) as (l' & Hl' & Hid'). apply existsb_exists.
  exists l'. split; [assumption | now rewrite Hid'].
Qed.

Lemma intact_lists_incl ls ls' ts m m' :
  (forall l, In l ls -> exists l', In l' ls' /\ TaskList.id l' = TaskList.id l) ->
  intact (mkStorageData ls ts m) = true ->
  intact (mkStorageData ls' ts m') = true.
Proof.
  unfold intact. cbn [tasks taskLists]. rewrite !forallb_forall.
  intros H Hi task Ht. eapply existsb_id_incl; eauto.
Qed.

Lemma intact_tasks_incl ls ts ts' m m' :
  (forall t, In t ts' ->
     (exists t', In t' ts /\ Task.listId t' = Task.listId t)
     \/ existsb (fun list => String.eqb (TaskList.id list) (Task.listId t)) ls = true) ->
  intact (mkStorageData ls ts m) = true ->
  intact (mkStorageData ls ts' m') = true.
Proof.
  unfold intact. cbn [tasks taskLists]. rewrite !forallb_forall.
  intros H Hi task Ht. destruct (H task Ht) as [(t' & Ht' & He)|He]; [|exact He].
  rewrite <- He. now apply Hi.
Qed.

Lemma intact_eta data :
  intact (mkStorageData (taskLists data) (tasks data) (metadata data)) = intact data.
Proof. reflexivity. Qed.

Lemma intact_assign_list data i cur updated m :
  nth_error (taskLists data) i = Some cur ->
  TaskList.id updated = TaskList.id cur ->
  intact data = true ->
  intact (mkStorageData (JSArray.assign i updated (taskLists data)) (tasks data) m)
  = true.
Proof.
  intros Hc Hid. rewrite <- (intact_eta data). apply intact_lists_incl.
  intros l Hl. apply In_nth_error in Hl as (j & Hj).
  assert (i < List.length (taskLists data))%nat as Hlt
    by (apply nth_error_Some; congruence).
  destruct (Nat.eqb_spec j i) as [->|Hne].
  - exists updated. split; [|congruence].
    apply nth_error_In with i. now rewrite nth_error_assign, Nat.eqb_refl.
  - exists l. split; [|reflexivity].
    apply nth_error_In with j. rewrite nth_error_assign by assumption.
    now apply Nat.eqb_neq in Hne as ->.
Qed.

Lemma intact_delete_list data i id m :
  firstWith (fun list => String.eqb (TaskList.id list) id) (taskLists data) i ->
  intact data = true ->
  intact (mkStorageData (JSArray.splice1 i (taskLists data))
            (filter (fun task => negb (String.eqb (Task.listId task) id)) (tasks data))
            m) = true.
Proof.
  intros (cur & Hcur & Hid & _) Hi. apply String.eqb_eq in Hid.
  apply intact_spec. cbn [tasks taskLists]. intros task Ht.
  apply filter_In in Ht as [Ht Hne]. apply negb_true_iff, String.eqb_neq in Hne.
  destruct (proj1 (intact_spec data) Hi task Ht) as (l & Hl & He).
  exists l. split; [|exact He].
  destruct (In_splice1_or i _ _ Hl) as [H|H]; [exact H|]. congruence.
Qed.

Lemma intact_push_task data task m :
  existsb (fun list => String.eqb (TaskList.id list) (Task.listId task))
    (taskLists data) = true ->
  intact data = true ->
  intact (mkStorageData (taskLists data) (JSArray.push (tasks data) task) m) = true.
Proof.
  intros He. rewrite <- (intact_eta data). apply intact_tasks_incl.
  unfold JSArray.push. intros t Ht. apply in_app_or in Ht as [Ht|[<-|[]]].
  - left. now exists t.
  - now right.
Qed.

Lemma intact_assign_task data i cur updated m :
  nth_error (tasks data) i = Some cur ->
  Task.listId updated = Task.listId cur ->
  intact data = true ->
  intact (mkStorageData (taskLists data) (JSArray.assign i updated (tasks data)) m)
  = true.
Proof.
  intros Hc Hid. rewrite <- (intact_eta data). apply intact_tasks_incl.
  intros t Ht. left. apply In_assign in Ht as [->|Ht].
  - exists cur. split; [now apply nth_error_In with i | now symmetry].
  - now exists t.
Qed.

Lemma intact_delete_task data i m :
  intact data = true ->
  intact (mkStorageData (taskLists data) (JSArray.splice1 i (tasks data)) m) = true.
Proof.
  rewrite <- (intact_eta data). apply intact_tasks_incl.
  intros t Ht. left. exists t. split; [now apply In_splice1 in Ht | reflexivity].
Qed.

Lemma intact_push_list data list m :
  intact data = true ->
  intact (mkStorageData (JSArray.push (taskLists data) list) (tasks data) m) = true.
Proof.
  rewrite <- (intact_eta data). apply intact_lists_incl.
  intros l Hl. exists l. split; [|reflexivity].
  unfold JSArray.push. apply in_or_app. now left.
Qed.

(** *** Every call keeps the files intact *)

Lemma after_tryCatch {A} (m : M A) (h : Exn -> M A) w :
  (forall e w', snd (h e w') = w') -> after (tryCatch m h) w = after m w.
Proof.
  intros H. unfold after, tryCatch. destruct (m w) as [[a|e] w']; [reflexivity|].
  apply H.
Qed.

Lemma after_bind_Return {A B} (m : M A) (k : A -> M B) w a w' :
  m w = (Return a, w') -> after (bind m k) w = after (k a) w'.
Proof. intros H. unfold after. now rewrite (bind_Return _ _ _ _ _ H). Qed.

Lemma after_save_ret {A} data (a : A) w :
  after (writeData data ;;; ret a) w = after (writeData data) w.
Proof. unfold after, bind. now destruct (writeData data w) as [[?|?] ?]. Qed.

Lemma find_existsb id (ls : list TaskList.t) l :
  find (fun list => String.eqb (TaskList.id list) id) ls = Some l ->
  existsb (fun list => String.eqb (TaskList.id list) id) ls = true.
Proof.
  intros H. apply find_some in H as [Hin He]. apply existsb_exists. now exists l.
Qed.

Lemma writeData_intact_ret {A} data (a : A) w :
  diskIntact w = true -> intact data = true ->
  diskIntact (snd ((writeData data ;;; ret a) w)) = true.
Proof.
  intros Hw Hd. change (diskIntact (after (writeData data ;;; ret a) w) = true).
  rewrite after_save_ret. now apply writeData_intact.
Qed.

(** A check that returns or throws without touching the world. *)
Lemma after_check {A} (c : M unit) (k : M A) w :
  diskIntact w = true ->
  (c w = (Return tt, w) \/ exists e, c w = (Throw e, w)) ->
  diskIntact (after k w) = true ->
  diskIntact (after (c ;;; k) w) = true.
Proof.
  intros Hw [H|(e & H)] Hk; unfold after, bind; rewrite H; [exact Hk | exact Hw].
Qed.

Section Keeps.
Variable w : World.
Hypothesis Hw : diskIntact w = true.

Let Hw1 : diskIntact (after readData w) = true := proj1 (readData_intact w Hw).
Let Hd : intact (loaded w) = true := proj2 (readData_intact w Hw).
Let Hw2 : diskIntact (after readData (after readData w)) = true :=
    proj1 (readData_intact _ Hw1).

Lemma getAllTaskLists_keeps : diskIntact (after getAllTaskLists w) = true.
  Proof using Hw.
    unfold getAllTaskLists. rewrite after_tryCatch by reflexivity.
    rewrite (after_bind_Return _ _ _ _ _ (readData_run w)). exact Hw1.
  Qed.

Lemma getTaskListById_keeps id : diskIntact (after (getTaskListById id) w) = true.
  Proof using Hw. unfold after. rewrite getTaskListById_run. exact Hw1. Qed.

Lemma taskListExists_keeps id : diskIntact (after (taskListExists id) w) = true.
  Proof using Hw. unfold after. rewrite taskListExists_run. exact Hw1. Qed.

Lemma getTaskListStats_keeps id : diskIntact (after (getTaskListStats id) w) = true.
  Proof using Hw. unfold after. rewrite getTaskListStats_run. exact Hw1. Qed.

Lemma getTaskById_keeps id : diskIntact (after (getTaskById id) w) = true.
  Proof using Hw.
    unfold getTaskById. rewrite after_tryCatch by reflexivity.
    rewrite (after_bind_Return _ _ _ _ _ (readData_run w)).
    destruct (find _ _); exact Hw1.
  Qed.

Lemma getAllTasks_keeps : diskIntact (after getAllTasks w) = true.
  Proof using Hw.
    unfold getAllTasks. rewrite after_tryCatch by reflexivity.
    rewrite (after_bind_Return _ _ _ _ _ (readData_run w)). exact Hw1.
  Qed.

Lemma getTasksByListId_keeps listId :
    diskIntact (after (getTasksByListId listId) w) = true.
  Proof using Hw.
    unfold getTasksByListId.
    rewrite after_tryCatch by (intros [] ?; reflexivity).
    rewrite (after_bind_Return _ _ _ _ _ (taskListExists_run listId w)).
    destruct (find _ _); [|exact Hw1].
    cbn [negb]. rewrite (after_bind_Return _ _ _ _ _ (readData_run _)). exact Hw2.
  Qed.

Lemma searchTasks_keeps query listId :
    diskIntact (after (searchTasks query listId) w) = true.
  Proof using Hw.
    unfold after. rewrite searchTasks_run.
    destruct listId as [id|]; [destruct (JSString.truthy id)|];
      [destruct (find _ _)| |]; first [exact Hw2 | exact Hw1].
  Qed.

Lemma getTaskStats_keeps listId :
    diskIntact (after (getTaskStats listId) w) = true.
  Proof using Hw.
    unfold after. rewrite getTaskStats_run.
    destruct listId as [id|]; [destruct (JSString.truthy id)|];
      [destruct (find _ _)| |]; first [exact Hw2 | exact Hw1].
  Qed.

Lemma createTaskList_keeps createData :
    diskIntact (after (createTaskList createData) w) = true.
  Proof using Hw.
    unfold createTaskList.
    rewrite after_tryCatch by (intros [] ?; reflexivity).
    rewrite (after_bind_Return _ _ _ _ _ (readData_run w)).
    destruct (find _ _); [exact Hw1|].
    unfold after. unfold bind at 1. unfold uuidv4 at 1.
    unfold bind at 1. unfold newDate at 1. unfold bind at 1. unfold newDate at 1.
    apply writeData_intact_ret; [exact Hw1 | now apply intact_push_list].
  Qed.

Lemma updateTaskList_keeps id updateData :
    diskIntact (after (updateTaskList id updateData) w) = true.
  Proof using Hw.
    unfold updateTaskList.
    rewrite after_tryCatch by (intros [] ?; reflexivity).
    rewrite (after_bind_Return _ _ _ _ _ (readData_run w)).
    destruct (JSArray.findIndex _ _) as [i|]; [|exact Hw1].
    apply after_check; [exact Hw1| |].
    { destruct (UpdateTaskListDTO.name updateData) as [name|]; [|now left].
      destruct (JSString.truthy name); [|now left].
      destruct (find _ _); [right; eexists; reflexivity | now left]. }
    destruct (nth_error _ i) as [cur|] eqn:Hcur; [|exact Hw1].
    unfold after. unfold bind at 1. unfold newDate at 1.
    apply writeData_intact_ret; [exact Hw1|].
    now apply intact_assign_list with cur.
  Qed.

Lemma deleteTaskList_keeps id : diskIntact (after (deleteTaskList id) w) = true.
  Proof using Hw.
    unfold deleteTaskList. rewrite after_tryCatch by reflexivity.
    rewrite (after_bind_Return _ _ _ _ _ (readData_run w)).
    destruct (JSArray.findIndex _ _) as [i|] eqn:Hi; [|exact Hw1].
    apply findIndex_Some in Hi. unfold after. cbn [taskLists tasks metadata].
    apply writeData_intact_ret; [exact Hw1 | now apply intact_delete_list].
  Qed.

Lemma createTask_keeps createData :
    diskIntact (after (createTask createData) w) = true.
  Proof using Hw.
    unfold createTask.
    rewrite after_tryCatch by (intros [] ?; reflexivity).
    rewrite (after_bind_Return _ _ _ _ _ (taskListExists_run _ w)).
    destruct (find _ _) as [l|] eqn:Hl; [|exact Hw1].
    cbn [negb]. rewrite (after_bind_Return _ _ _ _ _ (readData_run _)).
    unfold after at 1. unfold bind at 1. unfold uuidv4 at 1.
    unfold bind at 1. unfold newDate at 1. unfold bind at 1. unfold newDate at 1.
    apply writeData_intact_ret; [exact Hw2|].
    apply intact_push_task; [|apply readData_intact, Hw1].
    cbn [Task.listId]. destruct (loaded_after_readData w) as [-> _].
    now apply find_existsb with l.
  Qed.

Lemma updateTask_keeps id updateData :
    diskIntact (after (updateTask id updateData) w) = true.
  Proof using Hw.
    unfold updateTask. rewrite after_tryCatch by reflexivity.
    rewrite (after_bind_Return _ _ _ _ _ (readData_run w)).
    destruct (JSArray.findIndex _ _) as [i|]; [|exact Hw1].
    destruct (nth_error _ i) as [cur|] eqn:Hcur; [|exact Hw1].
    unfold after. unfold bind at 1. unfold newDate at 1.
    apply writeData_intact_ret; [exact Hw1|].
    now apply intact_assign_task with cur.
  Qed.

Lemma toggleTaskCompletion_keeps id :
    diskIntact (after (toggleTaskCompletion id) w) = true.
  Proof using Hw.
    unfold toggleTaskCompletion. rewrite after_tryCatch by reflexivity.
    rewrite (after_bind_Return _ _ _ _ _ (readData_run w)).
    destruct (JSArray.findIndex _ _) as [i|]; [|exact Hw1].
    destruct (nth_error _ i) as [cur|] eqn:Hcur; [|exact Hw1].
    unfold after. unfold bind at 1. unfold newDate at 1.
    apply writeData_intact_ret; [exact Hw1|].
    now apply intact_assign_task with cur.
  Qed.

Lemma deleteTask_keeps id : diskIntact (after (deleteTask id) w) = true.
  Proof using Hw.
    unfold deleteTask. rewrite after_tryCatch by reflexivity.
    rewrite (after_bind_Return _ _ _ _ _ (readData_run w)).
    destruct (JSArray.findIndex _ _) as [i|]; [|exact Hw1].
    unfold after.
    apply writeData_intact_ret; [exact Hw1 | now apply intact_delete_task].
  Qed.

Lemma perform_keeps r : diskIntact (perform r w) = true.
  Proof using Hw.
    destruct r; cbn [perform];
      auto using getAllTaskLists_keeps, getTaskListById_keeps, createTaskList_keeps,
        updateTaskList_keeps, deleteTaskList_keeps, taskListExists_keeps,
        getTaskListStats_keeps, getTasksByListId_keeps, getTaskById_keeps,
        createTask_keeps, updateTask_keeps, toggleTaskCompletion_keeps,
        deleteTask_keeps, getAllTasks_keeps, searchTasks_keeps, getTaskStats_keeps.
  Qed.
End Keeps.

Lemma createTask_unknown_list w createData :
  (forall l, In l (taskLists (loaded w)) ->
     TaskList.id l <> CreateTaskDTO.listId createData) ->
  createTask createData w =
    (Throw (AppError "Task list not found" 404), after readData w).
Proof.
  intros Hno. unfold createTask, tryCatch.
  rewrite (bind_Return _ _ _ _ _ (taskListExists_run _ w)).
  replace (find _ _) with (@None TaskList.t); [reflexivity|].
  symmetry. apply find_findIndex. now apply (no_id_findIndex TaskList.id).
Qed.

Lemma reachable_intact w : reachable w -> diskIntact w = true.
Proof.
  induction 1 as [w H|w r _ IH].
  - unfold diskIntact. now rewrite H.
  - now apply perform_keeps.
Qed.

(** C2. Referential integrity is preserved by every operation.
    [createTask] throws "Task list not found" (404), saving nothing, when no
    stored list has the [listId] it is given.  [deleteTaskList], for a list
    that exists and a save that goes through, makes one save, of the
    document without that list and without every task whose [listId] is the
    identifier.  Every call of the two services leaves every file of the
    data directory with a document in which each task's [listId] is the
    identifier of a stored list, if the files were so before; and so it is
    in every world the services reach from a fresh installation, for the
    files and for the document a load returns. *)
Theorem referential_integrity_preserved :
  (forall w createData,
     (forall l, In l (taskLists (loaded w)) ->
        TaskList.id l <> CreateTaskDTO.listId createData) ->
     createTask createData w =
       (Throw (AppError "Task list not found" 404), after readData w))
  /\ (forall w id i,
        firstWith (fun list => String.eqb (TaskList.id list) id)
          (taskLists (loaded w)) i ->
        canWrite w = true ->
        exists saved w2,
          deleteTaskList id w = (Return true, w2)
          /\ w2 = afterWrite (after readData w) saved
          /\ taskLists (loaded w2) = JSArray.splice1 i (taskLists (loaded w))
          /\ (forall task,
                In task (tasks (loaded w2)) <->
                In task (tasks (loaded w)) /\ Task.listId task <> id))
  /\ (forall w r,
        diskIntact w = true ->
        diskIntact (perform r w) = true /\ intact (loaded (perform r w)) = true)
  /\ (forall w,
        reachable w ->
        diskIntact w = true
        /\ forall task, In task (tasks (loaded w)) ->
             exists list,
               In list (taskLists (loaded w))
               /\ TaskList.id list = Task.listId task).
Proof.
  split; [exact createTask_unknown_list|]. split; [|split].
  - intros w id i Hi Hw.
    destruct (deleteTaskList_cascade w id i Hi Hw) as (saved & w2 & H1 & H2 & H3 & H4).
    exists saved, w2. repeat (split; [assumption|]).
    intros task. rewrite H4, filter_In, negb_true_iff, String.eqb_neq. reflexivity.
  - intros w r Hw. pose proof (perform_keeps w Hw r) as H.
    split; [exact H | now apply readData_intact].
  - intros w Hr. pose proof (reachable_intact w Hr) as H.
    split; [exact H|]. apply intact_spec. now apply readData_intact.
Qed.

Lemma groceries_reachable : reachable groceries.
Proof.
  assert (groceries =
          perform (CreateTask (CreateTaskDTO.mk " Milk " (Some "5 pm") "a"))
            (perform (CreateTask (CreateTaskDTO.mk "Buy milk" None "a"))
               (perform (CreateTaskList (CreateTaskListDTO.mk "Groceries"))
                  freshInstall))) as ->
    by (vm_compute; reflexivity).
  do 3 apply reachable_perform. now apply reachable_fresh.
Qed.

Lemma referential_integrity_preserved_witness :
  (forall l, In l (taskLists (loaded groceries)) ->
     TaskList.id l <> CreateTaskDTO.listId (CreateTaskDTO.mk "Eggs" None "x"))
  /\ createTask (CreateTaskDTO.mk "Eggs" None "x") groceries =
       (Throw (AppError "Task list not found" 404), after readData groceries)
  /\ firstWith (fun list => String.eqb (TaskList.id list) "a")
       (taskLists (loaded groceries)) 0
  /\ canWrite groceries = true
  /\ (exists saved w2,
        deleteTaskList "a" groceries = (Return true, w2)
        /\ w2 = afterWrite (after readData groceries) saved
        /\ taskLists (loaded w2) = JSArray.splice1 0 (taskLists (loaded groceries))
        /\ (forall task,
              In task (tasks (loaded w2)) <->
              In task (tasks (loaded groceries)) /\ Task.listId task <> "a"))
  /\ diskIntact groceries = true
  /\ (diskIntact (perform (DeleteTaskList "a") groceries) = true
      /\ intact (loaded (perform (DeleteTaskList "a") groceries)) = true)
  /\ reachable groceries
  /\ (diskIntact groceries = true
      /\ forall task, In task (tasks (loaded groceries)) ->
           exists list,
             In list (taskLists (loaded groceries))
             /\ TaskList.id list = Task.listId task).
Proof.
  assert (forall l, In l (taskLists (loaded groceries)) ->
            TaskList.id l <> CreateTaskDTO.listId (CreateTaskDTO.mk "Eggs" None "x"))
    as Hl by (apply absent_id; vm_compute; reflexivity).
  assert (firstWith (fun list => String.eqb (TaskList.id list) "a")
            (taskLists (loaded groceries)) 0) as Hfl
    by (apply findIndex_Some; vm_compute; reflexivity).
  assert (canWrite groceries = true) as Hw by (vm_compute; reflexivity).
  assert (diskIntact groceries = true) as Hi by (vm_compute; reflexivity).
  split; [exact Hl|].
  split; [exact (proj1 referential_integrity_preserved groceries _ Hl)|].
  split; [exact Hfl|]. split; [exact Hw|].
  split;
    [exact (proj1 (proj2 referential_integrity_preserved) groceries "a" 0%nat Hfl Hw)|].
  split; [exact Hi|].
  split;
    [exact (proj1 (proj2 (proj2 referential_integrity_preserved))
              groceries (DeleteTaskList "a") Hi)|].
  split; [exact groceries_reachable|].
  exact (proj2 (proj2 (proj2 referential_integrity_preserved))
           groceries groceries_reachable).
Defined.

(** ** Names of lists *)

(** The scenario of the specification: after "Work", creating "work" is
    refused with the status 409. *)
Lemma createTaskList_Work_work :
  exists first w1 w2,
    createTaskList (CreateTaskListDTO.mk "Work") freshInstall = (Return first, w1)
    /\ createTaskList (CreateTaskListDTO.mk "work") w1
       = (Throw (AppError "A task list with this name already exists" 409), w2).
Proof. do 3 eexists. split; vm_compute; reflexivity. Qed.

(** C1, where the code departs from the claim.  [createTaskList] and
    [updateTaskList] compare the name as it is given and store it trimmed:
    after "Work", creating "Work " (with a space at its end) succeeds and
    stores a second list named "Work"; and after "Work" and "Home", renaming
    "Home" to " work" succeeds and stores "work" next to "Work".  In both
    worlds two stored lists have names equal up to case. *)
Theorem createTaskList_duplicate_after_trim :
  (exists first second w1 w2,
     createTaskList (CreateTaskListDTO.mk "Work") freshInstall = (Return first, w1)
     /\ createTaskList (CreateTaskListDTO.mk "Work ") w1 = (Return second, w2)
     /\ map TaskList.name (taskLists (loaded w2)) = ["Work"; "Work"]
     /\ ~ namesUnique (taskLists (loaded w2)))
  /\ (exists work home renamed w1 w2 w3,
        createTaskList (CreateTaskListDTO.mk "Work") freshInstall = (Return work, w1)
        /\ createTaskList (CreateTaskListDTO.mk "Home") w1 = (Return home, w2)
        /\ updateTaskList (TaskList.id home) (UpdateTaskListDTO.mk (Some " work")) w2
           = (Return (Some renamed), w3)
        /\ map TaskList.name (taskLists (loaded w3)) = ["Work"; "work"]
        /\ ~ namesUnique (taskLists (loaded w3))).
Proof.
  assert (forall lists,
            map (fun list => JSString.toLowerCase (TaskList.name list)) lists
            = ["work"; "work"] -> ~ namesUnique lists) as Hdup.
  { unfold namesUnique. intros lists -> H. apply NoDup_cons_iff in H as [H _].
    apply H. now left. }
  split.
  - do 4 eexists. split; [vm_compute; reflexivity|].
    split; [vm_compute; reflexivity|]. split; [vm_compute; reflexivity|].
    apply Hdup. vm_compute. reflexivity.
  - do 6 eexists. split; [vm_compute; reflexivity|].
    split; [vm_compute; reflexivity|]. split; [vm_compute; reflexivity|].
    split; [vm_compute; reflexivity|].
    apply Hdup. vm_compute. reflexivity.
Qed.

(** Where the names do stay unique: when the name that is given is already
    trimmed, what is compared is what is stored. *)

Lemma find_name_None name (lists : list TaskList.t) :
  find (fun list =>
          String.eqb (JSString.toLowerCase (TaskList.name list))
                     (JSString.toLowerCase name)) lists = None ->
  ~ In (JSString.toLowerCase name)
       (map (fun list => JSString.toLowerCase (TaskList.name list)) lists).
Proof.
  intros Hf Hin. apply in_map_iff in Hin as (l & He & Hl).
  apply (find_none _ _ Hf) in Hl. apply String.eqb_neq in Hl. contradiction.
Qed.

Lemma createTaskList_trimmed_name w name :
  JSString.trim name = name ->
  canWrite w = true ->
  namesUnique (taskLists (loaded w)) ->
  (exists l,
     In l (taskLists (loaded w))
     /\ JSString.toLowerCase (TaskList.name l) = JSString.toLowerCase name
     /\ createTaskList (CreateTaskListDTO.mk name) w
        = (Throw (AppError "A task list with this name already exists" 409),
           after readData w))
  \/ (exists created w',
        createTaskList (CreateTaskListDTO.mk name) w = (Return created, w')
        /\ TaskList.name created = name
        /\ taskLists (loaded w') = (taskLists (loaded w) ++ [created])%list
        /\ namesUnique (taskLists (loaded w'))).
Proof.
  intros Htrim Hw Hu. unfold createTaskList, tryCatch.
  rewrite (bind_Return _ _ _ _ _ (readData_run w)).
  cbn [CreateTaskListDTO.name].
  destruct (find _ _) as [l|] eqn:Hf.
  - left. apply find_some in Hf as [Hin He]. apply String.eqb_eq in He.
    exists l. now repeat split.
  - right. unfold bind at 1. unfold uuidv4 at 1.
    unfold bind at 1. unfold newDate at 1. unfold bind at 1. unfold newDate at 1.
    erewrite bind_Return
      by (apply writeData_canWrite; now apply canWrite_after_readData).
    do 2 eexists. split; [reflexivity|]. rewrite loaded_afterWrite.
    cbn [TaskList.name stamped taskLists]. rewrite Htrim.
    split; [reflexivity|]. split; [reflexivity|].
    unfold namesUnique, JSArray.push. rewrite map_app. cbn [map TaskList.name].
    apply (Permutation_NoDup (Permutation_cons_append _ _)).
    constructor; [now apply find_name_None | exact Hu].
Qed.

Lemma updateTaskList_trimmed_name w id name i :
  JSString.trim name = name -> JSString.truthy name = true ->
  canWrite w = true ->
  NoDup (map TaskList.id (taskLists (loaded w))) ->
  namesUnique (taskLists (loaded w)) ->
  firstWith (fun list => String.eqb (TaskList.id list) id) (taskLists (loaded w)) i ->
  (exists l,
     In l (taskLists (loaded w)) /\ TaskList.id l <> id
     /\ JSString.toLowerCase (TaskList.name l) = JSString.toLowerCase name
     /\ updateTaskList id (UpdateTaskListDTO.mk (Some name)) w
        = (Throw (AppError "A task list with this name already exists" 409),
           after readData w))
  \/ (exists updated w',
        updateTaskList id (UpdateTaskListDTO.mk (Some name)) w
        = (Return (Some updated), w')
        /\ TaskList.name updated = name
        /\ taskLists (loaded w') = JSArray.assign i updated (taskLists (loaded w))
        /\ namesUnique (taskLists (loaded w'))).
Proof.
  intros Htrim Htruthy Hw Hids Hu Hi.
  pose proof (firstWith_findIndex _ _ _ Hi) as Hfi.
  destruct Hi as (cur & Hcur & Hid & _). apply String.eqb_eq in Hid.
  unfold updateTaskList, tryCatch.
  rewrite (bind_Return _ _ _ _ _ (readData_run w)), Hfi.
  cbn [UpdateTaskListDTO.name]. rewrite Htruthy.
  destruct (find _ _) as [l|] eqn:Hf.
  - left. apply find_some in Hf as [Hin He].
    apply andb_true_iff in He as [Hne He].
    apply negb_true_iff, String.eqb_neq in Hne. apply String.eqb_eq in He.
    exists l. now repeat split.
  - right. unfold bind at 1. unfold ret at 1. rewrite Hcur.
    unfold bind at 1. unfold newDate at 1.
    erewrite bind_Return
      by (apply writeData_canWrite; now apply canWrite_after_readData).
    do 2 eexists. split; [reflexivity|]. rewrite loaded_afterWrite.
    cbn [TaskList.name stamped taskLists]. rewrite Htrim.
    split; [reflexivity|]. split; [reflexivity|].
    (* the lists on both sides of the index, none of which has the identifier *)
    destruct (nth_error_split _ _ Hcur) as (before & behind & Hsplit & Hlen).
    unfold JSArray.assign.
    assert (firstn i (taskLists (loaded w)) = before) as ->
      by (rewrite Hsplit, <- Hlen, firstn_app, Nat.sub_diag, firstn_all;
          cbn; apply app_nil_r).
    assert (skipn (S i) (taskLists (loaded w)) = behind) as ->.
    { rewrite Hsplit, <- Hlen.
      change (before ++ cur :: behind)%list with (before ++ [cur] ++ behind)%list.
      rewrite app_assoc, skipn_app, skipn_all2 by (rewrite length_app; cbn; lia).
      rewrite length_app. cbn [List.length].
      replace (S (List.length before) - (List.length before + 1))%nat with O by lia.
      reflexivity. }
    rewrite Hsplit in Hids, Hu, Hf. unfold namesUnique in *.
    rewrite map_app in *. cbn [map] in *.
    apply NoDup_remove in Hids as [_ Hnotin]. apply NoDup_remove_1 in Hu.
    apply (Permutation_NoDup (Permutation_middle _ _ _)).
    constructor; [|exact Hu]. cbn [TaskList.name].
    rewrite <- map_app. intros Hin. apply in_map_iff in Hin as (l & He & Hl).
    assert (In l (before ++ cur :: behind)%list) as Hl'.
    { apply in_app_or in Hl as [Hl|Hl]; apply in_or_app;
        [now left | right; now right]. }
    apply (find_none _ _ Hf) in Hl'. apply andb_false_iff in Hl' as [Hl'|Hl'].
    + apply negb_false_iff, String.eqb_eq in Hl'.
      apply Hnotin. rewrite <- map_app, Hid, <- Hl'. now apply in_map.
    + apply String.eqb_neq in Hl'. contradiction.
Qed.

(** * Further properties of the services *)

(** ** The services unfolded *)

Lemma writeData_Throw data w e w' :
  writeData data w = (Throw e, w') ->
  e = Error "Failed to save data to storage"
  /\ canWrite w = false /\ dataDir w' = dataDir w /\ readOnly w' = readOnly w
  /\ clock w' = clock w /\ uuids w' = uuids w /\ drawn w' = drawn w.
Proof.
  intros H. destruct (canWrite w) eqn:Hc.
  - rewrite (writeData_canWrite _ _ Hc) in H. discriminate.
  - destruct (writeData_cannot data w Hc) as (w'' & H' & Hrest).
    rewrite H' in H. injection H as <- <-. now split.
Qed.

Lemma catch_save {A} data (a : A) message (handler : Exn -> M A) w :
  (forall m, handler (Error m) = throw (AppError message 500)) ->
  match (writeData data ;;; ret a) w with
  | (Return x, w') => (Return x, w')
  | (Throw e, w') => handler e w'
  end = saveThen data a message w.
Proof.
  intros Hh. unfold bind, saveThen.
  destruct (writeData data w) as [[d|e] w'] eqn:Hw; [reflexivity|].
  apply writeData_Throw in Hw as (-> & _). now rewrite Hh.
Qed.

Lemma saveThen_canWrite {A} data (a : A) message w :
  canWrite w = true -> saveThen data a message w = (Return a, afterWrite w data).
Proof. intros H. unfold saveThen. now rewrite (writeData_canWrite _ _ H). Qed.

Lemma saveThen_cannot {A} data (a : A) message w :
  canWrite w = false ->
  exists w',
    saveThen data a message w = (Throw (AppError message 500), w')
    /\ dataDir w' = dataDir w /\ readOnly w' = readOnly w.
Proof.
  intros H. unfold saveThen.
  destruct (writeData_cannot data w H) as (w' & -> & Hd & Hr & _).
  exists w'. now repeat split.
Qed.

Lemma createTaskList_run createData w :
  createTaskList createData w =
    match find (fun list =>
                  String.eqb (JSString.toLowerCase (TaskList.name list))
                    (JSString.toLowerCase (CreateTaskListDTO.name createData)))
               (taskLists (loaded w)) with
    | Some _ =>
        (Throw (AppError "A task list with this name already exists" 409),
         after readData w)
    | None =>
        let w1 := after readData w in
        let created :=
          TaskList.mk (uuids w1 (drawn w1))
            (JSString.trim (CreateTaskListDTO.name createData))
            (clock w1 (ticks w1)) (clock w1 (S (ticks w1))) in
        saveThen
          (mkStorageData (JSArray.push (taskLists (loaded w)) created)
             (tasks (loaded w)) (metadata (loaded w)))
          created "Failed to create task list" (advance 2 1 w1)
    end.
Proof.
  unfold createTaskList, tryCatch.
  rewrite (bind_Return _ _ _ _ _ (readData_run w)).
  destruct (find _ _); [reflexivity|].
  unfold bind at 1. unfold uuidv4 at 1.
  unfold bind at 1. unfold newDate at 1. unfold bind at 1. unfold newDate at 1.
  cbv zeta. now apply catch_save.
Qed.

Lemma updateTaskList_run id updateData w :
  updateTaskList id updateData w =
    let w1 := after readData w in
    match JSArray.findIndex (fun list => String.eqb (TaskList.id list) id)
            (taskLists (loaded w)) with
    | None => (Return None, w1)
    | Some i =>
        let name :=
          match UpdateTaskListDTO.name updateData with
          | Some name => if JSString.truthy name then Some name else None
          | None => None
          end in
        let conflict :=
          match name with
          | Some name =>
              find (fun list =>
                      negb (String.eqb (TaskList.id list) id)
                      && String.eqb (JSString.toLowerCase (TaskList.name list))
                                    (JSString.toLowerCase name))
                   (taskLists (loaded w))
          | None => None
          end in
        match conflict with
        | Some _ =>
            (Throw (AppError "A task list with this name already exists" 409), w1)
        | None =>
            match nth_error (taskLists (loaded w)) i with
            | None => (Throw (AppError "Failed to update task list" 500), w1)
            | Some cur =>
                let updated :=
                  TaskList.mk (TaskList.id cur)
                    match name with
                    | Some name => JSString.trim name
                    | None => TaskList.name cur
                    end
                    (TaskList.createdAt cur) (clock w1 (ticks w1)) in
                saveThen
                  (mkStorageData (JSArray.assign i updated (taskLists (loaded w)))
                     (tasks (loaded w)) (metadata (loaded w)))
                  (Some updated) "Failed to update task list" (advance 1 0 w1)
            end
        end
    end.
Proof.
  unfold updateTaskList, tryCatch.
  rewrite (bind_Return _ _ _ _ _ (readData_run w)).
  destruct (JSArray.findIndex _ _) as [i|]; [|reflexivity].
  cbv zeta.
  destruct (UpdateTaskListDTO.name updateData) as [name|];
    [destruct (JSString.truthy name); [destruct (find _ _); [reflexivity|]|]|];
    unfold bind at 1; unfold ret at 1;
    (destruct (nth_error _ i); [|reflexivity]);
    unfold bind at 1; unfold newDate at 1; now apply catch_save.
Qed.

Lemma deleteTaskList_run id w :
  deleteTaskList id w =
    match JSArray.findIndex (fun list => String.eqb (TaskList.id list) id)
            (taskLists (loaded w)) with
    | None => (Return false, after readData w)
    | Some i =>
        saveThen
          (mkStorageData (JSArray.splice1 i (taskLists (loaded w)))
             (filter (fun task => negb (String.eqb (Task.listId task) id))
                (tasks (loaded w)))
             (metadata (loaded w)))
          true "Failed to delete task list" (after readData w)
    end.
Proof.
  unfold deleteTaskList, tryCatch.
  rewrite (bind_Return _ _ _ _ _ (readData_run w)).
  destruct (JSArray.findIndex _ _) as [i|]; [|reflexivity].
  cbv zeta. cbn [taskLists tasks metadata]. now apply catch_save.
Qed.

Lemma createTask_run createData w :
  createTask createData w =
    if hasList (CreateTaskDTO.listId createData) (loaded w) then
      let w2 := after readData (after readData w) in
      let created :=
        Task.mk (uuids w2 (drawn w2))
          (JSString.trim (CreateTaskDTO.title createData))
          (option_map JSString.trim (CreateTaskDTO.time createData))
          false (CreateTaskDTO.listId createData)
          (clock w2 (ticks w2)) (clock w2 (S (ticks w2))) in
      saveThen
        (mkStorageData (taskLists (loaded (after readData w)))
           (JSArray.push (tasks (loaded (after readData w))) created)
           (metadata (loaded (after readData w))))
        created "Failed to create task" (advance 2 1 w2)
    else (Throw (AppError "Task list not found" 404), after readData w).
Proof.
  unfold createTask, tryCatch, hasList.
  rewrite (bind_Return _ _ _ _ _ (taskListExists_run _ w)).
  destruct (find _ _) as [l|] eqn:Hl.
  - rewrite (find_existsb _ _ _ Hl). cbn [negb].
    rewrite (bind_Return _ _ _ _ _ (readData_run _)).
    unfold bind at 1. unfold uuidv4 at 1.
    unfold bind at 1. unfold newDate at 1. unfold bind at 1. unfold newDate at 1.
    cbv zeta. now apply catch_save.
  - replace (existsb _ _) with false; [reflexivity|].
    symmetry. apply not_true_is_false. intros H.
    apply existsb_exists in H as (l & Hin & He).
    now rewrite (find_none _ _ Hl l Hin) in He.
Qed.

Lemma updateTask_run id updateData w :
  updateTask id updateData w =
    let w1 := after readData w in
    match JSArray.findIndex (fun task => String.eqb (Task.id task) id)
            (tasks (loaded w)) with
    | None => (Return None, w1)
    | Some i =>
        match nth_error (tasks (loaded w)) i with
        | None => (Throw (AppError "Failed to update task" 500), w1)
        | Some cur =>
            let updated :=
              Task.mk (Task.id cur)
                match UpdateTaskDTO.title updateData with
                | Some title => JSString.trim title
                | None => Task.title cur
                end
                match UpdateTaskDTO.time updateData with
                | Some time => option_map JSString.trim time
                | None => Task.time cur
                end
                match UpdateTaskDTO.completed updateData with
                | Some completed => completed
                | None => Task.completed cur
                end
                (Task.listId cur) (Task.createdAt cur) (clock w1 (ticks w1)) in
            saveThen
              (mkStorageData (taskLists (loaded w))
                 (JSArray.assign i updated (tasks (loaded w))) (metadata (loaded w)))
              (Some updated) "Failed to update task" (advance 1 0 w1)
        end
    end.
Proof.
  unfold updateTask, tryCatch.
  rewrite (bind_Return _ _ _ _ _ (readData_run w)).
  destruct (JSArray.findIndex _ _) as [i|]; [|reflexivity].
  destruct (nth_error _ i); [|reflexivity].
  unfold bind at 1. unfold newDate at 1. cbv zeta. now apply catch_save.
Qed.

Lemma toggleTaskCompletion_run id w :
  toggleTaskCompletion id w =
    let w1 := after readData w in
    match JSArray.findIndex (fun task => String.eqb (Task.id task) id)
            (tasks (loaded w)) with
    | None => (Return None, w1)
    | Some i =>
        match nth_error (tasks (loaded w)) i with
        | None => (Throw (AppError "Failed to toggle task completion" 500), w1)
        | Some cur =>
            let updated :=
              Task.mk (Task.id cur) (Task.title cur) (Task.time cur)
                (negb (Task.completed cur)) (Task.listId cur)
                (Task.createdAt cur) (clock w1 (ticks w1)) in
            saveThen
              (mkStorageData (taskLists (loaded w))
                 (JSArray.assign i updated (tasks (loaded w))) (metadata (loaded w)))
              (Some updated) "Failed to toggle task completion" (advance 1 0 w1)
        end
    end.
Proof.
  unfold toggleTaskCompletion, tryCatch.
  rewrite (bind_Return _ _ _ _ _ (readData_run w)).
  destruct (JSArray.findIndex _ _) as [i|]; [|reflexivity].
  destruct (nth_error _ i); [|reflexivity].
  unfold bind at 1. unfold newDate at 1. cbv zeta. now apply catch_save.
Qed.

Lemma deleteTask_run id w :
  deleteTask id w =
    match JSArray.findIndex (fun task => String.eqb (Task.id task) id)
            (tasks (loaded w)) with
    | None => (Return false, after readData w)
    | Some i =>
        saveThen
          (mkStorageData (taskLists (loaded w))
             (JSArray.splice1 i (tasks (loaded w))) (metadata (loaded w)))
          true "Failed to delete task" (after readData w)
    end.
Proof.
  unfold deleteTask, tryCatch.
  rewrite (bind_Return _ _ _ _ _ (readData_run w)).
  destruct (JSArray.findIndex _ _) as [i|]; [|reflexivity].
  cbv zeta. now apply catch_save.
Qed.

Lemma getAllTaskLists_run w :
  getAllTaskLists w = (Return (taskLists (loaded w)), after readData w).
Proof.
  unfold getAllTaskLists. apply tryCatch_Return.
  now rewrite (bind_Return _ _ _ _ _ (readData_run w)).
Qed.

Lemma getTaskById_run id w :
  getTaskById id w =
    (Return (find (fun task => String.eqb (Task.id task) id) (tasks (loaded w))),
     after readData w).
Proof.
  unfold getTaskById. apply tryCatch_Return.
  rewrite (bind_Return _ _ _ _ _ (readData_run w)). now destruct (find _ _).
Qed.

Lemma getAllTasks_run w :
  getAllTasks w =
    (Return (JSArray.sort newestFirst (tasks (loaded w))), after readData w).
Proof.
  unfold getAllTasks. apply tryCatch_Return.
  now rewrite (bind_Return _ _ _ _ _ (readData_run w)).
Qed.

Lemma getTasksByListId_run listId w :
  getTasksByListId listId w =
    if hasList listId (loaded w) then
      (Return (JSArray.sort newestFirst (tasksOf listId (loaded w))),
       after readData (after readData w))
    else (Throw (AppError "Task list not found" 404), after readData w).
Proof.
  unfold getTasksByListId, tryCatch, hasList, tasksOf.
  rewrite (bind_Return _ _ _ _ _ (taskListExists_run _ w)).
  destruct (find _ _) as [l|] eqn:Hl.
  - rewrite (find_existsb _ _ _ Hl). cbn [negb].
    rewrite (bind_Return _ _ _ _ _ (readData_run _)).
    destruct (loaded_after_readData w) as [_ ->]. reflexivity.
  - replace (existsb _ _) with false; [reflexivity|].
    symmetry. apply not_true_is_false. intros H.
    apply existsb_exists in H as (l & Hin & He).
    now rewrite (find_none _ _ Hl l Hin) in He.
Qed.

(** ** Saves: through or refused, with one generation of backup *)

(** X1. A save goes through, is refused, or fails on the way, and the primary
    file is whole in each case.  The file system refuses a save for two
    reasons: it is read-only, or the primary file cannot be read for the
    backup copy; the save then throws "Failed to save data to storage"
    before its first write and leaves every file as it was.  Otherwise the
    save goes through: the primary file holds the document (stamped with the
    time of the save), the backup file holds what the primary file held
    before (or is left alone when there was none) and the temporary file is
    gone.  Had the write of the temporary file or the rename failed in that
    save, it would have thrown the same error with the primary file as it
    was, the backup file already overwritten with the copy of the primary
    file, and the temporary file left behind. *)
Theorem writeData_keeps_the_primary_file_whole data w :
  writeDataWith fs.writeFile fs.rename data = writeData data
  /\ (canWrite w = false
      <-> readOnly w = true
          \/ exists f, primaryFile w = Some f /\ readable f = false)
  /\ if canWrite w then
       (exists data' w',
          writeData data w = (Return data', w')
          /\ data' = stamped data (clock w (ticks w))
          /\ documentOf (primaryFile w') = Some data'
          /\ (forall f, primaryFile w = Some f ->
                exists b, backupFile w' = Some b /\ content b = content f)
          /\ (primaryFile w = None -> backupFile w' = backupFile w)
          /\ (exists d, dataDir w' = Some d /\ storage_json_tmp d = None))
       /\ (exists w' d,
             writeDataWith writeFile_ENOSPC fs.rename data w
             = (Throw (Error "Failed to save data to storage"), w')
             /\ primaryFile w' = primaryFile w
             /\ backupFile w' = backupAfter w
             /\ dataDir w' = Some d
             /\ storage_json_tmp d = Some (mkFile true Garbage))
       /\ (exists w' d,
             writeDataWith fs.writeFile rename_EIO data w
             = (Throw (Error "Failed to save data to storage"), w')
             /\ primaryFile w' = primaryFile w
             /\ backupFile w' = backupAfter w
             /\ dataDir w' = Some d
             /\ documentOf (storage_json_tmp d)
                = Some (stamped data (clock w (ticks w))))
     else
       exists w',
         writeData data w = (Throw (Error "Failed to save data to storage"), w')
         /\ dataDir w' = dataDir w.
Proof.
  split; [reflexivity|]. split.
  - unfold canWrite, primaryFile.
    destruct (readOnly w); cbn [negb andb].
    + split; [now left|reflexivity].
    + destruct (dataDir w) as [d|].
      * destruct (storage_json d) as [f|].
        -- split; [intros H; right; now exists f|].
           intros [H|(f' & Hf & Hr)]; [discriminate|]. congruence.
        -- split; [discriminate|].
           intros [H|(f' & Hf & Hr)]; discriminate.
      * split; [discriminate|].
        intros [H|(f' & Hf & Hr)]; discriminate.
  - destruct (canWrite w) eqn:Hc.
    + split; [|split].
      * do 2 eexists. split; [now apply writeData_canWrite|].
        split; [reflexivity|]. split; [apply documentOf_afterWrite|].
        unfold afterWrite, backupFile, backupAfter, primaryFile.
        cbn [dataDir storage_backup_json storage_json_tmp].
        split; [|split; [|eexists; split; reflexivity]].
        -- intros f Hf. destruct (dataDir w) as [d|]; [|discriminate].
           rewrite Hf. eexists. split; reflexivity.
        -- intros Hf. destruct (dataDir w) as [d|]; [|reflexivity].
           now rewrite Hf.
      * revert Hc. world w; intros Hc; try discriminate Hc;
          (do 2 eexists; split; [reflexivity|]; repeat split).
      * revert Hc. world w; intros Hc; try discriminate Hc;
          (do 2 eexists; split; [reflexivity|]; repeat split);
          apply documentOf_stringify.
    + destruct (writeData_cannot data w Hc) as (w' & H & Hd & _).
      now exists w'.
Qed.

Lemma readData_after_save w data :
  readData (afterWrite w data)
  = (Return (stamped data (clock w (ticks w))), afterWrite w data).
Proof. apply readData_primary, documentOf_afterWrite. Qed.

Lemma after_readData_afterWrite w data :
  after readData (afterWrite w data) = afterWrite w data.
Proof. unfold after. now rewrite readData_after_save. Qed.

Lemma canWrite_afterWrite w data :
  canWrite w = true -> canWrite (afterWrite w data) = true.
Proof.
  unfold canWrite, afterWrite. cbn [readOnly dataDir storage_json readable].
  intros H. apply andb_true_iff in H as [-> _]. reflexivity.
Qed.

(** X2. The backup is one save behind: after two saves that go through, the
    backup file holds the document of the first, and if the primary file
    then turns into garbage, a load returns that document, the lists and
    tasks of the first save. *)
Theorem backup_is_one_save_behind D1 D2 w :
  canWrite w = true ->
  exists D1' w1 D2' w2,
    writeData D1 w = (Return D1', w1)
    /\ writeData D2 w1 = (Return D2', w2)
    /\ documentOf (backupFile w2) = Some D1'
    /\ readData w2 = (Return D2', w2)
    /\ readData (withPrimary (Some (mkFile true Garbage)) w2)
       = (Return D1', withPrimary (Some (mkFile true Garbage)) w2)
    /\ taskLists D1' = taskLists D1 /\ tasks D1' = tasks D1.
Proof.
  intros Hw. pose proof (canWrite_afterWrite w D1 Hw) as Hw1.
  do 4 eexists. split; [now apply writeData_canWrite|].
  split; [now apply writeData_canWrite|].
  assert (documentOf (backupFile (afterWrite (afterWrite w D1) D2))
          = Some (stamped D1 (clock w (ticks w)))) as Hb.
  { unfold backupFile, afterWrite at 1, backupAfter.
    cbn [dataDir storage_backup_json].
    unfold afterWrite. cbn [dataDir storage_json content].
    apply documentOf_stringify. }
  split; [exact Hb|]. split; [apply readData_after_save|].
  split; [|split; reflexivity].
  eapply readData_backup; [reflexivity | reflexivity | exact Hb].
Qed.

Lemma backup_is_one_save_behind_witness :
  canWrite groceries = true
  /\ exists D1' w1 D2' w2,
       writeData backedUpList groceries = (Return D1', w1)
       /\ writeData (initialData 0) w1 = (Return D2', w2)
       /\ documentOf (backupFile w2) = Some D1'
       /\ readData w2 = (Return D2', w2)
       /\ readData (withPrimary (Some (mkFile true Garbage)) w2)
          = (Return D1', withPrimary (Some (mkFile true Garbage)) w2)
       /\ taskLists D1' = taskLists backedUpList
       /\ tasks D1' = tasks backedUpList.
Proof.
  assert (canWrite groceries = true) as Hw by (vm_compute; reflexivity).
  split; [exact Hw|].
  exact (backup_is_one_save_behind backedUpList (initialData 0) groceries Hw).
Defined.

(** ** What the requests leave alone *)

Lemma query_after r w :
  isQuery r = true ->
  perform r w = after readData w
  \/ perform r w = after readData (after readData w).
Proof.
  destruct r; try discriminate; intros _; cbn [perform];
    match goal with |- after ?m w = _ \/ _ => change (after m w) with (snd (m w)) end.
  - rewrite getAllTaskLists_run. now left.
  - rewrite getTaskListById_run. now left.
  - rewrite taskListExists_run. now left.
  - rewrite getTaskListStats_run. now left.
  - rewrite getTasksByListId_run. destruct (hasList _ _); [now right | now left].
  - rewrite getTaskById_run. now left.
  - rewrite getAllTasks_run. now left.
  - rewrite searchTasks_run.
    destruct listId as [id|]; [destruct (JSString.truthy id)|];
      [destruct (find _ _)| |]; first [now right | now left].
  - rewrite getTaskStats_run.
    destruct listId as [id|]; [destruct (JSString.truthy id)|];
      [destruct (find _ _)| |]; first [now right | now left].
Qed.

Lemma after_readData_files w :
  primaryFile w <> None -> dataDir (after readData w) = dataDir w.
Proof.
  intros H. unfold after. destruct (readData w) as [r w1] eqn:Hr.
  now apply (readData_files w r w1).
Qed.

(** X3. A query saves nothing: the lists and tasks stored after it are the ones
    stored before, and when there was a primary file no file is touched. *)
Theorem queries_leave_the_store_alone r w :
  isQuery r = true ->
  taskLists (loaded (perform r w)) = taskLists (loaded w)
  /\ tasks (loaded (perform r w)) = tasks (loaded w)
  /\ (primaryFile w <> None -> dataDir (perform r w) = dataDir w).
Proof.
  intros Hq. destruct (loaded_after_readData w) as [Hl Ht].
  destruct (loaded_after_readData (after readData w)) as [Hl2 Ht2].
  destruct (query_after r w Hq) as [->| ->].
  - repeat split; trivial. apply after_readData_files.
  - repeat split; try congruence. intros Hp.
    pose proof (after_readData_files w Hp) as Hd.
    rewrite after_readData_files; [exact Hd|].
    unfold primaryFile in *. now rewrite Hd.
Qed.

Lemma queries_leave_the_store_alone_witness :
  isQuery (SearchTasks "milk" (Some "a")) = true
  /\ taskLists (loaded (perform (SearchTasks "milk" (Some "a")) dairy))
     = taskLists (loaded dairy)
  /\ tasks (loaded (perform (SearchTasks "milk" (Some "a")) dairy))
     = tasks (loaded dairy)
  /\ (primaryFile dairy <> None ->
      dataDir (perform (SearchTasks "milk" (Some "a")) dairy) = dataDir dairy).
Proof.
  split; [reflexivity|].
  exact (queries_leave_the_store_alone (SearchTasks "milk" (Some "a")) dairy eq_refl).
Defined.

Lemma readData_cannot w :
  canWrite w = false ->
  dataDir (after readData w) = dataDir w /\ canWrite (after readData w) = false.
Proof.
  unfold after. world w; intros H; cbv in H; try discriminate H;
    split; reflexivity.
Qed.

Lemma saveThen_cannot_dir {A} data (a : A) message w :
  canWrite w = false -> dataDir (after (saveThen data a message) w) = dataDir w.
Proof.
  intros H. unfold after.
  destruct (saveThen_cannot data a message w H) as (w' & -> & Hd & _). exact Hd.
Qed.

(** X4. On a file system that refuses the save (read-only, or with a primary
    file that cannot be read for the backup copy) no request changes any
    file. *)
Theorem refused_save_changes_no_file r w :
  canWrite w = false -> dataDir (perform r w) = dataDir w.
Proof.
  intros Hc. destruct (readData_cannot w Hc) as [Hd1 Hc1].
  destruct (readData_cannot _ Hc1) as [Hd2 Hc2].
  assert (forall A (data : StorageData) (a : A) message t d,
            dataDir (snd (saveThen data a message (advance t d (after readData w))))
            = dataDir w) as Hsave1.
  { intros. etransitivity; [|exact Hd1].
    apply (saveThen_cannot_dir data a message (advance t d (after readData w))).
    exact Hc1. }
  assert (forall A (data : StorageData) (a : A) message,
            dataDir (snd (saveThen data a message (after readData w)))
            = dataDir w) as Hsave0.
  { intros. etransitivity; [|exact Hd1].
    now apply (saveThen_cannot_dir data a message (after readData w)). }
  destruct (isQuery r) eqn:Hq.
  - destruct (query_after r w Hq) as [->| ->]; congruence.
  - destruct r; try discriminate Hq; cbn [perform]; unfold after at 1;
      [ rewrite createTaskList_run | rewrite updateTaskList_run
      | rewrite deleteTaskList_run | rewrite createTask_run
      | rewrite updateTask_run | rewrite toggleTaskCompletion_run
      | rewrite deleteTask_run ];
      cbv zeta;
      repeat first
        [ exact Hd1 | apply Hsave1 | apply Hsave0
        | etransitivity;
          [ apply (saveThen_cannot_dir _ _ _
                     (advance 2 1 (after readData (after readData w)))); exact Hc2
          | exact (eq_trans Hd2 Hd1) ]
        | match goal with
          | |- context [match ?x with _ => _ end] => destruct x
          end ].
Qed.

Lemma refused_save_changes_no_file_witness :
  canWrite readOnlyBackupOnly = false
  /\ dataDir (perform (CreateTaskList (CreateTaskListDTO.mk "Work")) readOnlyBackupOnly)
     = dataDir readOnlyBackupOnly.
Proof.
  split; [reflexivity|].
  exact (refused_save_changes_no_file
           (CreateTaskList (CreateTaskListDTO.mk "Work")) readOnlyBackupOnly eq_refl).
Defined.

(** ** What the services throw *)

Lemma saveThen_Throw {A} data (a : A) message w e w' :
  saveThen data a message w = (Throw e, w') ->
  e = AppError message 500 /\ canWrite w = false.
Proof.
  destruct (canWrite w) eqn:Hc.
  - rewrite (saveThen_canWrite _ _ _ _ Hc). discriminate.
  - destruct (saveThen_cannot data a message w Hc) as (w2 & -> & _).
    intros H. injection H as <- _. now split.
Qed.

Lemma canWrite_after_readData_false w :
  canWrite (after readData w) = false -> canWrite w = false.
Proof.
  intros H. destruct (canWrite w) eqn:Hc; [|reflexivity].
  now rewrite (canWrite_after_readData w Hc) in H.
Qed.

Lemma findIndex_nth_error {A} (p : A -> bool) a i :
  JSArray.findIndex p a = Some i -> nth_error a i <> None.
Proof.
  intros H. apply findIndex_Some in H as (x & Hx & _). now rewrite Hx.
Qed.

Lemma thrown_cases r w e :
  thrown r w = Some e ->
  exists message,
    e = AppError message 404
    \/ (e = AppError message 409 /\ isQuery r = false)
    \/ (e = AppError message 500 /\ isQuery r = false /\ canWrite w = false).
Proof.
  destruct r; cbn [thrown isQuery]; unfold thrownBy;
    [ rewrite getAllTaskLists_run | rewrite getTaskListById_run
    | rewrite createTaskList_run | rewrite updateTaskList_run
    | rewrite deleteTaskList_run | rewrite taskListExists_run
    | rewrite getTaskListStats_run | rewrite getTasksByListId_run
    | rewrite getTaskById_run | rewrite createTask_run
    | rewrite updateTask_run | rewrite toggleTaskCompletion_run
    | rewrite deleteTask_run | rewrite getAllTasks_run
    | rewrite searchTasks_run | rewrite getTaskStats_run ];
    cbv zeta;
    repeat match goal with
      | |- context [match ?x with _ => _ end] =>
          lazymatch x with
          | context [match _ with _ => _ end] => fail
          | _ => destruct x eqn:?
          end
      end;
    intros H; try discriminate H; injection H as <-;
    repeat match goal with
      | H : JSArray.findIndex _ _ = Some _, H' : nth_error _ _ = None |- _ =>
          now destruct (findIndex_nth_error _ _ _ H)
      | H : saveThen _ _ _ _ = (Throw _, _) |- _ =>
          apply saveThen_Throw in H as [-> H]
      | H : canWrite (advance _ _ ?w) = false |- _ =>
          change (canWrite w = false) in H
      | H : canWrite (after readData _) = false |- _ =>
          apply canWrite_after_readData_false in H
      end;
    eexists; first [ left; reflexivity
                   | right; left; split; reflexivity
                   | right; right; repeat split; trivial; fail ].
Qed.

(** X5. Whatever a service throws is an [AppError] with the status 404, 409 or
    500: 409 comes only from a request that changes something, and 500 only
    from such a request whose save the file system refuses. *)
Theorem services_throw_404_409_or_refused_save r w e :
  thrown r w = Some e ->
  exists message,
    e = AppError message 404
    \/ (e = AppError message 409 /\ isQuery r = false)
    \/ (e = AppError message 500 /\ isQuery r = false /\ canWrite w = false).
Proof. exact (thrown_cases r w e). Qed.

Lemma services_throw_404_409_or_refused_save_witness :
  exists message,
    AppError "Task list not found" 404 = AppError message 404
    \/ (AppError "Task list not found" 404 = AppError message 409
        /\ isQuery (GetTasksByListId "z") = false)
    \/ (AppError "Task list not found" 404 = AppError message 500
        /\ isQuery (GetTasksByListId "z") = false /\ canWrite groceries = false).
Proof.
  apply (services_throw_404_409_or_refused_save (GetTasksByListId "z") groceries).
  vm_compute. reflexivity.
Defined.

(** ** Listings and lookups *)

Lemma newestFirst_total a b : newestFirst a b <= 0 \/ newestFirst b a <= 0.
Proof. unfold newestFirst. lia. Qed.

Lemma newestFirst_trans a b c :
  newestFirst a b <= 0 -> newestFirst b c <= 0 -> newestFirst a c <= 0.
Proof. unfold newestFirst. lia. Qed.

Lemma sort_newestFirst_order a : newestFirstOrder (JSArray.sort newestFirst a).
Proof.
  intros i j x y Hij Hx Hy.
  pose proof (sort_sorted newestFirst newestFirst_total newestFirst_trans a) as Hs.
  pose proof (StronglySorted_nth_error _ _ Hs i j x y Hij Hx Hy) as H.
  unfold newestFirst in H. lia.
Qed.

Lemma insert_newestFirst_stable instant x a :
  createdAtInstant instant (JSArray.insert newestFirst x a)
  = createdAtInstant instant (x :: a).
Proof.
  unfold createdAtInstant. induction a as [|y a IH]; [reflexivity|].
  cbn [JSArray.insert]. destruct (Z.leb_spec (newestFirst x y) 0) as [H|H];
    [reflexivity|].
  cbn [filter] in *. rewrite IH. unfold newestFirst in H.
  destruct (Z.eqb_spec (Task.createdAt x) instant) as [Hx|Hx]; [|reflexivity].
  destruct (Z.eqb_spec (Task.createdAt y) instant) as [Hy|Hy]; [lia | reflexivity].
Qed.

Lemma sort_newestFirst_stable instant a :
  createdAtInstant instant (JSArray.sort newestFirst a) = createdAtInstant instant a.
Proof.
  induction a as [|x a IH]; [reflexivity|].
  change (JSArray.sort newestFirst (x :: a))
    with (JSArray.insert newestFirst x (JSArray.sort newestFirst a)).
  rewrite insert_newestFirst_stable. unfold createdAtInstant in *.
  cbn [filter]. now rewrite IH.
Qed.

(** X6. [getAllTasks] returns every stored task once, a newer task before an
    older one, and tasks created at the same instant in their stored order.
    [getTasksByListId] throws "Task list not found" (404) for a list that is
    not stored; for a stored list it returns exactly the stored tasks of the
    list, in that same order. *)
Theorem listings_are_newest_first listId w :
  (exists result,
     getAllTasks w = (Return result, after readData w)
     /\ Permutation result (tasks (loaded w))
     /\ newestFirstOrder result
     /\ forall instant,
          createdAtInstant instant result
          = createdAtInstant instant (tasks (loaded w)))
  /\ if hasList listId (loaded w) then
       exists result w',
         getTasksByListId listId w = (Return result, w')
         /\ Permutation result (tasksOf listId (loaded w))
         /\ (forall task,
               In task result <->
               In task (tasks (loaded w)) /\ Task.listId task = listId)
         /\ newestFirstOrder result
         /\ forall instant,
              createdAtInstant instant result
              = createdAtInstant instant (tasksOf listId (loaded w))
     else
       getTasksByListId listId w
       = (Throw (AppError "Task list not found" 404), after readData w).
Proof.
  split.
  - eexists. split; [apply getAllTasks_run|].
    split; [apply sort_Permutation|].
    split; [apply sort_newestFirst_order|].
    intros instant. apply sort_newestFirst_stable.
  - rewrite getTasksByListId_run. destruct (hasList _ _); [|reflexivity].
    do 2 eexists. split; [reflexivity|].
    split; [apply sort_Permutation|].
    split; [|split; [apply sort_newestFirst_order|]].
    + intros task. unfold tasksOf.
      rewrite <- (String.eqb_eq (Task.listId task) listId).
      rewrite <- (filter_In (fun task => String.eqb (Task.listId task) listId)).
      split; apply Permutation_in;
        [apply sort_Permutation | symmetry; apply sort_Permutation].
    + intros instant. apply sort_newestFirst_stable.
Qed.

Lemma find_firstWith {A} (p : A -> bool) a x :
  find p a = Some x -> exists i, firstWith p a i /\ nth_error a i = Some x.
Proof.
  induction a as [|y a IH]; [discriminate|]. cbn [find].
  destruct (p y) eqn:Hy.
  - intros H. injection H as <-. exists O. split; [|reflexivity].
    exists y. repeat split; trivial. intros j z Hj. lia.
  - intros H. destruct (IH H) as (i & (z & Hz & Hp & Hlt) & Hi).
    exists (S i). split; [|exact Hi]. exists z. repeat split; trivial.
    intros [|j] t Hj Ht; cbn in Ht.
    + now injection Ht as <-.
    + apply (Hlt j); [lia | exact Ht].
Qed.

(** X7. A lookup by identifier returns the first stored record with the
    identifier, in the order of [getAllTaskLists] for a list, and null
    exactly when no stored record has it; [taskListExists] tells whether the
    lookup of the list finds one. *)
Theorem lookups_return_the_first_with_the_id id w :
  (exists all found,
     getAllTaskLists w = (Return all, after readData w)
     /\ getTaskListById id w = (Return found, after readData w)
     /\ taskListExists id w
        = (Return match found with Some _ => true | None => false end,
           after readData w)
     /\ match found with
        | Some list =>
            exists i,
              firstWith (fun list => String.eqb (TaskList.id list) id) all i
              /\ nth_error all i = Some list /\ TaskList.id list = id
        | None => forall list, In list all -> TaskList.id list <> id
        end)
  /\ (exists found,
        getTaskById id w = (Return found, after readData w)
        /\ match found with
           | Some task =>
               exists i,
                 firstWith (fun task => String.eqb (Task.id task) id)
                   (tasks (loaded w)) i
                 /\ nth_error (tasks (loaded w)) i = Some task
                 /\ Task.id task = id
           | None => forall task, In task (tasks (loaded w)) -> Task.id task <> id
           end).
Proof.
  split.
  - do 2 eexists. split; [apply getAllTaskLists_run|].
    split; [apply getTaskListById_run|]. split; [apply taskListExists_run|].
    destruct (find _ _) as [list|] eqn:Hf.
    + destruct (find_firstWith _ _ _ Hf) as (i & Hi & Hn). exists i.
      repeat split; trivial. apply find_some in Hf as [_ He].
      now apply String.eqb_eq.
    + intros list Hin. apply String.eqb_neq. exact (find_none _ _ Hf list Hin).
  - eexists. split; [apply getTaskById_run|].
    destruct (find _ _) as [task|] eqn:Hf.
    + destruct (find_firstWith _ _ _ Hf) as (i & Hi & Hn). exists i.
      repeat split; trivial. apply find_some in Hf as [_ He].
      now apply String.eqb_eq.
    + intros task Hin. apply String.eqb_neq. exact (find_none _ _ Hf task Hin).
Qed.

(** ** Creating, then looking up *)

Lemma after_readData_oracles w :
  uuids (after readData w) = uuids w /\ drawn (after readData w) = drawn w
  /\ clock (after readData w) = clock w /\ readOnly (after readData w) = readOnly w.
Proof.
  unfold after. destruct (readData w) as [r w'] eqn:H.
  apply readData_frame in H as (? & ? & ? & ? & _). now repeat split.
Qed.

Lemma countIf_app {A} (p : A -> bool) a b :
  countIf p (a ++ b)%list = countIf p a + countIf p b.
Proof. induction a as [|x a IH]; cbn [countIf app]; [reflexivity | lia]. Qed.

Lemma find_push {A} (p : A -> bool) a y :
  (forall x, In x a -> p x = false) -> p y = true ->
  find p (JSArray.push a y) = Some y.
Proof.
  unfold JSArray.push. intros Ha Hy. induction a as [|x a IH]; cbn.
  - now rewrite Hy.
  - rewrite (Ha x (or_introl eq_refl)). apply IH. intros z Hz. apply Ha. now right.
Qed.

Lemma id_neq_eqb {A} (key : A -> string) (a : list A) id :
  (forall x, In x a -> key x <> id) ->
  forall x, In x a -> String.eqb (key x) id = false.
Proof. intros H x Hx. apply String.eqb_neq. auto. Qed.

Lemma hasList_after_save w lists tasks0 meta id :
  hasList id (loaded (afterWrite w (mkStorageData lists tasks0 meta)))
  = existsb (fun list => String.eqb (TaskList.id list) id) lists.
Proof. now rewrite loaded_afterWrite. Qed.

(** X8. A task created in a stored list, on a file system that takes the save
    and with an identifier no stored task has: the task has the trimmed
    title and time, is not completed and is stored after the tasks of
    before, with the lists as they were; [getTaskById] then returns it,
    [getTasksByListId] of its list contains it, and the task counts of
    [getTaskStats] are those of before with one more pending task. *)
Theorem createTask_then_lookup createData w :
  hasList (CreateTaskDTO.listId createData) (loaded w) = true ->
  canWrite w = true ->
  (forall task, In task (tasks (loaded w)) -> Task.id task <> uuids w (drawn w)) ->
  exists created w',
    createTask createData w = (Return created, w')
    /\ Task.id created = uuids w (drawn w)
    /\ Task.title created = JSString.trim (CreateTaskDTO.title createData)
    /\ Task.time created = option_map JSString.trim (CreateTaskDTO.time createData)
    /\ Task.completed created = false
    /\ Task.listId created = CreateTaskDTO.listId createData
    /\ taskLists (loaded w') = taskLists (loaded w)
    /\ tasks (loaded w') = (tasks (loaded w) ++ [created])%list
    /\ drawn w' = S (drawn w)
    /\ getTaskById (Task.id created) w' = (Return (Some created), w')
    /\ (exists result,
          getTasksByListId (CreateTaskDTO.listId createData) w' = (Return result, w')
          /\ In created result)
    /\ (exists s s' w1,
          getTaskStats None w = (Return s, w1)
          /\ getTaskStats None w' = (Return s', w')
          /\ totalTasks s' = totalTasks s + 1
          /\ completedTasks s' = completedTasks s
          /\ pendingTasks s' = pendingTasks s + 1).
Proof.
  intros Hl Hc Hfresh. rewrite createTask_run, Hl. cbv zeta.
  destruct (loaded_after_readData w) as [Hlists Htasks].
  destruct (after_readData_oracles w) as (Hu1 & Hd1 & _).
  destruct (after_readData_oracles (after readData w)) as (Hu2 & Hd2 & _).
  rewrite Hlists, Htasks, Hu2, Hu1, Hd2, Hd1.
  set (w2 := after readData (after readData w)).
  assert (canWrite (advance 2 1 w2) = true) as Hc2
    by exact (canWrite_after_readData _ (canWrite_after_readData _ Hc)).
  rewrite (saveThen_canWrite _ _ _ _ Hc2).
  set (created := Task.mk _ _ _ _ _ _ _).
  set (w' := afterWrite _ _).
  assert (tasks (loaded w') = JSArray.push (tasks (loaded w)) created) as Ht'
    by (unfold w'; now rewrite loaded_afterWrite).
  assert (taskLists (loaded w') = taskLists (loaded w)) as Hl'
    by (unfold w'; now rewrite loaded_afterWrite).
  assert (after readData w' = w') as Hw' by apply after_readData_afterWrite.
  exists created, w'. repeat (split; [reflexivity|]).
  split; [exact Hl'|]. split; [exact Ht'|].
  split; [unfold w'; cbn [afterWrite drawn advance]; fold w2;
          unfold w2; now rewrite Hd2, Hd1|].
  split; [|split].
  - rewrite getTaskById_run, Hw', Ht'. f_equal. f_equal.
    apply find_push; [|apply String.eqb_refl].
    now apply (id_neq_eqb Task.id).
  - rewrite getTasksByListId_run, Hw', Hw'.
    unfold hasList in *. rewrite Hl', Hl. eexists. split; [reflexivity|].
    eapply Permutation_in; [symmetry; apply sort_Permutation|].
    unfold tasksOf. apply filter_In. rewrite Ht'. split.
    + apply in_or_app. right. now left.
    + apply String.eqb_refl.
  - do 3 eexists. rewrite !getTaskStats_run, Hw'.
    split; [reflexivity|]. split; [reflexivity|].
    destruct (computeStats_counts (tasks (loaded w))) as (T & C & P & _).
    destruct (computeStats_counts (tasks (loaded w'))) as (T' & C' & P' & _).
    rewrite P', P, T', C', T, C, Ht'. unfold JSArray.push, JSArray.length.
    rewrite length_app. cbn [List.length].
    rewrite countIf_app. cbn [countIf].
    change (Task.completed created) with false. lia.
Qed.

Lemma createTask_then_lookup_witness :
  exists created w',
    createTask (CreateTaskDTO.mk " Eggs " (Some " 6 pm ") "a") groceries
    = (Return created, w')
    /\ Task.id created = "d"
    /\ Task.title created = "Eggs"
    /\ Task.time created = Some "6 pm"
    /\ Task.completed created = false
    /\ Task.listId created = "a"
    /\ taskLists (loaded w') = taskLists (loaded groceries)
    /\ tasks (loaded w') = (tasks (loaded groceries) ++ [created])%list
    /\ drawn w' = 4%nat
    /\ getTaskById (Task.id created) w' = (Return (Some created), w')
    /\ (exists result,
          getTasksByListId "a" w' = (Return result, w') /\ In created result)
    /\ (exists s s' w1,
          getTaskStats None groceries = (Return s, w1)
          /\ getTaskStats None w' = (Return s', w')
          /\ totalTasks s' = totalTasks s + 1
          /\ completedTasks s' = completedTasks s
          /\ pendingTasks s' = pendingTasks s + 1).
Proof.
  apply (createTask_then_lookup (CreateTaskDTO.mk " Eggs " (Some " 6 pm ") "a")
           groceries).
  - vm_compute. reflexivity.
  - vm_compute. reflexivity.
  - apply absent_id. vm_compute. reflexivity.
Defined.

(** ** Toggling *)

Lemma firstWith_lt {A} (p : A -> bool) a i :
  firstWith p a i -> (i < List.length a)%nat.
Proof.
  intros (x & Hx & _). apply nth_error_Some. now rewrite Hx.
Qed.

Lemma firstWith_assign {A} (p : A -> bool) a i x :
  firstWith p a i -> p x = true -> firstWith p (JSArray.assign i x a) i.
Proof.
  intros Hi Hx. pose proof (firstWith_lt _ _ _ Hi) as Hlt.
  destruct Hi as (y & _ & _ & Hbefore). exists x.
  split; [now rewrite nth_error_assign, Nat.eqb_refl|]. split; [exact Hx|].
  intros j z Hj. rewrite nth_error_assign by exact Hlt.
  destruct (Nat.eqb_spec j i); [lia|]. now apply Hbefore.
Qed.

Lemma assign_assign {A} i (x y : A) a :
  (i < List.length a)%nat ->
  JSArray.assign i y (JSArray.assign i x a) = JSArray.assign i y a.
Proof.
  unfold JSArray.assign. revert i.
  induction a as [|z a IH]; intros [|i] Hi; cbn in Hi |- *;
    try lia; try reflexivity.
  f_equal. apply IH. lia.
Qed.

(** X9. Toggling a stored task, on a file system that takes the saves, flips
    [completed], stamps [updatedAt] and changes nothing else, in the task or
    in the store; it is the update that sets [completed] to the opposite
    value; and toggling again gives back the completion state, with every
    other task and list still as it was. *)
Theorem toggleTaskCompletion_flips_and_restores w id i :
  firstWith (fun task => String.eqb (Task.id task) id) (tasks (loaded w)) i ->
  canWrite w = true ->
  exists cur toggled w1 restored w2,
    nth_error (tasks (loaded w)) i = Some cur
    /\ toggleTaskCompletion id w = (Return (Some toggled), w1)
    /\ toggled
       = Task.mk (Task.id cur) (Task.title cur) (Task.time cur)
           (negb (Task.completed cur)) (Task.listId cur) (Task.createdAt cur)
           (clock (after readData w) (ticks (after readData w)))
    /\ tasks (loaded w1) = JSArray.assign i toggled (tasks (loaded w))
    /\ taskLists (loaded w1) = taskLists (loaded w)
    /\ updateTask id
         (UpdateTaskDTO.mk None None (Some (negb (Task.completed cur)))) w
       = (Return (Some toggled), w1)
    /\ toggleTaskCompletion id w1 = (Return (Some restored), w2)
    /\ restored
       = Task.mk (Task.id cur) (Task.title cur) (Task.time cur)
           (Task.completed cur) (Task.listId cur) (Task.createdAt cur)
           (clock w1 (ticks w1))
    /\ tasks (loaded w2) = JSArray.assign i restored (tasks (loaded w))
    /\ taskLists (loaded w2) = taskLists (loaded w).
Proof.
  intros Hi Hc.
  pose proof (firstWith_findIndex _ _ _ Hi) as Hfi.
  pose proof Hi as (cur & Hcur & Hid & _).
  set (toggled := Task.mk (Task.id cur) (Task.title cur) (Task.time cur)
                    (negb (Task.completed cur)) (Task.listId cur)
                    (Task.createdAt cur)
                    (clock (after readData w) (ticks (after readData w)))).
  assert (canWrite (advance 1 0 (after readData w)) = true) as Hc1
    by exact (canWrite_after_readData _ Hc).
  set (w1 := afterWrite (advance 1 0 (after readData w))
               (mkStorageData (taskLists (loaded w))
                  (JSArray.assign i toggled (tasks (loaded w)))
                  (metadata (loaded w)))).
  assert (toggleTaskCompletion id w = (Return (Some toggled), w1)) as Htoggle.
  { rewrite toggleTaskCompletion_run, Hfi. cbv zeta. rewrite Hcur.
    now rewrite (saveThen_canWrite _ _ _ _ Hc1). }
  assert (tasks (loaded w1) = JSArray.assign i toggled (tasks (loaded w))) as Ht1
    by (unfold w1; now rewrite loaded_afterWrite).
  assert (taskLists (loaded w1) = taskLists (loaded w)) as Hl1
    by (unfold w1; now rewrite loaded_afterWrite).
  assert (after readData w1 = w1) as Hw1 by apply after_readData_afterWrite.
  assert (canWrite w1 = true) as Hcw1 by (apply canWrite_afterWrite, Hc1).
  assert (firstWith (fun task => String.eqb (Task.id task) id) (tasks (loaded w1)) i)
    as Hi1 by (rewrite Ht1; now apply firstWith_assign).
  exists cur, toggled, w1. do 2 eexists.
  split; [exact Hcur|]. split; [exact Htoggle|]. split; [reflexivity|].
  split; [exact Ht1|]. split; [exact Hl1|]. split; [|split; [|split; [reflexivity|]]].
  - rewrite updateTask_run, Hfi. cbv zeta. rewrite Hcur.
    cbn [UpdateTaskDTO.title UpdateTaskDTO.time UpdateTaskDTO.completed].
    now rewrite (saveThen_canWrite _ _ _ _ Hc1).
  - rewrite toggleTaskCompletion_run, (firstWith_findIndex _ _ _ Hi1). cbv zeta.
    rewrite Hw1, Ht1, nth_error_assign, Nat.eqb_refl
      by (eapply firstWith_lt; exact Hi).
    cbn [Task.id Task.title Task.time Task.completed Task.listId Task.createdAt
         toggled].
    rewrite negb_involutive, assign_assign by (eapply firstWith_lt; exact Hi).
    rewrite saveThen_canWrite by exact Hcw1. reflexivity.
  - rewrite !loaded_afterWrite. cbn [stamped tasks taskLists].
    split; [reflexivity | exact Hl1].
Qed.

Lemma toggleTaskCompletion_flips_and_restores_witness :
  exists cur toggled w1 restored w2,
    nth_error (tasks (loaded chores)) 1 = Some cur
    /\ toggleTaskCompletion "c" chores = (Return (Some toggled), w1)
    /\ toggled
       = Task.mk (Task.id cur) (Task.title cur) (Task.time cur)
           (negb (Task.completed cur)) (Task.listId cur) (Task.createdAt cur)
           (clock (after readData chores) (ticks (after readData chores)))
    /\ tasks (loaded w1) = JSArray.assign 1 toggled (tasks (loaded chores))
    /\ taskLists (loaded w1) = taskLists (loaded chores)
    /\ updateTask "c"
         (UpdateTaskDTO.mk None None (Some (negb (Task.completed cur)))) chores
       = (Return (Some toggled), w1)
    /\ toggleTaskCompletion "c" w1 = (Return (Some restored), w2)
    /\ restored
       = Task.mk (Task.id cur) (Task.title cur) (Task.time cur)
           (Task.completed cur) (Task.listId cur) (Task.createdAt cur)
           (clock w1 (ticks w1))
    /\ tasks (loaded w2) = JSArray.assign 1 restored (tasks (loaded chores))
    /\ taskLists (loaded w2) = taskLists (loaded chores).
Proof.
  apply (toggleTaskCompletion_flips_and_restores chores "c" 1).
  - apply findIndex_Some. vm_compute. reflexivity.
  - vm_compute. reflexivity.
Defined.

(** ** A new list *)

Lemma find_forall_None {A} (p : A -> bool) a :
  (forall x, In x a -> p x = false) -> find p a = None.
Proof.
  intros H. destruct (find p a) as [x|] eqn:Hf; [|reflexivity].
  apply find_some in Hf as [Hin Hp]. now rewrite (H x Hin) in Hp.
Qed.

Lemma filter_forall_nil {A} (p : A -> bool) a :
  (forall x, In x a -> p x = false) -> filter p a = [].
Proof.
  intros H. induction a as [|x a IH]; [reflexivity|]. cbn.
  rewrite (H x (or_introl eq_refl)). apply IH. intros y Hy. apply H. now right.
Qed.

(** X10. A list created under a name no stored list has, on a file system that
    takes the save, with an identifier no stored list has and a store with
    referential integrity: the list is stored last, under the trimmed name;
    the lookups find it; and it starts empty, [getTasksByListId] returning
    no task and [getTaskListStats] zero for every count and for the rate. *)
Theorem createTaskList_then_lookup name w :
  canWrite w = true ->
  intact (loaded w) = true ->
  (forall list, In list (taskLists (loaded w)) ->
     JSString.toLowerCase (TaskList.name list) <> JSString.toLowerCase name) ->
  (forall list, In list (taskLists (loaded w)) ->
     TaskList.id list <> uuids w (drawn w)) ->
  exists created w',
    createTaskList (CreateTaskListDTO.mk name) w = (Return created, w')
    /\ TaskList.id created = uuids w (drawn w)
    /\ TaskList.name created = JSString.trim name
    /\ tasks (loaded w') = tasks (loaded w)
    /\ getAllTaskLists w' = (Return (taskLists (loaded w) ++ [created])%list, w')
    /\ getTaskListById (TaskList.id created) w' = (Return (Some created), w')
    /\ taskListExists (TaskList.id created) w' = (Return true, w')
    /\ getTasksByListId (TaskList.id created) w' = (Return [], w')
    /\ exists s,
         getTaskListStats (TaskList.id created) w' = (Return (Some s), w')
         /\ totalTasks s = 0 /\ completedTasks s = 0 /\ pendingTasks s = 0
         /\ (completionRate s == 0)%Q.
Proof.
  intros Hc Hintact Hname Hfresh.
  destruct (after_readData_oracles w) as (Hu1 & Hd1 & _).
  assert (forall task, In task (tasks (loaded w)) ->
            String.eqb (Task.listId task) (uuids w (drawn w)) = false) as Hnone.
  { intros task Ht. apply String.eqb_neq. intros He.
    destruct (proj1 (intact_spec _) Hintact task Ht) as (list & Hl & Hid).
    apply (Hfresh list Hl). congruence. }
  rewrite createTaskList_run. cbn [CreateTaskListDTO.name].
  rewrite find_forall_None
    by (intros list Hl; apply String.eqb_neq; now apply Hname).
  cbv zeta. rewrite Hu1, Hd1.
  assert (canWrite (advance 2 1 (after readData w)) = true) as Hc1
    by exact (canWrite_after_readData _ Hc).
  rewrite (saveThen_canWrite _ _ _ _ Hc1).
  set (created := TaskList.mk _ _ _ _). set (w' := afterWrite _ _).
  assert (tasks (loaded w') = tasks (loaded w)) as Ht'
    by (unfold w'; now rewrite loaded_afterWrite).
  assert (taskLists (loaded w') = JSArray.push (taskLists (loaded w)) created)
    as Hl' by (unfold w'; now rewrite loaded_afterWrite).
  assert (after readData w' = w') as Hw' by apply after_readData_afterWrite.
  assert (find (fun list => String.eqb (TaskList.id list) (TaskList.id created))
            (taskLists (loaded w')) = Some created) as Hfind.
  { rewrite Hl'. apply find_push; [|apply String.eqb_refl].
    now apply (id_neq_eqb TaskList.id). }
  exists created, w'. repeat (split; [reflexivity|]). split; [exact Ht'|].
  split; [now rewrite getAllTaskLists_run, Hw', Hl'|].
  split; [now rewrite getTaskListById_run, Hw', Hfind|].
  split; [now rewrite taskListExists_run, Hw', Hfind|].
  split.
  - rewrite getTasksByListId_run, Hw', Hw'. unfold hasList, tasksOf.
    rewrite (find_existsb _ _ _ Hfind), Ht'.
    change (TaskList.id created) with (uuids w (drawn w)).
    now rewrite (filter_forall_nil _ _ Hnone).
  - eexists. rewrite getTaskListStats_run, Hw', Hfind, Ht'.
    change (TaskList.id created) with (uuids w (drawn w)).
    rewrite (filter_forall_nil _ _ Hnone). now repeat split.
Qed.

Lemma createTaskList_then_lookup_witness :
  exists created w',
    createTaskList (CreateTaskListDTO.mk " Work ") groceries = (Return created, w')
    /\ TaskList.id created = "d"
    /\ TaskList.name created = "Work"
    /\ tasks (loaded w') = tasks (loaded groceries)
    /\ getAllTaskLists w'
       = (Return (taskLists (loaded groceries) ++ [created])%list, w')
    /\ getTaskListById (TaskList.id created) w' = (Return (Some created), w')
    /\ taskListExists (TaskList.id created) w' = (Return true, w')
    /\ getTasksByListId (TaskList.id created) w' = (Return [], w')
    /\ exists s,
         getTaskListStats (TaskList.id created) w' = (Return (Some s), w')
         /\ totalTasks s = 0 /\ completedTasks s = 0 /\ pendingTasks s = 0
         /\ (completionRate s == 0)%Q.
Proof.
  apply (createTaskList_then_lookup " Work " groceries).
  - vm_compute. reflexivity.
  - vm_compute. reflexivity.
  - apply (absent_id (fun list => JSString.toLowerCase (TaskList.name list))).
    vm_compute. reflexivity.
  - apply absent_id. vm_compute. reflexivity.
Defined.

(** ** Deleting, then looking up *)

Lemma nth_error_firstn_skipn {A} (a : list A) i x :
  nth_error a i = Some x -> a = (firstn i a ++ x :: skipn (S i) a)%list.
Proof.
  revert i. induction a as [|y a IH]; intros [|i] H; cbn in H; try discriminate.
  - now injection H as <-.
  - cbn. f_equal. now apply IH.
Qed.

Lemma NoDup_splice1 {A} (key : A -> string) (a : list A) i x :
  NoDup (map key a) -> nth_error a i = Some x ->
  forall y, In y (JSArray.splice1 i a) -> key y <> key x.
Proof.
  intros Hn Hx y Hy He. rewrite (nth_error_firstn_skipn a i x Hx) in Hn.
  rewrite map_app in Hn. cbn [map] in Hn. apply NoDup_remove_2 in Hn.
  apply Hn. rewrite <- map_app, <- He. now apply in_map.
Qed.

Lemma find_splice1_other {A} (q : A -> bool) (a : list A) i x :
  nth_error a i = Some x -> q x = false ->
  find q (JSArray.splice1 i a) = find q a.
Proof.
  unfold JSArray.splice1. revert i.
  induction a as [|y a IH]; intros [|i] H Hq; cbn in H; try discriminate.
  - injection H as ->. cbn. now rewrite Hq.
  - cbn. destruct (q y); [reflexivity|]. now apply IH.
Qed.

Lemma countIf_splice1 {A} (p : A -> bool) (a : list A) i x :
  nth_error a i = Some x ->
  countIf p (JSArray.splice1 i a) = countIf p a - (if p x then 1 else 0).
Proof.
  unfold JSArray.splice1. revert i.
  induction a as [|y a IH]; intros [|i] H; cbn in H; try discriminate.
  - injection H as ->. cbn. lia.
  - change (skipn (S (S i)) (y :: a)) with (skipn (S i) a).
    cbn [firstn app countIf]. rewrite (IH i H). lia.
Qed.

Lemma countIf_true {A} (a : list A) : countIf (fun _ => true) a = JSArray.length a.
Proof.
  unfold JSArray.length. induction a as [|x a IH]; cbn [countIf List.length]; lia.
Qed.

Lemma countIf_negb {A} (p : A -> bool) (a : list A) :
  countIf (fun x => negb (p x)) a = JSArray.length a - countIf p a.
Proof.
  unfold JSArray.length. induction a as [|x a IH]; cbn [countIf List.length];
    [reflexivity|]. destruct (p x); cbn [negb]; lia.
Qed.

(** X11. After a list is deleted, on a file system that takes the save and in a
    store where no two lists share an identifier, the list is gone for every
    service: [taskListExists] is false, [getTaskListById] null,
    [getTasksByListId] and [createTask] throw "Task list not found" (404), a
    second [deleteTaskList] returns false; the other lists are looked up as
    before; no stored task refers to the list; and the total of
    [getTaskStats] has dropped by the number of tasks the list had. *)
Theorem deleteTaskList_then_lookups w id i :
  firstWith (fun list => String.eqb (TaskList.id list) id) (taskLists (loaded w)) i ->
  canWrite w = true ->
  NoDup (map TaskList.id (taskLists (loaded w))) ->
  exists w2,
    deleteTaskList id w = (Return true, w2)
    /\ taskListExists id w2 = (Return false, w2)
    /\ getTaskListById id w2 = (Return None, w2)
    /\ getTasksByListId id w2 = (Throw (AppError "Task list not found" 404), w2)
    /\ (forall title time,
          createTask (CreateTaskDTO.mk title time id) w2
          = (Throw (AppError "Task list not found" 404), w2))
    /\ deleteTaskList id w2 = (Return false, w2)
    /\ (forall other, other <> id ->
          getTaskListById other w2 = (fst (getTaskListById other w), w2))
    /\ (forall task, In task (tasks (loaded w2)) -> Task.listId task <> id)
    /\ (exists s s' w1,
          getTaskStats None w = (Return s, w1)
          /\ getTaskStats None w2 = (Return s', w2)
          /\ totalTasks s' =
               totalTasks s
               - countIf (fun task => String.eqb (Task.listId task) id)
                   (tasks (loaded w))).
Proof.
  intros Hi Hc Hn. pose proof (firstWith_findIndex _ _ _ Hi) as Hfi.
  destruct Hi as (cur & Hcur & Hid & _). apply String.eqb_eq in Hid.
  assert (canWrite (after readData w) = true) as Hc1
    by exact (canWrite_after_readData _ Hc).
  rewrite deleteTaskList_run, Hfi, (saveThen_canWrite _ _ _ _ Hc1).
  set (w2 := afterWrite _ _).
  assert (taskLists (loaded w2) = JSArray.splice1 i (taskLists (loaded w))) as Hl2
    by (unfold w2; now rewrite loaded_afterWrite).
  assert (tasks (loaded w2)
          = filter (fun task => negb (String.eqb (Task.listId task) id))
              (tasks (loaded w))) as Ht2
    by (unfold w2; now rewrite loaded_afterWrite).
  assert (after readData w2 = w2) as Hw2 by apply after_readData_afterWrite.
  assert (forall list, In list (taskLists (loaded w2)) -> TaskList.id list <> id)
    as Hgone.
  { rewrite Hl2, <- Hid. now apply (NoDup_splice1 TaskList.id). }
  assert (find (fun list => String.eqb (TaskList.id list) id) (taskLists (loaded w2))
          = None) as Hfind
    by (apply find_forall_None; now apply (id_neq_eqb TaskList.id)).
  assert (hasList id (loaded w2) = false) as Hhas.
  { unfold hasList. destruct (existsb _ _) eqn:He; [|reflexivity].
    apply existsb_exists in He as (list & Hin & He).
    apply String.eqb_eq in He. now destruct (Hgone list Hin). }
  exists w2. split; [reflexivity|].
  split; [now rewrite taskListExists_run, Hw2, Hfind|].
  split; [now rewrite getTaskListById_run, Hw2, Hfind|].
  split; [now rewrite getTasksByListId_run, Hw2, Hhas|].
  split; [intros title time; rewrite createTask_run, Hw2;
          cbn [CreateTaskDTO.listId]; now rewrite Hhas|].
  split; [rewrite deleteTaskList_run, Hw2;
          now rewrite (proj1 (find_findIndex _ _) Hfind)|].
  split; [|split].
  - intros other Hother. rewrite !getTaskListById_run, Hw2, Hl2. cbn [fst].
    f_equal. f_equal. apply (find_splice1_other _ _ _ cur Hcur).
    apply String.eqb_neq. congruence.
  - intros task. rewrite Ht2, filter_In. intros [_ H].
    apply negb_true_iff in H. now apply String.eqb_neq.
  - do 3 eexists. rewrite !getTaskStats_run, Hw2.
    split; [reflexivity|]. split; [reflexivity|].
    destruct (computeStats_counts (tasks (loaded w))) as (-> & _).
    destruct (computeStats_counts (tasks (loaded w2))) as (-> & _).
    rewrite Ht2, length_filter_countIf. apply countIf_negb.
Qed.

Lemma deleteTaskList_then_lookups_witness :
  exists w2,
    deleteTaskList "a" groceries = (Return true, w2)
    /\ taskListExists "a" w2 = (Return false, w2)
    /\ getTaskListById "a" w2 = (Return None, w2)
    /\ getTasksByListId "a" w2 = (Throw (AppError "Task list not found" 404), w2)
    /\ (forall title time,
          createTask (CreateTaskDTO.mk title time "a") w2
          = (Throw (AppError "Task list not found" 404), w2))
    /\ deleteTaskList "a" w2 = (Return false, w2)
    /\ (forall other, other <> "a" ->
          getTaskListById other w2 = (fst (getTaskListById other groceries), w2))
    /\ (forall task, In task (tasks (loaded w2)) -> Task.listId task <> "a")
    /\ (exists s s' w1,
          getTaskStats None groceries = (Return s, w1)
          /\ getTaskStats None w2 = (Return s', w2)
          /\ totalTasks s' =
               totalTasks s
               - countIf (fun task => String.eqb (Task.listId task) "a")
                   (tasks (loaded groceries))).
Proof.
  apply (deleteTaskList_then_lookups groceries "a" 0).
  - apply findIndex_Some. vm_compute. reflexivity.
  - vm_compute. reflexivity.
  - replace (map TaskList.id (taskLists (loaded groceries))) with ["a"]
      by (vm_compute; reflexivity).
    constructor; [intros [] | constructor].
Defined.

(** X12. After a task is deleted, on a file system that takes the save and in a
    store where no two tasks share an identifier, the task is gone:
    [getTaskById] returns null, and [updateTask], [toggleTaskCompletion] and
    a second [deleteTask] find nothing; every other task is looked up as
    before, the lists are as they were, and the counts of [getTaskStats]
    have dropped by the task. *)
Theorem deleteTask_then_lookups w id i :
  firstWith (fun task => String.eqb (Task.id task) id) (tasks (loaded w)) i ->
  canWrite w = true ->
  NoDup (map Task.id (tasks (loaded w))) ->
  exists removed w2,
    nth_error (tasks (loaded w)) i = Some removed
    /\ deleteTask id w = (Return true, w2)
    /\ taskLists (loaded w2) = taskLists (loaded w)
    /\ getTaskById id w2 = (Return None, w2)
    /\ (forall updateData, updateTask id updateData w2 = (Return None, w2))
    /\ toggleTaskCompletion id w2 = (Return None, w2)
    /\ deleteTask id w2 = (Return false, w2)
    /\ (forall other, other <> id ->
          getTaskById other w2 = (fst (getTaskById other w), w2))
    /\ (exists s s' w1,
          getTaskStats None w = (Return s, w1)
          /\ getTaskStats None w2 = (Return s', w2)
          /\ totalTasks s' = totalTasks s - 1
          /\ completedTasks s' =
               completedTasks s - (if Task.completed removed then 1 else 0)).
Proof.
  intros Hi Hc Hn. pose proof (firstWith_findIndex _ _ _ Hi) as Hfi.
  destruct Hi as (cur & Hcur & Hid & _). apply String.eqb_eq in Hid.
  assert (canWrite (after readData w) = true) as Hc1
    by exact (canWrite_after_readData _ Hc).
  rewrite deleteTask_run, Hfi, (saveThen_canWrite _ _ _ _ Hc1).
  set (w2 := afterWrite _ _).
  assert (taskLists (loaded w2) = taskLists (loaded w)) as Hl2
    by (unfold w2; now rewrite loaded_afterWrite).
  assert (tasks (loaded w2) = JSArray.splice1 i (tasks (loaded w))) as Ht2
    by (unfold w2; now rewrite loaded_afterWrite).
  assert (after readData w2 = w2) as Hw2 by apply after_readData_afterWrite.
  assert (forall task, In task (tasks (loaded w2)) -> Task.id task <> id) as Hgone.
  { rewrite Ht2, <- Hid. now apply (NoDup_splice1 Task.id). }
  assert (JSArray.findIndex (fun task => String.eqb (Task.id task) id)
            (tasks (loaded w2)) = None) as Hnone
    by now apply (no_id_findIndex Task.id).
  exists cur, w2. split; [exact Hcur|]. split; [reflexivity|]. split; [exact Hl2|].
  split; [rewrite getTaskById_run, Hw2;
          now rewrite (proj2 (find_findIndex _ _) Hnone)|].
  split; [intros updateData; now rewrite updateTask_run, Hnone; cbv zeta;
          rewrite Hw2|].
  split; [now rewrite toggleTaskCompletion_run, Hnone; cbv zeta; rewrite Hw2|].
  split; [now rewrite deleteTask_run, Hnone, Hw2|].
  split.
  - intros other Hother. rewrite !getTaskById_run, Hw2, Ht2. cbn [fst].
    f_equal. f_equal. apply (find_splice1_other _ _ _ cur Hcur).
    apply String.eqb_neq. congruence.
  - do 3 eexists. rewrite !getTaskStats_run, Hw2.
    split; [reflexivity|]. split; [reflexivity|].
    destruct (computeStats_counts (tasks (loaded w))) as (-> & -> & _).
    destruct (computeStats_counts (tasks (loaded w2))) as (-> & -> & _).
    rewrite Ht2, <- !countIf_true, !(countIf_splice1 _ _ _ _ Hcur).
    split; reflexivity.
Qed.

Lemma deleteTask_then_lookups_witness :
  exists removed w2,
    nth_error (tasks (loaded chores)) 1 = Some removed
    /\ deleteTask "c" chores = (Return true, w2)
    /\ taskLists (loaded w2) = taskLists (loaded chores)
    /\ getTaskById "c" w2 = (Return None, w2)
    /\ (forall updateData, updateTask "c" updateData w2 = (Return None, w2))
    /\ toggleTaskCompletion "c" w2 = (Return None, w2)
    /\ deleteTask "c" w2 = (Return false, w2)
    /\ (forall other, other <> "c" ->
          getTaskById other w2 = (fst (getTaskById other chores), w2))
    /\ (exists s s' w1,
          getTaskStats None chores = (Return s, w1)
          /\ getTaskStats None w2 = (Return s', w2)
          /\ totalTasks s' = totalTasks s - 1
          /\ completedTasks s' =
               completedTasks s - (if Task.completed removed then 1 else 0)).
Proof.
  apply (deleteTask_then_lookups chores "c" 1).
  - apply findIndex_Some. vm_compute. reflexivity.
  - vm_compute. reflexivity.
  - replace (map Task.id (tasks (loaded chores))) with ["b"; "c"; "d"; "e"]
      by (vm_compute; reflexivity).
    repeat constructor; cbn; intuition discriminate.
Defined.

(** ** The scope of a search and of the statistics *)

Lemma includes_empty s : JSString.includes s EmptyString = true.
Proof. now destruct s. Qed.

Lemma toLowerCase_empty s :
  JSString.toLowerCase s = EmptyString -> s = EmptyString.
Proof. now destruct s. Qed.

Lemma filter_forall_all {A} (p : A -> bool) a :
  (forall x, In x a -> p x = true) -> filter p a = a.
Proof.
  intros H. induction a as [|x a IH]; [reflexivity|]. cbn.
  rewrite (H x (or_introl eq_refl)). f_equal. apply IH. intros y Hy. apply H.
  now right.
Qed.

Lemma insert_ext {A} (c1 c2 : A -> A -> Z) x a :
  (forall y, In y a -> c1 x y = c2 x y) ->
  JSArray.insert c1 x a = JSArray.insert c2 x a.
Proof.
  induction a as [|y a IH]; intros H; [reflexivity|]. cbn.
  rewrite (H y (or_introl eq_refl)). destruct (c2 x y <=? 0); [reflexivity|].
  f_equal. apply IH. intros z Hz. apply H. now right.
Qed.

Lemma sort_ext {A} (c1 c2 : A -> A -> Z) a :
  (forall x y, In x a -> In y a -> c1 x y = c2 x y) ->
  JSArray.sort c1 a = JSArray.sort c2 a.
Proof.
  induction a as [|x a IH]; intros H; [reflexivity|].
  change (JSArray.insert c1 x (JSArray.sort c1 a)
          = JSArray.insert c2 x (JSArray.sort c2 a)).
  rewrite IH by (intros y z Hy Hz; apply H; now right).
  apply insert_ext. intros y Hy. apply H; [now left | right].
  eapply Permutation_in; [apply sort_Permutation | exact Hy].
Qed.

Lemma blank_search_found (a : list Task.t) :
  (forall task, In task a -> Task.title task <> EmptyString) ->
  JSArray.sort (byRelevance EmptyString)
    (filter (fun task =>
               JSString.includes (JSString.toLowerCase (Task.title task))
                 EmptyString) a)
  = JSArray.sort newestFirst a.
Proof.
  intros H. rewrite filter_forall_all by (intros; apply includes_empty).
  apply sort_ext. intros x y Hx Hy. unfold byRelevance, newestFirst.
  assert (forall task, In task a ->
            String.eqb (JSString.toLowerCase (Task.title task)) EmptyString = false)
    as Hne.
  { intros task Ht. apply String.eqb_neq. intros He.
    apply (H task Ht). now apply toLowerCase_empty. }
  now rewrite (Hne x Hx), (Hne y Hy).
Qed.

(** X13. A search for a blank query, in a store where no task has an empty
    title, is the listing: of all tasks, what [getAllTasks] returns, and of
    the tasks of a stored list, what [getTasksByListId] returns. *)
Theorem blank_search_is_the_listing query id w :
  JSString.trim (JSString.toLowerCase query) = EmptyString ->
  (forall task, In task (tasks (loaded w)) -> Task.title task <> EmptyString) ->
  JSString.truthy id = true ->
  hasList id (loaded w) = true ->
  searchTasks query None w = getAllTasks w
  /\ searchTasks query (Some id) w = getTasksByListId id w.
Proof.
  intros Hq Htitles Hid Hl. split.
  - rewrite searchTasks_run, getAllTasks_run, Hq. cbn [inScope].
    now rewrite blank_search_found.
  - rewrite searchTasks_run, getTasksByListId_run, Hq, Hid, Hl.
    unfold hasList in Hl. apply existsb_exists in Hl as (list & Hin & He).
    destruct (find_id_Some id (taskLists (loaded w))) as (l & ->).
    { exists list. split; [exact Hin | now apply String.eqb_eq]. }
    unfold inScope, tasksOf. rewrite Hid. rewrite blank_search_found; [reflexivity|].
    intros task Ht. apply Htitles. now apply filter_In in Ht.
Qed.

Lemma blank_search_is_the_listing_witness :
  searchTasks "  " None groceries = getAllTasks groceries
  /\ searchTasks "  " (Some "a") groceries = getTasksByListId "a" groceries.
Proof.
  apply (blank_search_is_the_listing "  " "a" groceries).
  - vm_compute. reflexivity.
  - apply (absent_id Task.title). vm_compute. reflexivity.
  - reflexivity.
  - vm_compute. reflexivity.
Defined.

(** X14. A scope that names no stored list: [searchTasks], [getTaskStats] and
    [getTasksByListId] throw "Task list not found" (404), where
    [getTaskListStats] returns null.  An empty identifier is no scope at
    all: the search and the statistics are those of every list. *)
Theorem unknown_list_scope query id w :
  JSString.truthy id = true ->
  hasList id (loaded w) = false ->
  fst (searchTasks query (Some id) w) = Throw (AppError "Task list not found" 404)
  /\ fst (getTaskStats (Some id) w) = Throw (AppError "Task list not found" 404)
  /\ fst (getTasksByListId id w) = Throw (AppError "Task list not found" 404)
  /\ fst (getTaskListStats id w) = Return None
  /\ searchTasks query (Some EmptyString) w = searchTasks query None w
  /\ getTaskStats (Some EmptyString) w = getTaskStats None w.
Proof.
  intros Hid Hl.
  assert (find (fun list => String.eqb (TaskList.id list) id) (taskLists (loaded w))
          = None) as Hf.
  { destruct (find _ _) as [l|] eqn:Hf; [|reflexivity].
    apply find_existsb in Hf. unfold hasList in Hl. congruence. }
  rewrite !searchTasks_run, !getTaskStats_run, getTasksByListId_run,
    getTaskListStats_run, Hid, Hl, Hf.
  now repeat split.
Qed.

Lemma unknown_list_scope_witness :
  fst (searchTasks "milk" (Some "z") groceries)
  = Throw (AppError "Task list not found" 404)
  /\ fst (getTaskStats (Some "z") groceries)
     = Throw (AppError "Task list not found" 404)
  /\ fst (getTasksByListId "z" groceries)
     = Throw (AppError "Task list not found" 404)
  /\ fst (getTaskListStats "z" groceries) = Return None
  /\ searchTasks "milk" (Some EmptyString) groceries
     = searchTasks "milk" None groceries
  /\ getTaskStats (Some EmptyString) groceries = getTaskStats None groceries.
Proof.
  apply (unknown_list_scope "milk" "z" groceries).
  - reflexivity.
  - vm_compute. reflexivity.
Defined.

(** * The validators *)

Lemma validateRequiredString_valid value fieldName :
  isValid (validateRequiredString value fieldName) = true <-> requiredString value.
Proof.
  unfold validateRequiredString, requiredString, acceptableString.
  destruct value as [| |b|x|s|items|properties];
    try (split; [discriminate | intros (s' & H & _); discriminate]).
  destruct (Nat.eqb_spec (String.length (JSString.trim s)) 0) as [H0|H0].
  - split; [discriminate|]. intros (s' & H & Ht & _). injection H as <-.
    destruct (JSString.trim s); [now destruct Ht | discriminate].
  - destruct (Nat.ltb_spec 255 (String.length s)) as [Hl|Hl].
    + split; [discriminate|]. intros (s' & H & _ & Hs). injection H as <-. lia.
    + split; [|reflexivity]. intros _. exists s. repeat split; trivial.
      intros He. now rewrite He in H0.
Qed.

Lemma validateRequiredString_explained value fieldName :
  explained (validateRequiredString value fieldName).
Proof.
  unfold explained, validateRequiredString.
  destruct value as [| |b|x|s|items|properties];
    try (cbn; eexists; reflexivity).
  destruct (Nat.eqb (String.length (JSString.trim s)) 0);
    [cbn; eexists; reflexivity|].
  destruct (Nat.ltb 255 (String.length s)); cbn; [eexists|]; reflexivity.
Qed.

Lemma validateOptionalString_valid value fieldName :
  isValid (validateOptionalString value fieldName) = true <-> optionalString value.
Proof.
  unfold optionalString.
  destruct value as [| |b|x|s|items|properties];
    try (cbn; split; [intros _; tauto | reflexivity]);
    unfold validateOptionalString; rewrite validateRequiredString_valid;
    (split; [tauto | intros [H|[H|H]]; [discriminate | discriminate | exact H]]).
Qed.

Lemma validateOptionalString_explained value fieldName :
  explained (validateOptionalString value fieldName).
Proof.
  destruct value; try apply validateRequiredString_explained; reflexivity.
Qed.

(** X15. [validateRequiredString] accepts exactly the strings that are not blank
    and have at most 255 characters, white space included, and
    [validateOptionalString] those, [undefined] and [null]; the name of the
    field has no part in it, and each result carries a message exactly when
    it rejects. *)
Theorem string_validators_accept value fieldName :
  (isValid (validateRequiredString value fieldName) = true <-> requiredString value)
  /\ (isValid (validateOptionalString value fieldName) = true
      <-> optionalString value)
  /\ (forall other,
        isValid (validateRequiredString value other)
        = isValid (validateRequiredString value fieldName))
  /\ explained (validateRequiredString value fieldName)
  /\ explained (validateOptionalString value fieldName).
Proof.
  split; [apply validateRequiredString_valid|].
  split; [apply validateOptionalString_valid|].
  split; [|split; [apply validateRequiredString_explained
                  |apply validateOptionalString_explained]].
  intros other. unfold validateRequiredString.
  destruct value as [| |b|x|s|items|properties]; try reflexivity.
  destruct (Nat.eqb (String.length (JSString.trim s)) 0); [reflexivity|].
  now destruct (Nat.ltb 255 (String.length s)).
Qed.

Lemma inClass_lowerChar class c :
  inClass class (JSString.lowerChar c) = inClass class c.
Proof.
  destruct c as [[|] [|] [|] [|] [|] [|] [|] [|]]; destruct class;
    vm_compute; reflexivity.
Qed.

Lemma inClass_not_isWhiteSpace class c :
  inClass class c = true -> JSString.isWhiteSpace c = false.
Proof.
  destruct c as [[|] [|] [|] [|] [|] [|] [|] [|]]; destruct class;
    vm_compute; congruence.
Qed.

Lemma inClass_Hyphen c : inClass Hyphen c = true -> c = "-"%char.
Proof.
  destruct c as [[|] [|] [|] [|] [|] [|] [|] [|]]; vm_compute; congruence.
Qed.

Lemma test_toLowerCase pattern s :
  test pattern (JSString.toLowerCase s) = test pattern s.
Proof.
  revert s. induction pattern as [|class pattern IH]; intros [|c s]; cbn;
    try reflexivity.
  now rewrite inClass_lowerChar, IH.
Qed.

Lemma test_length pattern s :
  test pattern s = true -> String.length s = List.length pattern.
Proof.
  revert s. induction pattern as [|class pattern IH]; intros [|c s]; cbn;
    try discriminate; [reflexivity|].
  intros H. apply andb_true_iff in H as [_ H]. f_equal. now apply IH.
Qed.

Lemma test_get pattern s i class :
  test pattern s = true -> nth_error pattern i = Some class ->
  exists c, String.get i s = Some c /\ inClass class c = true.
Proof.
  revert s i. induction pattern as [|class' pattern IH]; intros [|c s] i; cbn;
    try discriminate; try (now destruct i).
  intros H. apply andb_true_iff in H as [Hc H]. destruct i as [|i]; cbn.
  - intros Hi. injection Hi as <-. now exists c.
  - now apply IH.
Qed.

Lemma test_trimStart pattern s : test pattern s = true -> JSString.trimStart s = s.
Proof.
  destruct pattern as [|class pattern]; destruct s as [|c s]; cbn;
    try discriminate; [reflexivity|].
  intros H. apply andb_true_iff in H as [Hc _].
  now rewrite (inClass_not_isWhiteSpace _ _ Hc).
Qed.

Lemma test_trimEnd pattern s : test pattern s = true -> JSString.trimEnd s = s.
Proof.
  revert s. induction pattern as [|class pattern IH]; intros [|c s]; cbn;
    try discriminate; [reflexivity|].
  intros H. apply andb_true_iff in H as [Hc H]. rewrite (IH s H).
  destruct s; [|reflexivity]. now rewrite (inClass_not_isWhiteSpace _ _ Hc).
Qed.

Lemma validateUUID_valid value fieldName :
  (isValid (validateUUID value fieldName) = true
   <-> exists s, value = JString s /\ isUUID s = true)
  /\ explained (validateUUID value fieldName)
  /\ forall s,
       isValid (validateUUID (JString (JSString.toLowerCase s)) fieldName)
       = isValid (validateUUID (JString s) fieldName).
Proof.
  unfold validateUUID, explained, isUUID. split; [|split].
  - destruct value as [| |b|x|s|items|properties];
      try (split; [discriminate | intros (s' & H & _); discriminate]).
    destruct (test uuidPattern s) eqn:Ht; cbn [negb isValid valid invalid].
    + split; [|reflexivity]. intros _. now exists s.
    + split; [discriminate|]. intros (s' & H & Hs). injection H as H. subst s'.
      congruence.
  - destruct value as [| |b|x|s|items|properties];
      try (cbn; eexists; reflexivity).
    destruct (test uuidPattern s); cbn; [|eexists]; reflexivity.
  - intros s. now rewrite test_toLowerCase.
Qed.

(** X16. An identifier that passes [validateUUID] has 36 characters with hyphens
    as its 9th, 14th, 19th and 24th; it is not empty, so that as the scope of
    a search or of the statistics it does scope them; and trimming or
    lowering it changes nothing in what the validator says. *)
Theorem validated_identifier s fieldName :
  isValid (validateUUID (JString s) fieldName) = true ->
  String.length s = 36%nat
  /\ String.get 8 s = Some "-"%char /\ String.get 13 s = Some "-"%char
  /\ String.get 18 s = Some "-"%char /\ String.get 23 s = Some "-"%char
  /\ JSString.truthy s = true
  /\ JSString.trim s = s
  /\ isUUID (JSString.toLowerCase s) = true
  /\ forall data, inScope (Some s) data = tasksOf s data.
Proof.
  unfold validateUUID. destruct (test uuidPattern s) eqn:Ht; [|discriminate].
  intros _. pose proof (test_length _ _ Ht) as Hlen.
  assert (forall i, nth_error uuidPattern i = Some Hyphen ->
            String.get i s = Some "-"%char) as Hh.
  { intros i Hi. destruct (test_get _ _ _ _ Ht Hi) as (c & -> & Hc).
    now rewrite (inClass_Hyphen c Hc). }
  assert (JSString.truthy s = true) as Htruthy by (now destruct s).
  split; [exact Hlen|]. repeat (split; [now apply Hh|]).
  split; [exact Htruthy|].
  split; [unfold JSString.trim;
          now rewrite (test_trimStart _ _ Ht), (test_trimEnd _ _ Ht)|].
  split; [unfold isUUID; now rewrite test_toLowerCase|].
  intros data. unfold inScope, tasksOf. now rewrite Htruthy.
Qed.

Lemma validated_identifier_witness :
  String.length "123e4567-e89b-12d3-A456-426614174000" = 36%nat
  /\ String.get 8 "123e4567-e89b-12d3-A456-426614174000" = Some "-"%char
  /\ String.get 13 "123e4567-e89b-12d3-A456-426614174000" = Some "-"%char
  /\ String.get 18 "123e4567-e89b-12d3-A456-426614174000" = Some "-"%char
  /\ String.get 23 "123e4567-e89b-12d3-A456-426614174000" = Some "-"%char
  /\ JSString.truthy "123e4567-e89b-12d3-A456-426614174000" = true
  /\ JSString.trim "123e4567-e89b-12d3-A456-426614174000"
     = "123e4567-e89b-12d3-A456-426614174000"
  /\ isUUID (JSString.toLowerCase "123e4567-e89b-12d3-A456-426614174000") = true
  /\ forall data,
       inScope (Some "123e4567-e89b-12d3-A456-426614174000") data
       = tasksOf "123e4567-e89b-12d3-A456-426614174000" data.
Proof.
  apply (validated_identifier "123e4567-e89b-12d3-A456-426614174000" "id").
  vm_compute. reflexivity.
Defined.

(** ** Trimming *)

Lemma length_trimStart s :
  (String.length (JSString.trimStart s) <= String.length s)%nat.
Proof.
  induction s as [|c s IH]; cbn; [lia|].
  destruct (JSString.isWhiteSpace c); cbn; lia.
Qed.

Lemma length_trimEnd s :
  (String.length (JSString.trimEnd s) <= String.length s)%nat.
Proof.
  induction s as [|c s IH]; cbn; [lia|].
  destruct (JSString.trimEnd s) as [|d t].
  - destruct (JSString.isWhiteSpace c); cbn; lia.
  - cbn in *. lia.
Qed.

Lemma length_trim s : (String.length (JSString.trim s) <= String.length s)%nat.
Proof.
  unfold JSString.trim. pose proof (length_trimEnd (JSString.trimStart s)).
  pose proof (length_trimStart s). lia.
Qed.

Lemma trimEnd_idempotent s :
  JSString.trimEnd (JSString.trimEnd s) = JSString.trimEnd s.
Proof.
  induction s as [|c s IH]; [reflexivity|]. cbn [JSString.trimEnd].
  destruct (JSString.trimEnd s) as [|d t] eqn:Ht.
  - destruct (JSString.isWhiteSpace c) eqn:Hc; [reflexivity|].
    cbn. now rewrite Hc.
  - cbn [JSString.trimEnd] in *. now rewrite IH.
Qed.

Lemma trimStart_head s :
  match JSString.trimStart s with
  | EmptyString => True
  | String c _ => JSString.isWhiteSpace c = false
  end.
Proof.
  induction s as [|c s IH]; cbn; [exact I|].
  destruct (JSString.isWhiteSpace c) eqn:Hc; [exact IH | exact Hc].
Qed.

Lemma trimStart_trimEnd s :
  match s with
  | EmptyString => True
  | String c _ => JSString.isWhiteSpace c = false
  end ->
  JSString.trimStart (JSString.trimEnd s) = JSString.trimEnd s.
Proof.
  destruct s as [|c s]; [reflexivity|]. intros Hc. cbn [JSString.trimEnd].
  destruct (JSString.trimEnd s); rewrite ?Hc; cbn [JSString.trimStart];
    now rewrite Hc.
Qed.

Lemma trim_idempotent s : JSString.trim (JSString.trim s) = JSString.trim s.
Proof.
  unfold JSString.trim.
  rewrite (trimStart_trimEnd _ (trimStart_head s)). apply trimEnd_idempotent.
Qed.

Lemma acceptable_trim s :
  acceptableString s ->
  (1 <= String.length (JSString.trim s) <= 255)%nat /\ JSString.truthy s = true.
Proof.
  intros [Hne Hlen]. pose proof (length_trim s). split.
  - destruct (JSString.trim s); [now destruct Hne | cbn in *; lia].
  - destruct s; [now destruct Hne | reflexivity].
Qed.

(** ** The bodies of the requests *)

Lemma notAnObject_isBody data : notAnObject data = false <-> isBody data.
Proof.
  unfold isBody, notAnObject.
  destruct data as [| |b|x|s|items|properties]; cbn [toBoolean typeof negb orb];
    rewrite ?orb_true_r;
    (split;
     [ first [ discriminate
             | intros _; first [ left; eexists; reflexivity
                               | right; eexists; reflexivity ] ]
     | first [ intros [[? H]|[? H]]; discriminate H | reflexivity ] ]).
Qed.

Lemma requiredString_toBoolean value : requiredString value -> toBoolean value = true.
Proof.
  intros (s & -> & Hs). exact (proj2 (acceptable_trim s Hs)).
Qed.

Lemma list_bodies data :
  (isValid (validateCreateTaskList data) = true
   <-> isBody data /\ requiredString (get data "name"))
  /\ isValid (validateUpdateTaskList data) = isValid (validateCreateTaskList data)
  /\ explained (validateCreateTaskList data)
  /\ explained (validateUpdateTaskList data).
Proof.
  pose proof (notAnObject_isBody data) as Hbody.
  pose proof (validateRequiredString_valid (get data "name") "name") as Hname.
  pose proof (validateRequiredString_explained (get data "name") "name") as He.
  unfold validateCreateTaskList, validateUpdateTaskList, explained in *.
  destruct (notAnObject data).
  - cbn. split; [|split; [reflexivity | split; eexists; reflexivity]].
    split; [discriminate|]. intros [H _]. now apply Hbody in H.
  - destruct (isValid (validateRequiredString (get data "name") "name")) eqn:Hv;
      cbn [negb].
    + rewrite (requiredString_toBoolean _ (proj1 Hname eq_refl)). cbn.
      split; [|now repeat split]. split; [|reflexivity]. intros _.
      split; [now apply Hbody | now apply Hname].
    + rewrite Hv. split; [|split].
      * split; [discriminate|]. intros [_ H]. apply Hname in H. discriminate.
      * destruct (toBoolean (get data "name")); cbn; [exact Hv | reflexivity].
      * split; [exact He|].
        destruct (toBoolean (get data "name")); cbn;
          [rewrite Hv; exact He | eexists; reflexivity].
Qed.

(** X17. [validateCreateTaskList] accepts exactly the objects (and arrays) whose
    [name] is a string that is not blank and has at most 255 characters;
    [validateUpdateTaskList] accepts the same bodies, its test that a name is
    provided changing only the message; both carry a message exactly when
    they reject. *)
Theorem list_bodies_accepted data :
  (isValid (validateCreateTaskList data) = true
   <-> isBody data /\ requiredString (get data "name"))
  /\ isValid (validateUpdateTaskList data) = isValid (validateCreateTaskList data)
  /\ explained (validateCreateTaskList data)
  /\ explained (validateUpdateTaskList data).
Proof. exact (list_bodies data). Qed.

Lemma isUndefined_spec value : isUndefined value = true <-> value = JUndefined.
Proof. destruct value; cbn; split; congruence. Qed.

Lemma explained_invalid r : explained r -> isValid r = false ->
  exists message, error r = Some message.
Proof. unfold explained. intros H Hv. now rewrite Hv in H. Qed.

Lemma validateUpdateTask_isValid data :
  let title := get data "title" in
  let time := get data "time" in
  let completed := get data "completed" in
  isValid (validateUpdateTask data)
  = negb (notAnObject data)
    && (toBoolean title || toBoolean time || negb (isUndefined completed))
    && (isUndefined title || isValid (validateRequiredString title "title"))
    && (isUndefined time || isValid (validateOptionalString time "time"))
    && (isUndefined completed
        || match typeof completed with TBoolean => true | _ => false end)
  /\ explained (validateUpdateTask data).
Proof.
  intros title time completed.
  pose proof (validateRequiredString_explained title "title") as ET.
  pose proof (validateOptionalString_explained time "time") as EM.
  unfold validateUpdateTask, explained. fold title time completed.
  destruct (notAnObject data); [split; [reflexivity | eexists; reflexivity]|].
  destruct (toBoolean title), (toBoolean time), (isUndefined completed),
    (isUndefined title), (isUndefined time); cbn [negb andb orb];
    try (split; [reflexivity | eexists; reflexivity]);
    try destruct (isValid (validateRequiredString title "title")) eqn:HT;
    try destruct (isValid (validateOptionalString time "time")) eqn:HM;
    cbn [negb andb orb isValid valid]; rewrite ?HT, ?HM;
    try (split; [reflexivity | first [ reflexivity
                                     | now apply explained_invalid ]]);
    destruct (typeof completed); cbn [negb andb orb isValid valid invalid];
    (split; [reflexivity | first [reflexivity | eexists; reflexivity]]).
Qed.

Lemma validateCreateTask_isValid data :
  isValid (validateCreateTask data)
  = negb (notAnObject data)
    && isValid (validateRequiredString (get data "title") "title")
    && isValid (validateOptionalString (get data "time") "time")
    && isValid (validateUUID (get data "listId") "listId")
  /\ explained (validateCreateTask data).
Proof.
  pose proof (validateRequiredString_explained (get data "title") "title") as ET.
  pose proof (validateOptionalString_explained (get data "time") "time") as EM.
  pose proof (proj1 (proj2 (validateUUID_valid (get data "listId") "listId")))
    as EU.
  unfold validateCreateTask, explained.
  destruct (notAnObject data); [split; [reflexivity | eexists; reflexivity]|].
  destruct (isValid (validateRequiredString _ _)) eqn:HT; cbn [negb andb];
    [|rewrite HT; split; [reflexivity | now apply explained_invalid]].
  destruct (isValid (validateOptionalString _ _)) eqn:HM; cbn [negb andb];
    [|rewrite HM; split; [reflexivity | now apply explained_invalid]].
  destruct (isValid (validateUUID _ _)) eqn:HU; cbn [negb andb];
    [|rewrite HU; split; [reflexivity | now apply explained_invalid]].
  split; reflexivity.
Qed.

Lemma task_bodies data :
  (isValid (validateCreateTask data) = true
   <-> isBody data
       /\ requiredString (get data "title")
       /\ optionalString (get data "time")
       /\ exists s, get data "listId" = JString s /\ isUUID s = true)
  /\ (isValid (validateUpdateTask data) = true
      <-> isBody data
          /\ (get data "title" = JUndefined \/ requiredString (get data "title"))
          /\ optionalString (get data "time")
          /\ (get data "completed" = JUndefined
              \/ exists b, get data "completed" = JBoolean b)
          /\ (requiredString (get data "title")
              \/ requiredString (get data "time")
              \/ exists b, get data "completed" = JBoolean b))
  /\ explained (validateCreateTask data)
  /\ explained (validateUpdateTask data).
Proof.
  destruct (validateCreateTask_isValid data) as [Hc Ec].
  destruct (validateUpdateTask_isValid data) as [Hu Eu].
  split; [|split; [|split; assumption]].
  - rewrite Hc, !andb_true_iff, negb_true_iff, notAnObject_isBody,
      validateRequiredString_valid, validateOptionalString_valid.
    rewrite (proj1 (validateUUID_valid _ _)). tauto.
  - cbv zeta in Hu.
    rewrite Hu, !andb_true_iff, !orb_true_iff, negb_true_iff, notAnObject_isBody,
      !isUndefined_spec, validateRequiredString_valid, validateOptionalString_valid.
    set (title := get data "title"). set (time := get data "time").
    set (completed := get data "completed").
    assert (match typeof completed with TBoolean => true | _ => false end = true
            <-> exists b, completed = JBoolean b) as Hb.
    { destruct completed; cbn; split; try discriminate;
        try (intros [b' H]; discriminate H); eauto. }
    assert (negb (isUndefined completed) = true <-> completed <> JUndefined) as Hn.
    { rewrite negb_true_iff, <- isUndefined_spec.
      destruct (isUndefined completed); split; congruence. }
    rewrite Hb, Hn. split.
    + intros ((((Hbody & Hone) & Ht) & Hm) & Hcompleted).
      assert (optionalString time) as Hopt
        by (destruct Hm as [->|Hm]; [now left | exact Hm]).
      repeat split; trivial.
      destruct Hone as [[Hone|Hone]|Hone].
      * left. destruct Ht as [Ht|Ht]; [now rewrite Ht in Hone | exact Ht].
      * right. left.
        destruct Hopt as [H|[H|H]]; [now rewrite H in Hone
                                    | now rewrite H in Hone | exact H].
      * right. right. destruct Hcompleted as [H|H]; [contradiction | exact H].
    + intros (Hbody & Ht & Hm & Hcompleted & Hone).
      repeat split; trivial; [|now right].
      destruct Hone as [H|[H|[b H]]].
      * left. left. now apply requiredString_toBoolean.
      * left. right. now apply requiredString_toBoolean.
      * right. rewrite H. discriminate.
Qed.

(** X18. [validateCreateTask] accepts exactly the objects (and arrays) with a
    [title] that is a string, not blank and of at most 255 characters, a
    [time] that is absent, null or such a string, and a [listId] that is a
    UUID.  [validateUpdateTask] accepts exactly those where [title] is
    absent or such a string, [time] absent, null or such a string,
    [completed] absent or a boolean, and at least one of the three is given
    as a string or a boolean: a body with only a null [time] is rejected.
    Both carry a message exactly when they reject. *)
Theorem task_bodies_accepted data :
  (isValid (validateCreateTask data) = true
   <-> isBody data
       /\ requiredString (get data "title")
       /\ optionalString (get data "time")
       /\ exists s, get data "listId" = JString s /\ isUUID s = true)
  /\ (isValid (validateUpdateTask data) = true
      <-> isBody data
          /\ (get data "title" = JUndefined \/ requiredString (get data "title"))
          /\ optionalString (get data "time")
          /\ (get data "completed" = JUndefined
              \/ exists b, get data "completed" = JBoolean b)
          /\ (requiredString (get data "title")
              \/ requiredString (get data "time")
              \/ exists b, get data "completed" = JBoolean b))
  /\ explained (validateCreateTask data)
  /\ explained (validateUpdateTask data).
Proof. exact (task_bodies data). Qed.

(** ** From an accepted body to the store *)

Lemma saveThen_Return {A} data (a x : A) message w w' :
  saveThen data a message w = (Return x, w') ->
  x = a /\ canWrite w = true /\ w' = afterWrite w data.
Proof.
  destruct (canWrite w) eqn:Hc.
  - rewrite (saveThen_canWrite _ _ _ _ Hc). intros H. now injection H as <- <-.
  - destruct (saveThen_cannot data a message w Hc) as (w2 & -> & _). discriminate.
Qed.

Lemma find_existsb_iff {A} (p : A -> bool) a :
  existsb p a = match find p a with Some _ => true | None => false end.
Proof.
  induction a as [|x a IH]; [reflexivity|]. cbn. now destruct (p x).
Qed.

(** X19. A body that [validateUpdateTaskList] accepts is one that
    [validateCreateTaskList] accepts, and its name decides what both services
    do with it, whatever is stored.  [createTaskList] throws "A task list
    with this name already exists" (409) when a stored name is the given one
    case aside; otherwise it stores a list under the name trimmed, which has
    1 to 255 characters, or throws "Failed to create task list" (500) and
    changes no file when the file system refuses the save.
    [updateTaskList] of a stored list throws 409 when another list has the
    name case aside; otherwise it renames the list to the name trimmed, in
    its place, or throws "Failed to update task list" (500) and changes no
    file when the file system refuses the save; of an identifier that no
    list has it returns null. *)
Theorem accepted_list_name_is_stored_trimmed data name :
  isValid (validateUpdateTaskList data) = true ->
  get data "name" = JString name ->
  isValid (validateCreateTaskList data) = true
  /\ (forall w,
        if existsb (fun list =>
                      String.eqb (JSString.toLowerCase (TaskList.name list))
                        (JSString.toLowerCase name))
             (taskLists (loaded w))
        then
          createTaskList (CreateTaskListDTO.mk name) w
          = (Throw (AppError "A task list with this name already exists" 409),
             after readData w)
        else if canWrite w then
          exists created w1,
            createTaskList (CreateTaskListDTO.mk name) w = (Return created, w1)
            /\ trimOf name (TaskList.name created)
            /\ (1 <= String.length (TaskList.name created) <= 255)%nat
            /\ In created (taskLists (loaded w1))
        else
          exists w1,
            createTaskList (CreateTaskListDTO.mk name) w
            = (Throw (AppError "Failed to create task list" 500), w1)
            /\ dataDir w1 = dataDir w)
  /\ (forall w id i,
        firstWith (fun list => String.eqb (TaskList.id list) id)
          (taskLists (loaded w)) i ->
        if nameTaken id name (taskLists (loaded w)) then
          updateTaskList id (UpdateTaskListDTO.mk (Some name)) w
          = (Throw (AppError "A task list with this name already exists" 409),
             after readData w)
        else if canWrite w then
          exists updated w2,
            updateTaskList id (UpdateTaskListDTO.mk (Some name)) w
            = (Return (Some updated), w2)
            /\ TaskList.id updated = id
            /\ trimOf name (TaskList.name updated)
            /\ (1 <= String.length (TaskList.name updated) <= 255)%nat
            /\ nth_error (taskLists (loaded w2)) i = Some updated
        else
          exists w2,
            updateTaskList id (UpdateTaskListDTO.mk (Some name)) w
            = (Throw (AppError "Failed to update task list" 500), w2)
            /\ dataDir w2 = dataDir w)
  /\ (forall w id,
        (forall list, In list (taskLists (loaded w)) -> TaskList.id list <> id) ->
        updateTaskList id (UpdateTaskListDTO.mk (Some name)) w
        = (Return None, after readData w)).
Proof.
  intros Hv Hname.
  destruct (list_bodies data) as (Hiff & Hsame & _).
  rewrite Hsame in Hv. destruct (proj1 Hiff Hv) as (_ & s & Hs & Hok).
  rewrite Hname in Hs. injection Hs as <-.
  destruct (acceptable_trim name Hok) as [Hlen Htruthy].
  split; [exact Hv|]. split; [|split].
  - intros w. rewrite createTaskList_run. cbn [CreateTaskListDTO.name].
    rewrite find_existsb_iff. destruct (find _ _); [reflexivity|]. cbv zeta.
    destruct (canWrite w) eqn:Hc.
    + assert (canWrite (advance 2 1 (after readData w)) = true) as Hc1
        by exact (canWrite_after_readData _ Hc).
      rewrite (saveThen_canWrite _ _ _ _ Hc1). do 2 eexists.
      split; [reflexivity|]. cbn [TaskList.name].
      split; [apply trim_spec|]. split; [exact Hlen|].
      rewrite loaded_afterWrite. cbn [stamped taskLists].
      apply in_or_app. right. now left.
    + destruct (readData_cannot w Hc) as [Hd Hc1].
      assert (canWrite (advance 2 1 (after readData w)) = false) as Hc2
        by exact Hc1.
      destruct (saveThen_cannot
                  (mkStorageData
                     (JSArray.push (taskLists (loaded w))
                        (TaskList.mk
                           (uuids (after readData w) (drawn (after readData w)))
                           (JSString.trim name)
                           (clock (after readData w) (ticks (after readData w)))
                           (clock (after readData w)
                              (S (ticks (after readData w))))))
                     (tasks (loaded w)) (metadata (loaded w)))
                  (TaskList.mk
                     (uuids (after readData w) (drawn (after readData w)))
                     (JSString.trim name)
                     (clock (after readData w) (ticks (after readData w)))
                     (clock (after readData w) (S (ticks (after readData w)))))
                  "Failed to create task list" _ Hc2) as (w1 & Hrun & Hd1 & _).
      exists w1. split; [exact Hrun|]. rewrite Hd1. exact Hd.
  - intros w id i Hi. pose proof (firstWith_findIndex _ _ _ Hi) as Hfi.
    pose proof Hi as (cur & Hcur & Hid & _).
    apply String.eqb_eq in Hid.
    rewrite updateTaskList_run, Hfi. cbv zeta.
    cbn [UpdateTaskListDTO.name]. rewrite Htruthy, Hcur.
    unfold nameTaken. rewrite find_existsb_iff.
    destruct (find _ _); [reflexivity|].
    destruct (canWrite w) eqn:Hc.
    + assert (canWrite (advance 1 0 (after readData w)) = true) as Hc1
        by exact (canWrite_after_readData _ Hc).
      rewrite (saveThen_canWrite _ _ _ _ Hc1). do 2 eexists.
      split; [reflexivity|]. cbn [TaskList.id TaskList.name].
      split; [exact Hid|]. split; [apply trim_spec|]. split; [exact Hlen|].
      rewrite loaded_afterWrite. cbn [stamped taskLists].
      rewrite nth_error_assign by (eapply firstWith_inside; exact Hi).
      now rewrite Nat.eqb_refl.
    + destruct (readData_cannot w Hc) as [Hd Hc1].
      assert (canWrite (advance 1 0 (after readData w)) = false) as Hc2
        by exact Hc1.
      match goal with
      | |- exists w2, saveThen ?d ?a ?m ?w0 = _ /\ _ =>
          destruct (saveThen_cannot d a m w0 Hc2) as (w2 & Hrun & Hd2 & _)
      end.
      exists w2. split; [exact Hrun|]. rewrite Hd2. exact Hd.
  - intros w id Hnone. rewrite updateTaskList_run.
    now rewrite (no_id_findIndex TaskList.id _ id Hnone).
Qed.

Lemma accepted_list_name_is_stored_trimmed_witness :
  isValid (validateCreateTaskList (JObject [("name", JString " Work ")])) = true
  /\ (forall w,
        if existsb (fun list =>
                      String.eqb (JSString.toLowerCase (TaskList.name list))
                        (JSString.toLowerCase " Work "))
             (taskLists (loaded w))
        then
          createTaskList (CreateTaskListDTO.mk " Work ") w
          = (Throw (AppError "A task list with this name already exists" 409),
             after readData w)
        else if canWrite w then
          exists created w1,
            createTaskList (CreateTaskListDTO.mk " Work ") w = (Return created, w1)
            /\ trimOf " Work " (TaskList.name created)
            /\ (1 <= String.length (TaskList.name created) <= 255)%nat
            /\ In created (taskLists (loaded w1))
        else
          exists w1,
            createTaskList (CreateTaskListDTO.mk " Work ") w
            = (Throw (AppError "Failed to create task list" 500), w1)
            /\ dataDir w1 = dataDir w)
  /\ (forall w id i,
        firstWith (fun list => String.eqb (TaskList.id list) id)
          (taskLists (loaded w)) i ->
        if nameTaken id " Work " (taskLists (loaded w)) then
          updateTaskList id (UpdateTaskListDTO.mk (Some " Work ")) w
          = (Throw (AppError "A task list with this name already exists" 409),
             after readData w)
        else if canWrite w then
          exists updated w2,
            updateTaskList id (UpdateTaskListDTO.mk (Some " Work ")) w
            = (Return (Some updated), w2)
            /\ TaskList.id updated = id
            /\ trimOf " Work " (TaskList.name updated)
            /\ (1 <= String.length (TaskList.name updated) <= 255)%nat
            /\ nth_error (taskLists (loaded w2)) i = Some updated
        else
          exists w2,
            updateTaskList id (UpdateTaskListDTO.mk (Some " Work ")) w
            = (Throw (AppError "Failed to update task list" 500), w2)
            /\ dataDir w2 = dataDir w)
  /\ (forall w id,
        (forall list, In list (taskLists (loaded w)) -> TaskList.id list <> id) ->
        updateTaskList id (UpdateTaskListDTO.mk (Some " Work ")) w
        = (Return None, after readData w)).
Proof.
  apply (accepted_list_name_is_stored_trimmed
           (JObject [("name", JString " Work ")]) " Work ").
  - vm_compute. reflexivity.
  - reflexivity.
Defined.

(** The two services on the body [{ name: " Work " }] in the example: a list
    of that name is created and the list "a" is renamed to it. *)
Lemma list_named_Work :
  fst (createTaskList (CreateTaskListDTO.mk " Work ") groceries)
  = Return (TaskList.mk "d" "Work" 1704067200011 1704067200012)
  /\ fst (updateTaskList "a" (UpdateTaskListDTO.mk (Some " Work ")) groceries)
     = Return (Some (TaskList.mk "a" "Work" 1704067200002 1704067200011)).
Proof. split; vm_compute; reflexivity. Qed.

(** X20. The task of an accepted body, once [createTask] has stored it: its title
    is the title of the body trimmed, of 1 to 255 characters; its time, when
    it has one, is the trimmed time of the body, of at most 255 characters;
    it is not completed; and its list is named by a UUID and is stored. *)
Theorem accepted_task_is_stored_trimmed data title listId w created w1 :
  isValid (validateCreateTask data) = true ->
  get data "title" = JString title ->
  get data "listId" = JString listId ->
  createTask (CreateTaskDTO.mk title (timeOf data) listId) w = (Return created, w1) ->
  Task.title created = JSString.trim title
  /\ (1 <= String.length (Task.title created) <= 255)%nat
  /\ JSString.trim (Task.title created) = Task.title created
  /\ (forall time, Task.time created = Some time ->
        exists given,
          get data "time" = JString given /\ time = JSString.trim given
          /\ (1 <= String.length time <= 255)%nat /\ JSString.trim time = time)
  /\ Task.completed created = false
  /\ Task.listId created = listId
  /\ isUUID listId = true
  /\ hasList listId (loaded w1) = true
  /\ In created (tasks (loaded w1)).
Proof.
  intros Hv Htitle HlistId Hcreate.
  destruct (task_bodies data) as (Hiff & _).
  destruct (proj1 Hiff Hv) as (_ & (s & Hs & Hok) & Htime & (u & Hu & Huuid)).
  rewrite Htitle in Hs. injection Hs as <-.
  rewrite HlistId in Hu. injection Hu as <-.
  destruct (acceptable_trim title Hok) as [Hlen _].
  rewrite createTask_run in Hcreate. cbn [CreateTaskDTO.listId] in Hcreate.
  destruct (hasList listId (loaded w)) eqn:Hl; [|discriminate].
  cbv zeta in Hcreate. apply saveThen_Return in Hcreate as (-> & _ & ->).
  cbn [Task.title Task.time Task.completed Task.listId CreateTaskDTO.title
       CreateTaskDTO.time].
  split; [reflexivity|]. split; [exact Hlen|]. split; [apply trim_idempotent|].
  split; [|split; [reflexivity|split; [reflexivity|split; [exact Huuid|]]]].
  - intros time. unfold timeOf.
    destruct Htime as [->|[->|(given & -> & Hgiven)]]; try discriminate.
    cbn [option_map]. intros H. injection H as <-. exists given.
    split; [reflexivity|]. split; [reflexivity|].
    split; [exact (proj1 (acceptable_trim given Hgiven)) | apply trim_idempotent].
  - rewrite loaded_afterWrite. cbn [stamped tasks taskLists]. split.
    + unfold hasList. cbn [taskLists].
      destruct (loaded_after_readData w) as [-> _]. exact Hl.
    + apply in_or_app. right. now left.
Qed.

Lemma accepted_task_is_stored_trimmed_witness :
  Task.title
    (Task.mk "123e4567-e89b-42d3-a456-426614174001" "Eggs" (Some "6 pm") false
       "123e4567-e89b-42d3-a456-426614174000" 1704067200005%Z 1704067200006%Z)
  = JSString.trim " Eggs "
  /\ (1 <= String.length
             (Task.title
                (Task.mk "123e4567-e89b-42d3-a456-426614174001" "Eggs" (Some "6 pm") false
       "123e4567-e89b-42d3-a456-426614174000" 1704067200005%Z 1704067200006%Z))
       <= 255)%nat
  /\ JSString.trim
       (Task.title
          (Task.mk "123e4567-e89b-42d3-a456-426614174001" "Eggs" (Some "6 pm") false
       "123e4567-e89b-42d3-a456-426614174000" 1704067200005%Z 1704067200006%Z))
     = Task.title
         (Task.mk "123e4567-e89b-42d3-a456-426614174001" "Eggs" (Some "6 pm") false
       "123e4567-e89b-42d3-a456-426614174000" 1704067200005%Z 1704067200006%Z)
  /\ (forall time,
        Task.time
          (Task.mk "123e4567-e89b-42d3-a456-426614174001" "Eggs" (Some "6 pm") false
       "123e4567-e89b-42d3-a456-426614174000" 1704067200005%Z 1704067200006%Z)
        = Some time ->
        exists given,
          get (JObject [("title", JString " Eggs "); ("time", JString " 6 pm ");
              ("listId", JString "123e4567-e89b-42d3-a456-426614174000")]) "time" = JString given
          /\ time = JSString.trim given
          /\ (1 <= String.length time <= 255)%nat /\ JSString.trim time = time)
  /\ Task.completed
       (Task.mk "123e4567-e89b-42d3-a456-426614174001" "Eggs" (Some "6 pm") false
       "123e4567-e89b-42d3-a456-426614174000" 1704067200005%Z 1704067200006%Z)
     = false
  /\ Task.listId
       (Task.mk "123e4567-e89b-42d3-a456-426614174001" "Eggs" (Some "6 pm") false
       "123e4567-e89b-42d3-a456-426614174000" 1704067200005%Z 1704067200006%Z)
     = "123e4567-e89b-42d3-a456-426614174000"
  /\ isUUID "123e4567-e89b-42d3-a456-426614174000" = true
  /\ hasList "123e4567-e89b-42d3-a456-426614174000"
       (loaded (after (createTask
              (CreateTaskDTO.mk " Eggs " (Some " 6 pm ")
                 "123e4567-e89b-42d3-a456-426614174000")) pantry)) = true
  /\ In (Task.mk "123e4567-e89b-42d3-a456-426614174001" "Eggs" (Some "6 pm") false
       "123e4567-e89b-42d3-a456-426614174000" 1704067200005%Z 1704067200006%Z)
       (tasks (loaded (after (createTask
              (CreateTaskDTO.mk " Eggs " (Some " 6 pm ")
                 "123e4567-e89b-42d3-a456-426614174000")) pantry))).
Proof.
  apply (accepted_task_is_stored_trimmed
           (JObject [("title", JString " Eggs "); ("time", JString " 6 pm ");
              ("listId", JString "123e4567-e89b-42d3-a456-426614174000")])
           " Eggs " "123e4567-e89b-42d3-a456-426614174000" pantry).
  - vm_compute. reflexivity.
  - reflexivity.
  - reflexivity.
  - vm_compute. reflexivity.
Defined.

(** * One request, one change *)

Lemma readData_ticks w r w' : readData w = (r, w') -> (ticks w <= ticks w')%nat.
Proof.
  world w; intros H; cbv in H; injection H as <- <-; cbn [ticks]; lia.
Qed.

Lemma writeData_ticks data w r w' :
  writeData data w = (r, w') -> (ticks w <= ticks w')%nat.
Proof.
  world w; intros H; cbv in H; injection H as <- <-; cbn [ticks]; lia.
Qed.

Lemma loaded_same_files w w' :
  dataDir w' = dataDir w -> readOnly w' = readOnly w ->
  taskLists (loaded w') = taskLists (loaded w)
  /\ tasks (loaded w') = tasks (loaded w).
Proof.
  destruct w' as [d' ro' c' t' u' n']. cbn [dataDir readOnly]. intros -> ->.
  world w; split; reflexivity.
Qed.

Lemma loaded_advance t d w :
  taskLists (loaded (advance t d w)) = taskLists (loaded w)
  /\ tasks (loaded (advance t d w)) = tasks (loaded w).
Proof. now apply loaded_same_files. Qed.

Lemma after_readData_base w :
  clock (after readData w) = clock w /\ uuids (after readData w) = uuids w
  /\ drawn (after readData w) = drawn w
  /\ (ticks w <= ticks (after readData w))%nat
  /\ taskLists (loaded (after readData w)) = taskLists (loaded w)
  /\ tasks (loaded (after readData w)) = tasks (loaded w).
Proof.
  destruct (after_readData_oracles w) as (Hu & Hd & Hc & _).
  destruct (loaded_after_readData w) as [HL HT].
  repeat split; trivial.
  unfold after. destruct (readData w) as [r w'] eqn:H.
  exact (readData_ticks _ _ _ H).
Qed.

Lemma Step_readData w : Step w (after readData w).
Proof.
  destruct (after_readData_base w) as (Hc & Hu & Hd & Ht & HL & HT).
  unfold Step. rewrite HL, HT. repeat split; trivial; try lia. constructor.
Qed.

Lemma Step_readData_twice w : Step w (after readData (after readData w)).
Proof.
  destruct (after_readData_base w) as (Hc & Hu & Hd & Ht & HL & HT).
  destruct (after_readData_base (after readData w))
    as (Hc2 & Hu2 & Hd2 & Ht2 & HL2 & HT2).
  unfold Step. rewrite HL2, HT2, HL, HT.
  repeat split; try congruence; try lia. constructor.
Qed.

Lemma save_step {A} w W data (a : A) message :
  clock W = clock w -> uuids W = uuids w ->
  (ticks w <= ticks W)%nat -> (drawn w <= drawn W)%nat ->
  taskLists (loaded W) = taskLists (loaded w) ->
  tasks (loaded W) = tasks (loaded w) ->
  (forall w', ticks w' = S (ticks W) -> drawn w' = drawn W ->
     Change w w' (taskLists (loaded w)) (tasks (loaded w))
       (taskLists data) (tasks data)) ->
  Step w (snd (saveThen data a message W)).
Proof.
  intros Hc Hu Ht Hd HL HT Hchange. unfold Step.
  destruct (canWrite W) eqn:Hw.
  - rewrite (saveThen_canWrite _ _ _ _ Hw). cbn [snd].
    rewrite loaded_afterWrite. cbn [stamped taskLists tasks].
    split; [exact Hc|]. split; [exact Hu|].
    split; [cbn [afterWrite ticks]; lia|]. split; [exact Hd|].
    apply Hchange; reflexivity.
  - unfold saveThen.
    destruct (writeData_cannot data W Hw)
      as (w' & Hwd & Hdir & Hro & Hc' & Hu' & Hd').
    pose proof (writeData_ticks _ _ _ _ Hwd) as Ht'. rewrite Hwd. cbn [snd].
    destruct (loaded_same_files W w' Hdir Hro) as [HL' HT'].
    rewrite HL', HT', HL, HT.
    repeat split; try congruence; try lia. constructor.
Qed.

Lemma perform_Step r w : Step w (perform r w).
Proof.
  pose proof (Step_readData w) as S1. pose proof (Step_readData_twice w) as S2.
  destruct (after_readData_base w) as (Hc1 & Hu1 & Hd1 & Ht1 & HL1 & HT1).
  destruct (after_readData_base (after readData w))
    as (Hc2 & Hu2 & Hd2 & Ht2 & HL2 & HT2).
  destruct (isQuery r) eqn:Hq.
  - destruct (query_after r w Hq) as [->| ->]; assumption.
  - destruct r; try discriminate Hq; cbn [perform]; unfold after at 1.
    + rewrite createTaskList_run. destruct (find _ _); [exact S1|]. cbv zeta.
      rewrite Hu1, Hd1, Hc1.
      apply save_step; unfold advance; cbn [clock uuids ticks drawn];
        try assumption; try lia;
        try (rewrite <- HL1; apply (loaded_advance 2 1));
        try (rewrite <- HT1; apply (loaded_advance 2 1)).
      intros w' Hticks Hdrawn. cbn [taskLists tasks].
      apply (ListCreated w w' _ _ createData (ticks (after readData w))); lia.
    + rewrite updateTaskList_run. cbv zeta.
      destruct (JSArray.findIndex _ _) as [i|]; [|exact S1].
      match goal with
      | |- context [match ?c with Some _ => (Throw _, _) | None => _ end] =>
          destruct c; [exact S1|]
      end.
      destruct (nth_error _ i) as [cur|] eqn:Hcur; [|exact S1].
      rewrite Hc1.
      apply save_step; unfold advance; cbn [clock uuids ticks drawn];
        try assumption; try lia;
        try (rewrite <- HL1; apply (loaded_advance 1 0));
        try (rewrite <- HT1; apply (loaded_advance 1 0)).
      intros w' Hticks Hdrawn. cbn [taskLists tasks].
      eapply (ListUpdated w w' _ _ i cur _ (ticks (after readData w)));
        [exact Hcur | lia | lia].
    + rewrite deleteTaskList_run.
      destruct (JSArray.findIndex _ _) as [i|] eqn:Hi; [|exact S1].
      apply findIndex_Some in Hi as (cur & Hcur & Hid & _).
      apply String.eqb_eq in Hid. subst id.
      apply save_step; try assumption; try lia.
      intros w' Hticks Hdrawn. cbn [taskLists tasks].
      now apply (ListDeleted w w' _ _ i cur).
    + rewrite createTask_run.
      destruct (hasList _ _) eqn:Hl; [|exact S1]. cbv zeta.
      rewrite HL1, HT1, Hu2, Hd2, Hc2, Hu1, Hd1, Hc1.
      apply save_step; unfold advance; cbn [clock uuids ticks drawn];
        try congruence; try lia;
        try (rewrite <- HL1, <- HL2; apply (loaded_advance 2 1));
        try (rewrite <- HT1, <- HT2; apply (loaded_advance 2 1)).
      intros w' Hticks Hdrawn. cbn [taskLists tasks].
      apply (TaskCreated w w' _ _ createData
               (ticks (after readData (after readData w))));
        [exact Hl | lia | lia | lia].
    + rewrite updateTask_run. cbv zeta.
      destruct (JSArray.findIndex _ _) as [i|]; [|exact S1].
      destruct (nth_error _ i) as [cur|] eqn:Hcur; [|exact S1].
      rewrite Hc1.
      apply save_step; unfold advance; cbn [clock uuids ticks drawn];
        try assumption; try lia;
        try (rewrite <- HL1; apply (loaded_advance 1 0));
        try (rewrite <- HT1; apply (loaded_advance 1 0)).
      intros w' Hticks Hdrawn. cbn [taskLists tasks].
      apply (TaskUpdated w w' _ _ i cur updateData (ticks (after readData w)));
        [exact Hcur | lia | lia].
    + rewrite toggleTaskCompletion_run. cbv zeta.
      destruct (JSArray.findIndex _ _) as [i|]; [|exact S1].
      destruct (nth_error _ i) as [cur|] eqn:Hcur; [|exact S1].
      rewrite Hc1.
      apply save_step; unfold advance; cbn [clock uuids ticks drawn];
        try assumption; try lia;
        try (rewrite <- HL1; apply (loaded_advance 1 0));
        try (rewrite <- HT1; apply (loaded_advance 1 0)).
      intros w' Hticks Hdrawn. cbn [taskLists tasks].
      apply (TaskUpdated w w' _ _ i cur
               (UpdateTaskDTO.mk None None (Some (negb (Task.completed cur))))
               (ticks (after readData w)));
        [exact Hcur | lia | lia].
    + rewrite deleteTask_run.
      destruct (JSArray.findIndex _ _) as [i|] eqn:Hi; [|exact S1].
      apply findIndex_Some in Hi as (cur & Hcur & _).
      apply save_step; try assumption; try lia.
      intros w' Hticks Hdrawn. cbn [taskLists tasks].
      now apply (TaskDeleted w w' _ _ i cur).
Qed.

(** X21. Every request is one step: it leaves the clock and the generator of
    identifiers as they are, takes back no reading and no identifier, and
    changes the stored lists and tasks in one of seven ways or not at all.
    A created record has the next identifier and two consecutive readings
    of the clock; an updated one keeps its identifier and [createdAt]; a
    deleted list takes its tasks with it. *)
Theorem every_request_is_one_step r w : Step w (perform r w).
Proof. exact (perform_Step r w). Qed.

(** * What holds in every reachable world *)

Lemma loaded_no_directory w :
  dataDir w = None -> taskLists (loaded w) = [] /\ tasks (loaded w) = [].
Proof.
  world w; intros H; try discriminate H; split; reflexivity.
Qed.

Lemma reachable_Step (P : World -> Prop) :
  (forall w, dataDir w = None -> P w) ->
  (forall w w', Step w w' -> P w -> P w') ->
  forall w, reachable w -> P w.
Proof.
  intros Hbase Hstep w H. induction H as [w H|w r _ IH]; [now apply Hbase|].
  apply (Hstep w); [apply perform_Step | exact IH].
Qed.

Lemma NoDup_app_inv {A} (l1 l2 : list A) :
  NoDup (l1 ++ l2) ->
  NoDup l1 /\ NoDup l2 /\ forall a, In a l1 -> ~ In a l2.
Proof.
  intros H. split; [now apply NoDup_app_remove_r in H|].
  split; [now apply NoDup_app_remove_l in H|].
  induction l1 as [|x l1 IH]; [intros a []|].
  cbn in H. apply NoDup_cons_iff in H as [Hx H]. intros a [->|Ha].
  - intros Hin. apply Hx. apply in_or_app. now right.
  - now apply IH.
Qed.

Lemma map_assign {A B} (f : A -> B) i x cur (a : list A) :
  nth_error a i = Some cur -> f x = f cur ->
  map f (JSArray.assign i x a) = map f a.
Proof.
  intros Hcur Hf. rewrite (nth_error_firstn_skipn a i cur Hcur) at 2.
  unfold JSArray.assign. rewrite !map_app. cbn [map]. now rewrite Hf.
Qed.

Lemma NoDup_map_splice1 {A B} (f : A -> B) i cur (a : list A) :
  nth_error a i = Some cur -> NoDup (map f a) -> NoDup (map f (JSArray.splice1 i a)).
Proof.
  intros Hcur H. rewrite (nth_error_firstn_skipn a i cur Hcur) in H.
  unfold JSArray.splice1. rewrite map_app in *. cbn [map] in H.
  now apply NoDup_remove_1 in H.
Qed.

Lemma NoDup_map_filter {A B} (f : A -> B) p (a : list A) :
  NoDup (map f a) -> NoDup (map f (filter p a)).
Proof.
  induction a as [|x a IH]; cbn; [trivial|]. intros H.
  apply NoDup_cons_iff in H as [Hx H]. destruct (p x); [|now apply IH].
  cbn. constructor; [|now apply IH]. intros Hin. apply Hx.
  apply in_map_iff in Hin as (y & Hy & Hin). apply filter_In in Hin as [Hin _].
  apply in_map_iff. now exists y.
Qed.

Lemma In_map_splice1 {A B} (f : A -> B) i (a : list A) y :
  In y (map f (JSArray.splice1 i a)) -> In y (map f a).
Proof.
  intros H. apply in_map_iff in H as (x & Hx & Hin). apply in_map_iff.
  exists x. split; [exact Hx | now apply In_splice1 in Hin].
Qed.

Lemma In_map_filter {A B} (f : A -> B) p (a : list A) y :
  In y (map f (filter p a)) -> In y (map f a).
Proof.
  intros H. apply in_map_iff in H as (x & Hx & Hin). apply in_map_iff.
  exists x. split; [exact Hx | now apply filter_In in Hin].
Qed.

Lemma NoDup_app_sub {A} (a b a' b' : list A) :
  NoDup (a ++ b) -> NoDup a' -> NoDup b' ->
  (forall x, In x a' -> In x a) -> (forall x, In x b' -> In x b) ->
  NoDup (a' ++ b').
Proof.
  intros H Ha Hb Hia Hib. apply NoDup_app_inv in H as (_ & _ & Hd).
  apply NoDup_app; trivial. intros x Hx Hx'. apply (Hd x); auto.
Qed.

Lemma reachable_unique w :
  reachable w ->
  (forall m n, (m < drawn w)%nat -> (n < drawn w)%nat ->
     uuids w m = uuids w n -> m = n) ->
  NoDup (identifiers (loaded w))
  /\ forall id, In id (identifiers (loaded w)) ->
       exists k, (k < drawn w)%nat /\ id = uuids w k.
Proof.
  intros H. revert w H.
  apply (reachable_Step
           (fun w =>
              (forall m n, (m < drawn w)%nat -> (n < drawn w)%nat ->
                 uuids w m = uuids w n -> m = n) ->
              NoDup (identifiers (loaded w))
              /\ forall id, In id (identifiers (loaded w)) ->
                   exists k, (k < drawn w)%nat /\ id = uuids w k)).
  - intros w Hdir _. unfold identifiers.
    destruct (loaded_no_directory w Hdir) as [-> ->]. split; [constructor|].
    intros id [].
  - intros w w' (_ & Hu & _ & Hd & Hchange) IH Hinj. rewrite Hu in *.
    destruct IH as [Hnodup Hgiven].
    { intros m n Hm Hn. apply Hinj; lia. }
    assert (forall id, In id (identifiers (loaded w)) ->
              exists k, (k < drawn w')%nat /\ id = uuids w k) as Hgiven'.
    { intros id Hid. destruct (Hgiven id Hid) as (k & Hk & ->).
      exists k. split; [lia | reflexivity]. }
    assert ((drawn w < drawn w')%nat ->
            ~ In (uuids w (drawn w)) (identifiers (loaded w))) as Hnew.
    { intros Hlt Hin. destruct (Hgiven _ Hin) as (k & Hk & He).
      apply Hinj in He; lia. }
    unfold identifiers in *.
    inversion Hchange as
      [HL HT
      |createData t Ht Ht' Hlt HL HT
      |i cur name t Hcur Ht Ht' HL HT
      |i cur Hcur HL HT
      |createData t Hl Ht Ht' Hlt HL HT
      |i cur updateData t Hcur Ht Ht' HL HT
      |i cur Hcur HL HT]; clear Hchange.
    + now split.
    + rewrite map_app. cbn [map TaskList.id].
      assert (Permutation
                ((map TaskList.id (taskLists (loaded w)) ++ [uuids w (drawn w)])
                 ++ map Task.id (tasks (loaded w)))
                (uuids w (drawn w)
                 :: map TaskList.id (taskLists (loaded w))
                    ++ map Task.id (tasks (loaded w)))) as Hp.
      { rewrite <- app_assoc. symmetry. apply Permutation_middle. }
      split.
      * eapply Permutation_NoDup; [symmetry; exact Hp|].
        constructor; [now apply Hnew | exact Hnodup].
      * intros id Hid. apply (Permutation_in _ Hp) in Hid as [<-|Hid];
          [now exists (drawn w) | now apply Hgiven'].
    + erewrite (map_assign TaskList.id); [|exact Hcur|reflexivity]. now split.
    + split.
      * apply (NoDup_app_sub _ _ _ _ Hnodup).
        -- apply (NoDup_map_splice1 _ _ cur); [exact Hcur|].
           now apply NoDup_app_remove_r in Hnodup.
        -- apply NoDup_map_filter. now apply NoDup_app_remove_l in Hnodup.
        -- apply In_map_splice1.
        -- apply In_map_filter.
      * intros id Hid. apply Hgiven'. apply in_app_or in Hid as [Hid|Hid];
          apply in_or_app; [left; eapply In_map_splice1; exact Hid
                           |right; eapply In_map_filter; exact Hid].
    + rewrite map_app. cbn [map Task.id]. rewrite app_assoc.
      assert (Permutation
                ((map TaskList.id (taskLists (loaded w))
                  ++ map Task.id (tasks (loaded w))) ++ [uuids w (drawn w)])
                (uuids w (drawn w)
                 :: map TaskList.id (taskLists (loaded w))
                    ++ map Task.id (tasks (loaded w)))) as Hp.
      { symmetry. apply Permutation_cons_append. }
      split.
      * eapply Permutation_NoDup; [symmetry; exact Hp|].
        constructor; [now apply Hnew | exact Hnodup].
      * intros id Hid. apply (Permutation_in _ Hp) in Hid as [<-|Hid];
          [now exists (drawn w) | now apply Hgiven'].
    + erewrite (map_assign Task.id); [|exact Hcur|reflexivity]. now split.
    + split.
      * apply (NoDup_app_sub _ _ _ _ Hnodup).
        -- now apply NoDup_app_remove_r in Hnodup.
        -- apply (NoDup_map_splice1 _ _ cur); [exact Hcur|].
           now apply NoDup_app_remove_l in Hnodup.
        -- trivial.
        -- apply In_map_splice1.
      * intros id Hid. apply Hgiven'. apply in_app_or in Hid as [Hid|Hid];
          apply in_or_app; [now left | right; eapply In_map_splice1; exact Hid].
Qed.

(** X22. In every world the services reach from a new installation, as long as
    the identifiers the generator has given so far are different from one
    another, no two stored records share an identifier, lists and tasks
    taken together, and every stored identifier is one the generator has
    given. *)
Theorem reachable_identifiers_are_unique w :
  reachable w ->
  (forall m n, (m < drawn w)%nat -> (n < drawn w)%nat ->
     uuids w m = uuids w n -> m = n) ->
  NoDup (identifiers (loaded w))
  /\ forall id, In id (identifiers (loaded w)) ->
       exists k, (k < drawn w)%nat /\ id = uuids w k.
Proof. exact (reachable_unique w). Qed.

Lemma reachable_identifiers_are_unique_witness :
  NoDup (identifiers (loaded groceries))
  /\ forall id, In id (identifiers (loaded groceries)) ->
       exists k, (k < drawn groceries)%nat /\ id = uuids groceries k.
Proof.
  apply (reachable_identifiers_are_unique groceries groceries_reachable).
  intros m n. replace (drawn groceries) with 3%nat by (vm_compute; reflexivity).
  replace (uuids groceries) with exampleUuids by (vm_compute; reflexivity).
  intros Hm Hn.
  destruct m as [|[|[|m]]]; destruct n as [|[|[|n]]]; try lia;
    cbn; congruence.
Defined.

(** X23. In every world the services reach from a new installation, with a clock
    that never goes back, every stored list and task was created no later
    than it was last updated, and last updated no later than the clock
    shows. *)
Theorem reachable_timestamps_are_in_order w :
  reachable w ->
  (forall m n, (m <= n)%nat -> clock w m <= clock w n) ->
  (forall list, In list (taskLists (loaded w)) ->
     inOrder (TaskList.createdAt list) (TaskList.updatedAt list) (clock w (ticks w)))
  /\ (forall task, In task (tasks (loaded w)) ->
        inOrder (Task.createdAt task) (Task.updatedAt task) (clock w (ticks w))).
Proof.
  intros H. revert w H.
  apply (reachable_Step
           (fun w =>
              (forall m n, (m <= n)%nat -> clock w m <= clock w n) ->
              (forall list, In list (taskLists (loaded w)) ->
                 inOrder (TaskList.createdAt list) (TaskList.updatedAt list)
                   (clock w (ticks w)))
              /\ (forall task, In task (tasks (loaded w)) ->
                    inOrder (Task.createdAt task) (Task.updatedAt task)
                      (clock w (ticks w))))).
  - intros w Hdir _. destruct (loaded_no_directory w Hdir) as [-> ->].
    split; intros ? [].
  - intros w w' (Hc & _ & Hticks & _ & Hchange) IH Hmono. rewrite Hc in *.
    destruct (IH Hmono) as [HLs HTs]. clear IH. unfold inOrder in *.
    assert (clock w (ticks w) <= clock w (ticks w')) as Hnow
      by (apply Hmono; lia).
    assert (forall list, In list (taskLists (loaded w)) ->
              TaskList.createdAt list <= TaskList.updatedAt list
              <= clock w (ticks w')) as HLs'
      by (intros list Hin; specialize (HLs list Hin); lia).
    assert (forall task, In task (tasks (loaded w)) ->
              Task.createdAt task <= Task.updatedAt task <= clock w (ticks w'))
      as HTs'
      by (intros task Hin; specialize (HTs task Hin); lia).
    inversion Hchange as
      [HL HT
      |createData t Ht Ht' Hlt HL HT
      |i cur name t Hcur Ht Ht' HL HT
      |i cur Hcur HL HT
      |createData t Hl Ht Ht' Hlt HL HT
      |i cur updateData t Hcur Ht Ht' HL HT
      |i cur Hcur HL HT]; clear Hchange.
    + now split.
    + split; [|exact HTs']. intros list Hin.
      apply in_app_or in Hin as [Hin|[<-|[]]]; [now apply HLs'|].
      cbn [TaskList.createdAt TaskList.updatedAt].
      pose proof (Hmono t (S t)). pose proof (Hmono (S t) (ticks w')). lia.
    + split; [|exact HTs']. intros list Hin.
      apply In_assign in Hin as [->|Hin]; [|now apply HLs'].
      cbn [TaskList.createdAt TaskList.updatedAt].
      pose proof (HLs cur (nth_error_In _ _ Hcur)).
      pose proof (Hmono (ticks w) t). pose proof (Hmono t (ticks w')). lia.
    + split.
      * intros list Hin. apply HLs'. now apply In_splice1 in Hin.
      * intros task Hin. apply HTs'. now apply filter_In in Hin.
    + split; [exact HLs'|]. intros task Hin.
      apply in_app_or in Hin as [Hin|[<-|[]]]; [now apply HTs'|].
      cbn [Task.createdAt Task.updatedAt].
      pose proof (Hmono t (S t)). pose proof (Hmono (S t) (ticks w')). lia.
    + split; [exact HLs'|]. intros task Hin.
      apply In_assign in Hin as [->|Hin]; [|now apply HTs'].
      cbn [Task.createdAt Task.updatedAt].
      pose proof (HTs cur (nth_error_In _ _ Hcur)).
      pose proof (Hmono (ticks w) t). pose proof (Hmono t (ticks w')). lia.
    + split; [exact HLs'|].
      intros task Hin. apply HTs'. now apply In_splice1 in Hin.
Qed.

Lemma exampleClock_monotone m n :
  (m <= n)%nat -> exampleClock m <= exampleClock n.
Proof.
  induction 1 as [|n _ IH]; [lia|]. cbn [exampleClock]. lia.
Qed.

Lemma reachable_timestamps_are_in_order_witness :
  (forall list, In list (taskLists (loaded groceries)) ->
     inOrder (TaskList.createdAt list) (TaskList.updatedAt list)
       (clock groceries (ticks groceries)))
  /\ (forall task, In task (tasks (loaded groceries)) ->
        inOrder (Task.createdAt task) (Task.updatedAt task)
          (clock groceries (ticks groceries))).
Proof.
  apply (reachable_timestamps_are_in_order groceries groceries_reachable).
  replace (clock groceries) with exampleClock by (vm_compute; reflexivity).
  exact exampleClock_monotone.
Defined.

(** X24. In every world the services reach from a new installation, the stored
    names of lists and the stored titles and times of tasks have no white
    space at either end. *)
Theorem reachable_text_is_trimmed w :
  reachable w ->
  (forall list, In list (taskLists (loaded w)) -> trimmed (TaskList.name list))
  /\ (forall task, In task (tasks (loaded w)) ->
        trimmed (Task.title task)
        /\ forall time, Task.time task = Some time -> trimmed time).
Proof.
  revert w.
  apply (reachable_Step
           (fun w =>
              (forall list, In list (taskLists (loaded w)) ->
                 trimmed (TaskList.name list))
              /\ (forall task, In task (tasks (loaded w)) ->
                    trimmed (Task.title task)
                    /\ forall time, Task.time task = Some time -> trimmed time))).
  - intros w Hdir. destruct (loaded_no_directory w Hdir) as [-> ->].
    split; intros ? [].
  - intros w w' (_ & _ & _ & _ & Hchange) [HLs HTs]. unfold trimmed in *.
    inversion Hchange as
      [HL HT
      |createData t Ht Ht' Hlt HL HT
      |i cur name t Hcur Ht Ht' HL HT
      |i cur Hcur HL HT
      |createData t Hl Ht Ht' Hlt HL HT
      |i cur updateData t Hcur Ht Ht' HL HT
      |i cur Hcur HL HT]; clear Hchange.
    + now split.
    + split; [|exact HTs]. intros list Hin.
      apply in_app_or in Hin as [Hin|[<-|[]]]; [now apply HLs|].
      apply trim_idempotent.
    + split; [|exact HTs]. intros list Hin.
      apply In_assign in Hin as [->|Hin]; [|now apply HLs].
      cbn [TaskList.name]. destruct name; [apply trim_idempotent|].
      apply HLs. eapply nth_error_In. exact Hcur.
    + split.
      * intros list Hin. apply HLs. now apply In_splice1 in Hin.
      * intros task Hin. apply HTs. now apply filter_In in Hin.
    + split; [exact HLs|]. intros task Hin.
      apply in_app_or in Hin as [Hin|[<-|[]]]; [now apply HTs|].
      cbn [Task.title Task.time]. split; [apply trim_idempotent|].
      intros time. destruct (CreateTaskDTO.time createData); [|discriminate].
      cbn [option_map]. intros H. injection H as <-. apply trim_idempotent.
    + split; [exact HLs|]. intros task Hin.
      apply In_assign in Hin as [->|Hin]; [|now apply HTs].
      destruct (HTs cur (nth_error_In _ _ Hcur)) as [Htitle Htime].
      cbn [Task.title Task.time]. split.
      * destruct (UpdateTaskDTO.title updateData);
          [apply trim_idempotent | exact Htitle].
      * intros time.
        destruct (UpdateTaskDTO.time updateData) as [[given|]|];
          [|discriminate|apply Htime].
        cbn [option_map]. intros H. injection H as <-. apply trim_idempotent.
    + split; [exact HLs|].
      intros task Hin. apply HTs. now apply In_splice1 in Hin.
Qed.

Lemma reachable_text_is_trimmed_witness :
  (forall list, In list (taskLists (loaded groceries)) ->
     trimmed (TaskList.name list))
  /\ (forall task, In task (tasks (loaded groceries)) ->
        trimmed (Task.title task)
        /\ forall time, Task.time task = Some time -> trimmed time).
Proof.
  exact (reachable_text_is_trimmed groceries groceries_reachable).
Defined.

(** * The health check of the storage *)

(** X25. [isStorageAccessible] never throws and touches no file.  With a
    primary file it answers whether the file can be read and written on a
    file system that is not read-only; without one it answers true when the
    data directory exists or can be created.  Its answer is not whether a
    save goes through.  It is true while every save is refused exactly on a
    read-only file system with a data directory and no primary file; it is
    false while a save goes through exactly when the primary file can be read
    but not written, since a save replaces the file and never writes to it. *)
Theorem isStorageAccessible_answer writable w :
  exists accessible w',
    isStorageAccessible writable w = (Return accessible, w')
    /\ accessible
       = match primaryFile w with
         | Some f => readable f && writable && negb (readOnly w)
         | None =>
             match dataDir w with
             | Some _ => true
             | None => negb (readOnly w)
             end
         end
    /\ primaryFile w' = primaryFile w /\ backupFile w' = backupFile w
    /\ readOnly w' = readOnly w
    /\ (accessible = true /\ canWrite w = false
        <-> readOnly w = true /\ dataDir w <> None /\ primaryFile w = None)
    /\ (accessible = false /\ canWrite w = true
        <-> readOnly w = false /\ writable = false
            /\ exists f, primaryFile w = Some f /\ readable f = true).
Proof.
  destruct writable; world w; do 2 eexists; (split; [reflexivity|]);
    (split; [reflexivity|]); (split; [reflexivity|]);
    (split; [reflexivity|]); (split; [reflexivity|]);
    unfold canWrite, primaryFile;
    cbn [dataDir readOnly storage_json readable negb andb];
    (split; (split;
     [ intros [Ha Hc]; try discriminate Ha; try discriminate Hc;
       repeat split; try discriminate; try (eexists; split; reflexivity)
     | intros (H1 & H2 & H3); try discriminate H1; try discriminate H2;
       try discriminate H3; try (now destruct H2);
       try (destruct H3 as (f & Hf & Hr); try discriminate Hf;
            injection Hf as <-; discriminate Hr);
       repeat split ])).
Qed.

(** X26. On a read-only file system with a data directory and no primary file,
    the health check answers that the storage is accessible, and every save
    fails. *)
Theorem accessible_storage_that_takes_no_save writable w data :
  readOnly w = true -> dataDir w <> None -> primaryFile w = None ->
  fst (isStorageAccessible writable w) = Return true
  /\ fst (writeData data w) = Throw (Error "Failed to save data to storage")
  /\ canWrite w = false.
Proof.
  world w; intros H1 H2 H3; try discriminate H1; try discriminate H3;
    try (now destruct H2); repeat split.
Qed.

Lemma accessible_storage_that_takes_no_save_witness :
  fst (isStorageAccessible true readOnlyBackupOnly) = Return true
  /\ fst (writeData backedUpList readOnlyBackupOnly)
     = Throw (Error "Failed to save data to storage")
  /\ canWrite readOnlyBackupOnly = false.
Proof.
  apply (accessible_storage_that_takes_no_save true readOnlyBackupOnly
           backedUpList).
  - reflexivity.
  - discriminate.
  - reflexivity.
Defined.

(** * The answer to an error *)

Lemma errorHandler_AppError isDevelopment message status :
  errorHandler isDevelopment (newAppError message status)
  = mkErrorResponse status message (getErrorCode status) None.
Proof. reflexivity. Qed.

(** X27. What a service throws, the handler answers as thrown: with the status
    and the message of the error, without details, in development and in
    production alike; and the code of the answer is NOT_FOUND, CONFLICT or
    INTERNAL_SERVER_ERROR, never UNKNOWN_ERROR. *)
Theorem service_errors_are_answered_as_thrown r w e isDevelopment :
  thrown r w = Some e ->
  exists message status code,
    e = AppError message status
    /\ errorHandler isDevelopment (newAppError message status)
       = mkErrorResponse status message code None
    /\ In (status, code)
         [(404, "NOT_FOUND"); (409, "CONFLICT"); (500, "INTERNAL_SERVER_ERROR")].
Proof.
  intros H. destruct (thrown_cases r w e H) as (message & [->|[[-> _]|[-> _]]]);
    exists message; do 2 eexists; (split; [reflexivity|]);
    (split; [apply errorHandler_AppError|]); cbn; tauto.
Qed.

Lemma service_errors_are_answered_as_thrown_witness :
  exists message status code,
    AppError "Task list not found" 404 = AppError message status
    /\ errorHandler false (newAppError message status)
       = mkErrorResponse status message code None
    /\ In (status, code)
         [(404, "NOT_FOUND"); (409, "CONFLICT"); (500, "INTERNAL_SERVER_ERROR")].
Proof.
  apply (service_errors_are_answered_as_thrown (GetTasksByListId "z") groceries).
  vm_compute. reflexivity.
Defined.

(** X28. To an error that is no [AppError] the handler answers with one of five
    statuses, each with its code; and in production the answer has no
    details and none of the error's own text: its message is one of five
    fixed ones. *)
Theorem errorHandler_discloses_nothing_in_production error isDevelopment :
  appStatusCode error = None ->
  In (responseStatus (errorHandler isDevelopment error),
      responseCode (errorHandler isDevelopment error))
    [(422, "VALIDATION_ERROR"); (400, "BAD_REQUEST"); (404, "NOT_FOUND");
     (403, "FORBIDDEN"); (500, "INTERNAL_SERVER_ERROR")]
  /\ responseDetails (errorHandler false error) = None
  /\ In (responseMessage (errorHandler false error))
       ["Validation Error"; "Invalid ID format"; "Resource not found";
        "Access denied"; "Internal Server Error"]
  /\ responseStatus (errorHandler false error)
     = responseStatus (errorHandler isDevelopment error).
Proof.
  intros Happ. unfold errorHandler, shouldExposeErrorDetails. rewrite Happ.
  destruct (String.eqb (errorName error) "ValidationError");
    [|destruct (String.eqb (errorName error) "CastError");
      [|destruct (match errorCode error with
                  | Some code => String.eqb code "ENOENT"
                  | None => false
                  end);
        [|destruct (match errorCode error with
                    | Some code => String.eqb code "EACCES"
                    | None => false
                    end)]]];
    destruct isDevelopment; cbn; tauto.
Qed.

Lemma errorHandler_discloses_nothing_in_production_witness :
  In (responseStatus
        (errorHandler true (mkJSError "TypeError" "x is undefined" None None None)),
      responseCode
        (errorHandler true (mkJSError "TypeError" "x is undefined" None None None)))
    [(422, "VALIDATION_ERROR"); (400, "BAD_REQUEST"); (404, "NOT_FOUND");
     (403, "FORBIDDEN"); (500, "INTERNAL_SERVER_ERROR")]
  /\ responseDetails
       (errorHandler false (mkJSError "TypeError" "x is undefined" None None None))
     = None
  /\ In (responseMessage
           (errorHandler false
              (mkJSError "TypeError" "x is undefined" None None None)))
       ["Validation Error"; "Invalid ID format"; "Resource not found";
        "Access denied"; "Internal Server Error"]
  /\ responseStatus
       (errorHandler false (mkJSError "TypeError" "x is undefined" None None None))
     = responseStatus
         (errorHandler true (mkJSError "TypeError" "x is undefined" None None None)).
Proof.
  apply (errorHandler_discloses_nothing_in_production
           (mkJSError "TypeError" "x is undefined" None None None) true).
  reflexivity.
Defined.

(** * Renaming a list *)

Lemma find_firstWith_Some {A} (p : A -> bool) a i x :
  firstWith p a i -> nth_error a i = Some x -> find p a = Some x.
Proof.
  revert i. induction a as [|y a IH]; intros [|i] (z & Hz & Hp & Hlt) Hx;
    cbn in Hz, Hx; try discriminate.
  - injection Hz as ->. injection Hx as ->. cbn. now rewrite Hp.
  - cbn. rewrite (Hlt O y) by (cbn; trivial; lia). apply (IH i); [|exact Hx].
    exists z. repeat split; trivial. intros j t Hj Ht.
    apply (Hlt (S j)); [lia | exact Ht].
Qed.

(** X29. Renaming a stored list, on a file system that takes the save, to a name
    that is not empty: when another list has the name as it is given, case
    aside, [updateTaskList] throws "A task list with this name already
    exists" (409) and saves nothing; otherwise (the list's own name in
    another case included) it stores the trimmed name, stamps [updatedAt],
    keeps the identifier, [createdAt], the other lists and every task, and
    the lookup of the list returns what the update returned. *)
Theorem updateTaskList_renames w id name i :
  firstWith (fun list => String.eqb (TaskList.id list) id) (taskLists (loaded w)) i ->
  canWrite w = true ->
  JSString.truthy name = true ->
  if nameTaken id name (taskLists (loaded w)) then
    updateTaskList id (UpdateTaskListDTO.mk (Some name)) w
    = (Throw (AppError "A task list with this name already exists" 409),
       after readData w)
  else
    exists cur updated w',
      nth_error (taskLists (loaded w)) i = Some cur
      /\ updateTaskList id (UpdateTaskListDTO.mk (Some name)) w
         = (Return (Some updated), w')
      /\ updated
         = TaskList.mk (TaskList.id cur) (JSString.trim name)
             (TaskList.createdAt cur)
             (clock (after readData w) (ticks (after readData w)))
      /\ taskLists (loaded w') = JSArray.assign i updated (taskLists (loaded w))
      /\ tasks (loaded w') = tasks (loaded w)
      /\ getTaskListById id w' = (Return (Some updated), w').
Proof.
  intros Hi Hc Htruthy. pose proof (firstWith_findIndex _ _ _ Hi) as Hfi.
  pose proof Hi as (cur & Hcur & Hid & _).
  rewrite updateTaskList_run, Hfi. cbv zeta.
  cbn [UpdateTaskListDTO.name]. rewrite Htruthy, Hcur.
  unfold nameTaken. rewrite find_existsb_iff.
  destruct (find _ _); [reflexivity|].
  assert (canWrite (advance 1 0 (after readData w)) = true) as Hc1
    by exact (canWrite_after_readData _ Hc).
  rewrite (saveThen_canWrite _ _ _ _ Hc1).
  do 3 eexists. split; [reflexivity|]. split; [reflexivity|].
  split; [reflexivity|]. rewrite loaded_afterWrite. cbn [stamped taskLists tasks].
  split; [reflexivity|]. split; [reflexivity|].
  rewrite getTaskListById_run, after_readData_afterWrite, loaded_afterWrite.
  cbn [stamped taskLists]. f_equal. f_equal.
  apply (find_firstWith_Some _ _ i).
  - apply firstWith_assign; [exact Hi | exact Hid].
  - rewrite nth_error_assign by (eapply firstWith_lt; exact Hi).
    now rewrite Nat.eqb_refl.
Qed.

Lemma updateTaskList_renames_witness :
  exists cur updated w',
    nth_error (taskLists (loaded groceries)) 0 = Some cur
    /\ updateTaskList "a" (UpdateTaskListDTO.mk (Some " GROCERIES ")) groceries
       = (Return (Some updated), w')
    /\ updated
       = TaskList.mk (TaskList.id cur) (JSString.trim " GROCERIES ")
           (TaskList.createdAt cur)
           (clock (after readData groceries) (ticks (after readData groceries)))
    /\ taskLists (loaded w')
       = JSArray.assign 0 updated (taskLists (loaded groceries))
    /\ tasks (loaded w') = tasks (loaded groceries)
    /\ getTaskListById "a" w' = (Return (Some updated), w').
Proof.
  pose proof (updateTaskList_renames groceries "a" " GROCERIES " 0) as H.
  replace (nameTaken "a" " GROCERIES " (taskLists (loaded groceries))) with false
    in H by (vm_compute; reflexivity).
  apply H.
  - apply findIndex_Some. vm_compute. reflexivity.
  - vm_compute. reflexivity.
  - reflexivity.
Defined.

(** * The statistics of the lists add up *)

Lemma sumOver_ext {A} (f g : A -> Z) a :
  (forall x, In x a -> f x = g x) -> sumOver f a = sumOver g a.
Proof.
  induction a as [|x a IH]; intros H; [reflexivity|]. cbn.
  rewrite (H x (or_introl eq_refl)). f_equal. apply IH. intros y Hy. apply H.
  now right.
Qed.

Lemma sumOver_add {A} (f g : A -> Z) a :
  sumOver (fun x => f x + g x) a = sumOver f a + sumOver g a.
Proof.
  unfold sumOver. induction a as [|x a IH]; cbn; [reflexivity | rewrite IH; lia].
Qed.

Lemma sumOver_zero {A} (a : list A) : sumOver (fun _ => 0) a = 0.
Proof. induction a as [|x a IH]; cbn; [reflexivity | exact IH]. Qed.

Lemma sumOver_one_list (lists : list TaskList.t) id :
  NoDup (map TaskList.id lists) ->
  (exists list, In list lists /\ TaskList.id list = id) ->
  sumOver (fun list => if String.eqb id (TaskList.id list) then 1 else 0) lists = 1.
Proof.
  induction lists as [|l lists IH]; intros Hn (list & Hin & Hid);
    [contradiction|].
  cbn in Hn. apply NoDup_cons_iff in Hn as [Hl Hn]. cbn [sumOver fold_right].
  fold (sumOver (fun list => if String.eqb id (TaskList.id list) then 1 else 0)
          lists).
  destruct (String.eqb_spec id (TaskList.id l)) as [He|He].
  - rewrite (sumOver_ext _ (fun _ => 0)); [rewrite sumOver_zero; lia|].
    intros x Hx. destruct (String.eqb_spec id (TaskList.id x)) as [Hx'|];
      [|reflexivity].
    destruct Hl. rewrite <- He, Hx'. now apply in_map.
  - destruct Hin as [->|Hin]; [now destruct He|].
    rewrite IH; [lia | exact Hn | now exists list].
Qed.

Lemma countIf_by_list (lists : list TaskList.t) (q : Task.t -> bool) T :
  NoDup (map TaskList.id lists) ->
  (forall task, In task T ->
     exists list, In list lists /\ TaskList.id list = Task.listId task) ->
  countIf q T
  = sumOver (fun list =>
               countIf (fun task =>
                          String.eqb (Task.listId task) (TaskList.id list) && q task)
                 T)
      lists.
Proof.
  intros Hn. induction T as [|t T IH]; intros Hin.
  - cbn [countIf]. now rewrite sumOver_zero.
  - cbn [countIf]. rewrite sumOver_add, <- IH
      by (intros task Ht; apply Hin; now right).
    f_equal. destruct (q t).
    + rewrite (sumOver_ext _
                 (fun list =>
                    if String.eqb (Task.listId t) (TaskList.id list) then 1 else 0))
        by (intros; now rewrite andb_true_r).
      symmetry. apply sumOver_one_list; [exact Hn|]. apply Hin. now left.
    + rewrite (sumOver_ext _ (fun _ => 0))
        by (intros; now rewrite andb_false_r).
      now rewrite sumOver_zero.
Qed.

(** X30. In a store with referential integrity where no two lists share an
    identifier, the counts of [getTaskStats] over all tasks are the sums,
    over the stored lists, of the counts of [getTaskListStats]: every task
    is counted for exactly one list. *)
Theorem statistics_of_the_lists_add_up w :
  intact (loaded w) = true ->
  NoDup (map TaskList.id (taskLists (loaded w))) ->
  exists all,
    getTaskStats None w = (Return all, after readData w)
    /\ (forall list, In list (taskLists (loaded w)) ->
          getTaskListStats (TaskList.id list) w
          = (Return (Some (computeStats (tasksOf (TaskList.id list) (loaded w)))),
             after readData w))
    /\ totalTasks all
       = sumOver (fun list =>
                    totalTasks (computeStats (tasksOf (TaskList.id list) (loaded w))))
           (taskLists (loaded w))
    /\ completedTasks all
       = sumOver (fun list =>
                    completedTasks
                      (computeStats (tasksOf (TaskList.id list) (loaded w))))
           (taskLists (loaded w))
    /\ pendingTasks all
       = sumOver (fun list =>
                    pendingTasks (computeStats (tasksOf (TaskList.id list) (loaded w))))
           (taskLists (loaded w)).
Proof.
  intros Hintact Hn. pose proof (proj1 (intact_spec _) Hintact) as Hlists.
  clear Hintact. rename Hlists into Hintact.
  eexists. split; [rewrite getTaskStats_run; reflexivity|]. split.
  - intros list Hin. rewrite getTaskListStats_run.
    destruct (find_id_Some (TaskList.id list) (taskLists (loaded w))) as (l & ->);
      [now exists list | reflexivity].
  - destruct (computeStats_counts (tasks (loaded w))) as (-> & -> & -> & _).
    assert (JSArray.length (tasks (loaded w))
            = sumOver (fun list =>
                         totalTasks
                           (computeStats (tasksOf (TaskList.id list) (loaded w))))
                (taskLists (loaded w))) as Htotal.
    { rewrite <- countIf_true.
      rewrite (countIf_by_list _ _ _ Hn Hintact).
      apply sumOver_ext. intros list _.
      destruct (computeStats_counts (tasksOf (TaskList.id list) (loaded w)))
        as (-> & _).
      unfold tasksOf. rewrite length_filter_countIf.
      clear. induction (tasks (loaded w)) as [|t T IH]; cbn; [reflexivity|].
      rewrite IH. now rewrite andb_true_r. }
    assert (countIf Task.completed (tasks (loaded w))
            = sumOver (fun list =>
                         completedTasks
                           (computeStats (tasksOf (TaskList.id list) (loaded w))))
                (taskLists (loaded w))) as Hcompleted.
    { rewrite (countIf_by_list _ _ _ Hn Hintact).
      apply sumOver_ext. intros list _.
      destruct (computeStats_counts (tasksOf (TaskList.id list) (loaded w)))
        as (_ & -> & _).
      unfold tasksOf. now rewrite countIf_filter. }
    split; [exact Htotal|]. split; [exact Hcompleted|].
    rewrite Htotal, Hcompleted.
    rewrite (sumOver_ext
               (fun list =>
                  pendingTasks (computeStats (tasksOf (TaskList.id list) (loaded w))))
               (fun list =>
                  totalTasks (computeStats (tasksOf (TaskList.id list) (loaded w)))
                  + - completedTasks
                        (computeStats (tasksOf (TaskList.id list) (loaded w))))).
    + rewrite sumOver_add.
      assert (forall (f : TaskList.t -> Z) a,
                sumOver (fun x => - f x) a = - sumOver f a) as Hopp.
      { intros f a. unfold sumOver.
        induction a as [|x a IH]; cbn; [reflexivity|]. rewrite IH. lia. }
      rewrite Hopp. lia.
    + intros list _.
      destruct (computeStats_counts (tasksOf (TaskList.id list) (loaded w)))
        as (_ & _ & -> & _).
      lia.
Qed.

Lemma statistics_of_the_lists_add_up_witness :
  exists all,
    getTaskStats None chores = (Return all, after readData chores)
    /\ (forall list, In list (taskLists (loaded chores)) ->
          getTaskListStats (TaskList.id list) chores
          = (Return
               (Some (computeStats (tasksOf (TaskList.id list) (loaded chores)))),
             after readData chores))
    /\ totalTasks all
       = sumOver (fun list =>
                    totalTasks
                      (computeStats (tasksOf (TaskList.id list) (loaded chores))))
           (taskLists (loaded chores))
    /\ completedTasks all
       = sumOver (fun list =>
                    completedTasks
                      (computeStats (tasksOf (TaskList.id list) (loaded chores))))
           (taskLists (loaded chores))
    /\ pendingTasks all
       = sumOver (fun list =>
                    pendingTasks
                      (computeStats (tasksOf (TaskList.id list) (loaded chores))))
           (taskLists (loaded chores)).
Proof.
  apply (statistics_of_the_lists_add_up chores).
  - vm_compute. reflexivity.
  - replace (map TaskList.id (taskLists (loaded chores))) with ["a"]
      by (vm_compute; reflexivity).
    constructor; [intros [] | constructor].
Defined.
